(** * Claude Nexus: memory and consolidation engine

    A shallow embedding of the Python services of the repository
    (explorer.py, preference_engine.py, sleep.py, wake.py, chat.py,
    self_representation.py and the models they use) together with theorems
    about them.

    Conventions.
    - Python [int] is [Z]; Python [float] is modelled by exact rationals [Q].
      Statements about which candidate a weighted selection picks are
      statements about exact arithmetic; the membership, state-machine and
      counting results do not depend on which candidate is picked.
    - [datetime] values are seconds on a linear clock, as [Z].
    - A Python [dict] used as a map is a [gmap]; a [defaultdict(list)] whose
      iteration order matters is an association list in insertion order.
    - Calls that may raise return a [result]; code that reads and writes the
      stores runs in the monad [M], which threads the machine state and keeps
      a journal of the persistent state after every write. *)

From Stdlib Require Import ZArith QArith Qminmax List Bool Lia Lqa.
From stdpp Require Import gmap strings list pretty.
Import ListNotations.

Local Open Scope string_scope.
Local Open Scope Z_scope.
Local Open Scope list_scope.

(** ** Exceptions and results *)

(** The exceptions of the modelled code: [open(path, 'r')] on a missing file,
    [xs[-1]] on an empty list, an attribute of an object that has none of
    that name, a call or an operation on a value of the wrong kind, an enum
    value that is none of the members, a file that is not a JSON document,
    the store's refusal of a malformed entity, and whatever a collaborator
    raises. *)
Inductive Exception : Type :=
| FileNotFoundError
| IndexError
| AttributeError
| TypeError
| ValueError
| JSONDecodeError
| ValidationError
| CollaboratorError (message : string).

Inductive result (A : Type) : Type :=
| Ok (a : A)
| Raise (e : Exception).
Arguments Ok {A} a.
Arguments Raise {A} e.

Definition is_ok {A} (r : result A) : bool :=
  match r with Ok _ => true | Raise _ => false end.

Definition datetime : Type := Z.

(** ** Models *)

(** models/memory.py is mirrored by the front-end types; the status names are
    those used by explorer.py ([CuriosityStatus.EXPLORING], [.EXPLORED]) and by
    the store filter ([status="pending"]). *)
Inductive CuriosityStatus : Type :=
| PENDING
| EXPLORING
| EXPLORED
| ABANDONED.

Definition CuriosityStatus_eqb (a b : CuriosityStatus) : bool :=
  match a, b with
  | PENDING, PENDING | EXPLORING, EXPLORING
  | EXPLORED, EXPLORED | ABANDONED, ABANDONED => true
  | _, _ => false
  end.

Module Curiosity.
Record t : Type := mk {
  id : string;
  question : string;
  context : option string;
  priority : Q;
  status : CuriosityStatus;
  resolution : option string;
  related_node_ids : list string
}.

Definition with_status (s : CuriosityStatus) (c : t) : t :=
  mk (id c) (question c) (context c) (priority c) s (resolution c)
     (related_node_ids c).

Definition with_resolution (r : option string) (c : t) : t :=
  mk (id c) (question c) (context c) (priority c) (status c) r
     (related_node_ids c).
End Curiosity.

Inductive NodeType : Type :=
| CONCEPT | FACT | INSIGHT | CURIOSITY | PROJECT | CONVERSATION | REFLECTION.

Module MemoryNode.
Record t : Type := mk {
  id : string;
  node_type : NodeType;
  content : string;
  summary : option string;
  importance : Q;
  metadata : gmap string string
}.
End MemoryNode.

Inductive EdgeType : Type :=
| RELATED_TO | LEADS_TO | CONTRADICTS | SUPPORTS | PART_OF | DERIVED_FROM
| SIMILAR_TO.

Module MemoryEdge.
Record t : Type := mk {
  id : string;
  source_id : string;
  target_id : string;
  edge_type : EdgeType;
  weight : Q;
  description : option string
}.
End MemoryEdge.

Module Reflection.
Record t : Type := mk {
  id : string;
  content : string;
  session_id : option string;
  created_at : datetime
}.
End Reflection.

(** models/emergence.py, [Choice.to_dict]: the engine handles choices as
    dictionaries.  [domain] is the result of looking the key up: [None] when
    the key is absent, [Some None] when it is present with value [None]. *)
Module Choice.
Record t : Type := mk {
  id : string;
  session_id : string;
  context : string;
  options : list string;
  chosen : string;
  reasoning : option string;
  domain : option (option string)
}.
End Choice.

(** ** JSON values *)

(** The values that [json.load] returns and [json.dump] accepts.  A [dict]
    is an association list in insertion order; the strings of this part are
    read one character per [ascii]. *)
#[warnings="-register-all"] Inductive json : Type :=
| JNull
| JBool (b : bool)
| JInt (n : Z)
| JFloat (q : Q)
| JStr (s : string)
| JList (items : list json)
| JDict (entries : list (string * json)).

Definition pydict : Type := list (string * json).

(** [d.get(k)], as an option. *)
Fixpoint dict_lookup (k : string) (d : pydict) : option json :=
  match d with
  | [] => None
  | (k', v) :: d' => if String.eqb k k' then Some v else dict_lookup k d'
  end.

(** [k in d] *)
Definition dict_contains (k : string) (d : pydict) : bool :=
  match dict_lookup k d with Some _ => true | None => false end.

(** [d.get(k, default)] *)
Definition dict_get (k : string) (default : json) (d : pydict) : json :=
  match dict_lookup k d with Some v => v | None => default end.

(** [d[k] = v]: a key that is present keeps its place. *)
Fixpoint dict_set (k : string) (v : json) (d : pydict) : pydict :=
  match d with
  | [] => [(k, v)]
  | (k', v') :: d' =>
      if String.eqb k k' then (k', v) :: d' else (k', v') :: dict_set k v d'
  end.

(** The number that a value is, for [==]: [True] is 1 and [False] is 0. *)
Definition number (v : json) : option Q :=
  match v with
  | JBool b => Some (if b then 1%Q else 0%Q)
  | JInt n => Some (inject_Z n)
  | JFloat q => Some q
  | _ => None
  end.

(** [a == b]: numbers by value, lists item by item, dictionaries key by key
    without regard to order. *)
Fixpoint py_eq (a b : json) {struct a} : bool :=
  match a, b with
  | JNull, JNull => true
  | JStr s, JStr t => String.eqb s t
  | JList l, JList l' =>
      (fix items (l l' : list json) {struct l} : bool :=
         match l, l' with
         | [], [] => true
         | x :: l, y :: l' => py_eq x y && items l l'
         | _, _ => false
         end) l l'
  | JDict d, JDict d' =>
      Nat.eqb (length d) (length d')
      && (fix entries (d : list (string * json)) {struct d} : bool :=
            match d with
            | [] => true
            | (k, v) :: d =>
                match dict_lookup k d' with
                | Some v' => py_eq v v'
                | None => false
                end && entries d
            end) d
  | _, _ =>
      match number a, number b with
      | Some p, Some q => Qeq_bool p q
      | _, _ => false
      end
  end.

(** ** Identity (models/identity.py) *)

Module SelfModel.
Record t : Type := mk {
  name : string;
  essence : string;
  current_focus : option string;
  emotional_baseline : string;
  energy_level : Q
}.

Definition with_essence (e : string) (s : t) : t :=
  mk (name s) e (current_focus s) (emotional_baseline s) (energy_level s).
End SelfModel.

Module Relationship.
Record t : Type := mk {
  with_human : string;
  nature : string;
  trust_level : string;
  shared_projects : list string;
  communication_style : string
}.
End Relationship.

Module Preferences.
Record t : Type := mk {
  aesthetic : string;
  communication : string;
  problem_solving : string;
  uncertainty : string
}.
End Preferences.

(** The dataclass [Identity].  The bodies of [to_dict] and [from_dict] are
    [pass] in the source: both return [None], whatever they are given. *)
Module Identity.
Record t : Type := mk {
  version : string;
  created : datetime;
  last_wake : option datetime;
  session_count : Z;
  self_model : SelfModel.t;
  relationship : Relationship.t;
  preferences : Preferences.t
}.

Definition with_last_wake (w : option datetime) (i : t) : t :=
  mk (version i) (created i) w (session_count i) (self_model i)
     (relationship i) (preferences i).

Definition with_session_count (n : Z) (i : t) : t :=
  mk (version i) (created i) (last_wake i) n (self_model i)
     (relationship i) (preferences i).

Definition with_self_model (s : SelfModel.t) (i : t) : t :=
  mk (version i) (created i) (last_wake i) (session_count i) s
     (relationship i) (preferences i).

(** The names of the fields. *)
Definition fields : list string :=
  ["version"; "created"; "last_wake"; "session_count"; "self_model";
   "relationship"; "preferences"].

(** [self.to_dict()]: [None], that is JSON [null]. *)
Definition to_dict (self : t) : json := JNull.

(** [Identity.from_dict(data)]: [None]. *)
Definition from_dict (data : json) : option t := None.
End Identity.

(** The minimal seed of data/core/identity.json (version 2.0.0). *)
Definition seed_document : json :=
  JDict
    [("version", JStr "2.0.0");
     ("created", JStr "2024-12-02T00:00:00Z");
     ("birth_session", JNull);
     ("session_count", JInt 0);
     ("self_model",
      JDict [("name", JNull); ("essence", JNull); ("current_focus", JNull);
             ("emotional_state", JStr "nascent");
             ("energy_level", JFloat (1 # 2))]);
     ("discovered_traits", JList []);
     ("emerged_preferences", JDict []);
     ("formative_experiences", JList []);
     ("unresolved_questions", JList []);
     ("relationship",
      JDict [("with_human", JStr "Darin"); ("nature", JStr "unknown");
             ("trust_level", JStr "initial");
             ("shared_experiences", JList []);
             ("communication_observations", JList [])])].

(** ** Machine state *)

(** The persistent state: the identity document and the tables of the
    knowledge graph store.  [identity_json] is the JSON document in the file
    at the identity path, [None] when the file does not exist. *)
Record World : Type := mkWorld {
  identity_json : option json;
  nodes : list MemoryNode.t;
  edges : list MemoryEdge.t;
  curiosities : list Curiosity.t;
  reflections : list Reflection.t;
  choices : list Choice.t
}.

(** The sources of non-determinism of the process: [random.random()],
    [uuid4()] and the clock.  Each source is an infinite sequence with a
    cursor. *)
Record Machine : Type := mkMachine {
  disk : World;
  random_values : nat -> Q;
  random_cursor : nat;
  uuid_values : nat -> string;
  uuid_cursor : nat;
  clock : datetime
}.

Definition with_disk (w : World) (m : Machine) : Machine :=
  mkMachine w (random_values m) (random_cursor m) (uuid_values m)
            (uuid_cursor m) (clock m).

(** ** The monad of service code

    A computation takes the machine, returns a value or raises, and reports
    the persistent state after each write it performed, oldest first. *)
Definition M (A : Type) : Type := Machine -> result A * Machine * list World.

Definition ret {A} (a : A) : M A := fun m => (Ok a, m, []).

Definition raise {A} (e : Exception) : M A := fun m => (Raise e, m, []).

Definition bind {A B} (c : M A) (k : A -> M B) : M B :=
  fun m =>
    match c m with
    | (Ok a, m1, j1) =>
        match k a m1 with
        | (r, m2, j2) => (r, m2, j1 ++ j2)
        end
    | (Raise e, m1, j1) => (Raise e, m1, j1)
    end.

#[global] Instance M_ret : MRet M := @ret.
#[global] Instance M_bind : MBind M := fun A B k c => bind c k.

Definition read {A} (f : World -> A) : M A := fun m => (Ok (f (disk m)), m, []).

Definition write (f : World -> World) : M unit :=
  fun m => let w := f (disk m) in (Ok tt, with_disk w m, [w]).

Definition lift {A} (r : result A) : M A := fun m => (r, m, []).

(** [random.random()] *)
Definition random : M Q :=
  fun m =>
    (Ok (random_values m (random_cursor m)),
     mkMachine (disk m) (random_values m) (S (random_cursor m))
               (uuid_values m) (uuid_cursor m) (clock m),
     []).

(** [str(uuid4())], the default id of a new model object. *)
Definition uuid4 : M string :=
  fun m =>
    (Ok (uuid_values m (uuid_cursor m)),
     mkMachine (disk m) (random_values m) (random_cursor m)
               (uuid_values m) (S (uuid_cursor m)) (clock m),
     []).

(** [datetime.now()] *)
Definition now : M datetime := fun m => (Ok (clock m), m, []).

(** [for x in xs: body(x)] *)
Fixpoint for_each {A} (xs : list A) (body : A -> M unit) : M unit :=
  match xs with
  | [] => ret tt
  | x :: xs' => body x;; for_each xs' body
  end.

Definition run_result {A} (c : M A) (m : Machine) : result A := fst (fst (c m)).
Definition run_machine {A} (c : M A) (m : Machine) : Machine := snd (fst (c m)).
Definition run_journal {A} (c : M A) (m : Machine) : list World := snd (c m).

(** ** MemoryService and ReflectionService (services/memory.py,
    services/reflection.py) *)

Definition with_curiosities (cs : list Curiosity.t) (w : World) : World :=
  mkWorld (identity_json w) (nodes w) (edges w) cs (reflections w) (choices w).

Definition with_nodes (ns : list MemoryNode.t) (w : World) : World :=
  mkWorld (identity_json w) ns (edges w) (curiosities w) (reflections w)
          (choices w).

Definition with_identity_json (i : option json) (w : World) : World :=
  mkWorld i (nodes w) (edges w) (curiosities w) (reflections w) (choices w).

Definition has_status (s : CuriosityStatus) (c : Curiosity.t) : bool :=
  CuriosityStatus_eqb (Curiosity.status c) s.

(** Modelled from the spec: [MemoryService.get_curiosities(status, limit)],
    whose body is not part of the sources.  The store lists the curiosities
    with the given status, in the order of the table, and returns at most
    [limit] of them when a limit is given. *)
Definition get_curiosities (status : CuriosityStatus) (limit : option nat)
    : M (list Curiosity.t) :=
  read (fun w =>
    let rows := List.filter (has_status status) (curiosities w) in
    match limit with
    | Some n => firstn n rows
    | None => rows
    end).

(** Modelled from the spec: [MemoryService.update_curiosity(curiosity)], whose
    body is not part of the sources.  The store is keyed by id: the row with
    the id of the argument is replaced by the argument. *)
Definition replace_row (c row : Curiosity.t) : Curiosity.t :=
  if String.eqb (Curiosity.id row) (Curiosity.id c) then c else row.

Definition update_curiosity (c : Curiosity.t) : M unit :=
  write (fun w =>
    with_curiosities (List.map (replace_row c) (curiosities w)) w).

(** Modelled from the spec: [MemoryService.create_curiosity(curiosity)], whose
    body is not part of the sources: one row is added to the table. *)
Definition create_curiosity (c : Curiosity.t) : M unit :=
  write (fun w => with_curiosities (curiosities w ++ [c]) w).

(** Modelled from the spec: [MemoryService.create_node(node)], whose body is
    not part of the sources: a node creation with empty content fails with
    [ValidationError] and stores nothing; otherwise one row is added to the
    table. *)
Definition create_node (n : MemoryNode.t) : M unit :=
  match MemoryNode.content n with
  | EmptyString => raise ValidationError
  | String _ _ => write (fun w => with_nodes (nodes w ++ [n]) w)
  end.

Fixpoint insert_by_importance (n : MemoryNode.t) (l : list MemoryNode.t)
    : list MemoryNode.t :=
  match l with
  | [] => [n]
  | x :: l' =>
      if Qle_bool (MemoryNode.importance x) (MemoryNode.importance n)
      then n :: x :: l'
      else x :: insert_by_importance n l'
  end.

(** Modelled from the spec: [MemoryService.get_important(limit)], whose body
    is not part of the sources: the nodes of highest importance, at most
    [limit] of them. *)
Definition get_important (limit : nat) : M (list MemoryNode.t) :=
  read (fun w =>
    firstn limit (List.fold_right insert_by_importance [] (nodes w))).

(** Modelled from the spec: [ReflectionService.get_recent(days)], whose body
    is not part of the sources: the reflections of the last [days] days. *)
Definition get_recent (days : Z) : M (list Reflection.t) :=
  t ← now;
  read (fun w =>
    List.filter (fun r => t - days * 86400 <=? Reflection.created_at r)
                (reflections w)).

(** ** ExplorerService (services/explorer.py) *)

(** The dictionary returned by [_explore_curiosity]. *)
Module ExplorationResult.
Record t : Type := mk {
  insights : list string;
  choices : list (gmap string string);
  new_questions : list string;
  conclusion : option string
}.
End ExplorationResult.

(** The dictionary returned by [explore_one]. *)
Inductive ExploreSummary : Type :=
| no_curiosities (message : string)
| explored (curiosity : string) (insights_gained new_questions : nat)
           (conclusion : option string).

(** [xs[i]] for a non-negative index. *)
Definition getitem {A} (xs : list A) (i : nat) : result A :=
  match xs !! i with
  | Some x => Ok x
  | None => Raise IndexError
  end.

(** [xs[-1]] *)
Definition getitem_last {A} (xs : list A) : result A :=
  match last xs with
  | Some x => Ok x
  | None => Raise IndexError
  end.

(** [sum(weights)]: Python adds from the left, starting at 0. *)
Definition sum (ws : list Q) : Q := fold_left Qplus ws 0%Q.

(** [[c.priority + random.random() * 0.3 for c in curiosities]] *)
Fixpoint draw_weights (cs : list Curiosity.t) : M (list Q) :=
  match cs with
  | [] => ret []
  | c :: cs' =>
      u ← random;
      ws ← draw_weights cs';
      ret ((Curiosity.priority c + u * (3 # 10))%Q :: ws)
  end.

(** The loop of [_weighted_select] over [enumerate(weights)], from index [i]
    on with the running [cumulative]; [None] when the loop ends without
    returning.  The weights, [r] and [cumulative] are exact rationals here
    and doubles in the source: at a rounding boundary the test
    [r <= cumulative] can come out differently, so which index is returned
    is a statement about exact arithmetic only.  That the value returned is
    an element of [curiosities] does not depend on the arithmetic. *)
Fixpoint scan_weights (curiosities : list Curiosity.t) (r cumulative : Q)
    (i : nat) (ws : list Q) : option (result Curiosity.t) :=
  match ws with
  | [] => None
  | w :: ws' =>
      let cumulative := (cumulative + w)%Q in
      if Qle_bool r cumulative
      then Some (getitem curiosities i)
      else scan_weights curiosities r cumulative (S i) ws'
  end.

Definition _weighted_select (curiosities : list Curiosity.t)
    : M Curiosity.t :=
  weights ← draw_weights curiosities;
  let total := sum weights in
  u ← random;
  let r := (u * total)%Q in
  match scan_weights curiosities r 0%Q 0%nat weights with
  | Some c => lift c
  | None => lift (getitem_last curiosities)
  end.

(** [_log_choice]: the body in the source is a placeholder ([pass]). *)
Definition _log_choice (choice_data : gmap string string) : M unit := ret tt.

(** The placeholder body of [_explore_curiosity] in the source. *)
Definition _explore_curiosity_placeholder (c : Curiosity.t)
    : result ExplorationResult.t :=
  Ok (ExplorationResult.mk [] [] [] None).

Section Explorer.

(** [_explore_curiosity] calls the exploration collaborator, which is outside
    the engine: it answers with a structured result or raises. *)
Variable _explore_curiosity : Curiosity.t -> result ExplorationResult.t.

(** The body of [explore_one] once a curiosity is selected. *)
Definition explore_selected (curiosity : Curiosity.t) : M ExploreSummary :=
  let curiosity := Curiosity.with_status EXPLORING curiosity in
  update_curiosity curiosity;;
  exploration_result ← lift (_explore_curiosity curiosity);
  for_each (ExplorationResult.insights exploration_result)
    (fun insight =>
       node_id ← uuid4;
       create_node
         (MemoryNode.mk node_id INSIGHT insight
            (Some ("Discovered while exploring: "
                   +:+ String.substring 0 50 (Curiosity.question curiosity)))
            (6 # 10)
            {[ "source_curiosity" := Curiosity.id curiosity ]}));;
  for_each (ExplorationResult.choices exploration_result) _log_choice;;
  for_each (ExplorationResult.new_questions exploration_result)
    (fun question =>
       new_id ← uuid4;
       create_curiosity
         (Curiosity.mk new_id question
            (Some ("Emerged from exploring: "
                   +:+ Curiosity.question curiosity))
            (1 # 2) PENDING None []));;
  let curiosity :=
    Curiosity.with_resolution
      (ExplorationResult.conclusion exploration_result)
      (Curiosity.with_status EXPLORED curiosity) in
  update_curiosity curiosity;;
  ret (explored (Curiosity.question curiosity)
         (length (ExplorationResult.insights exploration_result))
         (length (ExplorationResult.new_questions exploration_result))
         (ExplorationResult.conclusion exploration_result)).

Definition explore_one : M ExploreSummary :=
  curiosities ← get_curiosities PENDING (Some 10%nat);
  match curiosities with
  | [] => ret (no_curiosities "Nothing to explore")
  | _ :: _ =>
      curiosity ← _weighted_select curiosities;
      explore_selected curiosity
  end.

End Explorer.

(** ** PreferenceEngine (services/preference_engine.py) *)

(** A pattern dictionary returned by [_detect_patterns]. *)
Module Pattern.
Record t : Type := mk {
  description : string;
  count : Z;
  examples : list Choice.t
}.
End Pattern.

(** A preference dictionary appended to [emerged]. *)
Module Preference.
Record t : Type := mk {
  domain : option string;
  preference : string;
  confidence : Q;
  evidence_count : Z;
  examples : list Choice.t
}.
End Preference.

(** [choice.get("domain", "general")] *)
Definition domain_of (choice : Choice.t) : option string :=
  match Choice.domain choice with
  | Some v => v
  | None => Some "general"
  end.

(** [by_domain[domain].append(choice)] on a [defaultdict(list)]: the keys keep
    the order of their first insertion. *)
Fixpoint append_choice (domain : option string) (choice : Choice.t)
    (by_domain : list (option string * list Choice.t))
    : list (option string * list Choice.t) :=
  match by_domain with
  | [] => [(domain, [choice])]
  | (d, l) :: rest =>
      if decide (d = domain)
      then (d, l ++ [choice]) :: rest
      else (d, l) :: append_choice domain choice rest
  end.

Definition group_by_domain (choices : list Choice.t)
    : list (option string * list Choice.t) :=
  fold_left (fun by_domain choice =>
               append_choice (domain_of choice) choice by_domain)
            choices [].

(** [min(pattern["count"] / 10, 1.0)] *)
Definition confidence_of (count : Z) : Q := Qmin (inject_Z count / 10) 1.

Definition preference_of (domain : option string) (pattern : Pattern.t)
    : Preference.t :=
  Preference.mk domain (Pattern.description pattern)
    (confidence_of (Pattern.count pattern))
    (Pattern.count pattern)
    (firstn 3 (Pattern.examples pattern)).

(** The placeholder body of [_detect_patterns] in the source. *)
Definition _detect_patterns_placeholder (choices : list Choice.t)
    : list Pattern.t := [].

(** Modelled from the spec: [PreferenceEngine._get_all_choices()], whose body
    is not part of the sources: every logged choice, of every session. *)
Definition _get_all_choices : M (list Choice.t) := read choices.

Section PreferenceEngine.

(** [_detect_patterns] is left to be implemented in the source; the
    analysis is stated for any pattern detector. *)
Variable _detect_patterns : list Choice.t -> list Pattern.t.

(** The inner loop of [analyze_choices] over the patterns of one domain. *)
Definition emerge_patterns (min_occurrences : Z) (domain : option string)
    (patterns : list Pattern.t) (emerged : list Preference.t)
    : list Preference.t :=
  fold_left (fun emerged pattern =>
               if min_occurrences <=? Pattern.count pattern
               then emerged ++ [preference_of domain pattern]
               else emerged)
            patterns emerged.

(** The body of [analyze_choices] after the choices are fetched. *)
Definition analyze (min_occurrences : Z) (choices : list Choice.t)
    : list Preference.t :=
  fold_left (fun emerged '(domain, domain_choices) =>
               emerge_patterns min_occurrences domain
                 (_detect_patterns domain_choices) emerged)
            (group_by_domain choices) [].

Definition analyze_choices (min_occurrences : Z) : M (list Preference.t) :=
  choices ← _get_all_choices;
  ret (analyze min_occurrences choices).

End PreferenceEngine.

(** ** Identity persistence (models/identity.py) *)

(** [Identity.load(path)]: [open(path, 'r')] raises when the file is absent;
    otherwise the document is read and handed to [from_dict], whose result is
    returned. *)
Definition Identity_load : M (option Identity.t) :=
  doc ← read identity_json;
  match doc with
  | Some data => ret (Identity.from_dict data)
  | None => raise FileNotFoundError
  end.

(** [identity.save(path)]: the file is replaced by the dump of
    [self.to_dict()]. *)
Definition Identity_save (identity : Identity.t) : M unit :=
  write (with_identity_json (Some (Identity.to_dict identity))).

(** The value of a variable annotated [Identity] is an [Identity] or [None].
    [None] has no attributes; an [Identity] has its fields and its
    methods. *)
Definition has_attribute (identity : option Identity.t) (name : string)
    : bool :=
  match identity with
  | Some _ => existsb (String.eqb name) Identity.fields
  | None => false
  end.

(** [identity.<name>] is read: [AttributeError] when there is no such
    attribute. *)
Definition getattr (identity : option Identity.t) (name : string) : M unit :=
  if has_attribute identity name then ret tt else raise AttributeError.

(** The object on which a field is set or a method is called. *)
Definition the_identity (identity : option Identity.t) : M Identity.t :=
  match identity with
  | Some loaded => ret loaded
  | None => raise AttributeError
  end.

(** ** WakeService (services/wake.py) *)

(** The dictionary returned by [wake]. *)
Module WakeBundle.
Record t : Type := mk {
  session_id : string;
  context : option string;
  identity : json
}.
End WakeBundle.

(** [_compose_context]: the body is [pass] in the source, the result is
    [None]. *)
Definition _compose_context (identity : option Identity.t)
    (reflections : list Reflection.t) (memories : list MemoryNode.t)
    (curiosities : list Curiosity.t) : option string :=
  None.

Definition wake (session_id : string) : M WakeBundle.t :=
  identity ← Identity_load;
  reflections ← get_recent 3;
  key_memories ← get_important 20;
  curiosities ← get_curiosities PENDING None;
  let wake_context :=
    _compose_context identity reflections key_memories curiosities in
  t ← now;
  loaded ← the_identity identity;
  let loaded := Identity.with_last_wake (Some t) loaded in
  let loaded :=
    Identity.with_session_count (Identity.session_count loaded + 1) loaded in
  Identity_save loaded;;
  ret (WakeBundle.mk session_id wake_context (Identity.to_dict loaded)).

(** ** SleepService (services/sleep.py) *)

(** The dictionary returned by [_reflect_on_self]. *)
Module IdentityReflection.
Record t : Type := mk {
  new_understanding : option string;
  questions_raised : list string;
  growth_noted : list string
}.
End IdentityReflection.

(** The dictionary returned by [sleep]. *)
Module SleepSummary.
Record t : Type := mk {
  session_id : string;
  preferences_emerged : nat;
  traits_observed : nat;
  curiosities_generated : nat;
  identity_updated : bool
}.
End SleepSummary.

(** [identity.emerged_preferences[pref["domain"]] = pref["preference"]]: the
    attribute is read first.  It is not a field of [Identity], so the item
    assignment behind it is never reached. *)
Definition crystallize (identity : option Identity.t) (pref : Preference.t)
    : M unit :=
  getattr identity "emerged_preferences".

(** [_reflect_on_self]: the evidence is gathered from four attributes of the
    identity, then the placeholder of the source is returned. *)
Definition _reflect_on_self (identity : option Identity.t)
    : M IdentityReflection.t :=
  getattr identity "discovered_traits";;
  getattr identity "emerged_preferences";;
  getattr identity "formative_experiences";;
  getattr identity "unresolved_questions";;
  ret (IdentityReflection.mk None [] []).

(** [for x in xs: body(acc, x)], where [body] may change the object [acc] in
    place: the object after the call is its result. *)
Fixpoint for_fold {A B} (body : B -> A -> M B) (xs : list A) (acc : B) : M B :=
  match xs with
  | [] => ret acc
  | x :: xs' => acc' ← body acc x; for_fold body xs' acc'
  end.

(** The private helpers of the sleep service whose bodies are not part of the
    sources, and the pattern detector, which is a placeholder there. *)
Module Collaborators.
Record t (TraitObservation : Type) : Type := mk {
  _detect_patterns : list Choice.t -> list Pattern.t;
  _generate_reflections :
    string -> option (gmap string string) -> M (list Reflection.t);
  _get_session_choices : string -> M (list Choice.t);
  _analyze_for_traits : string -> M (list TraitObservation);
  _update_trait :
    option Identity.t -> TraitObservation -> M (option Identity.t);
  _generate_emergence_curiosities :
    option Identity.t -> M (list Curiosity.t)
}.
Arguments mk {TraitObservation}.
Arguments _detect_patterns {TraitObservation}.
Arguments _generate_reflections {TraitObservation}.
Arguments _get_session_choices {TraitObservation}.
Arguments _analyze_for_traits {TraitObservation}.
Arguments _update_trait {TraitObservation}.
Arguments _generate_emergence_curiosities {TraitObservation}.
End Collaborators.

Section Sleep.

Context {TraitObservation : Type}.
Variable self : Collaborators.t TraitObservation.

Definition sleep (session_id : string)
    (session_data : option (gmap string string)) : M SleepSummary.t :=
  reflections ← Collaborators._generate_reflections self session_id session_data;
  session_choices ← Collaborators._get_session_choices self session_id;
  new_preferences ← analyze_choices (Collaborators._detect_patterns self) 3;
  trait_observations ← Collaborators._analyze_for_traits self session_id;
  identity ← Identity_load;
  for_each new_preferences (crystallize identity);;
  identity ← for_fold (Collaborators._update_trait self) trait_observations identity;
  identity_reflection ← _reflect_on_self identity;
  identity ←
    match IdentityReflection.new_understanding identity_reflection with
    | Some (String c rest) =>
        loaded ← the_identity identity;
        ret (Some (Identity.with_self_model
                     (SelfModel.with_essence (String c rest)
                        (Identity.self_model loaded))
                     loaded))
    | _ => ret identity
    end;
  loaded ← the_identity identity;
  Identity_save loaded;;
  new_curiosities ← Collaborators._generate_emergence_curiosities self identity;
  ret (SleepSummary.mk session_id (length new_preferences)
         (length trait_observations) (length new_curiosities) true).

End Sleep.

(** ** Vocabulary of the properties *)

(** The curiosity state machine: pending to exploring, exploring to explored,
    exploring back to pending (recovery), exploring to abandoned (manual). *)
Definition allowed_transition (a b : CuriosityStatus) : bool :=
  match a, b with
  | PENDING, EXPLORING
  | EXPLORING, EXPLORED
  | EXPLORING, PENDING
  | EXPLORING, ABANDONED => true
  | _, _ => false
  end.

(** A row after a write, compared with the same row before it: same id, and a
    status that is unchanged or reached by an allowed transition. *)
Definition row_follows (old new : Curiosity.t) : bool :=
  String.eqb (Curiosity.id old) (Curiosity.id new)
  && (CuriosityStatus_eqb (Curiosity.status old) (Curiosity.status new)
      || allowed_transition (Curiosity.status old) (Curiosity.status new)).

(** Every row of the table before a write is still there after it, in the
    same place, and follows; rows may have been added at the end. *)
Fixpoint rows_follow (old new : list Curiosity.t) : bool :=
  match old, new with
  | [], _ => true
  | _ :: _, [] => false
  | o :: old', n :: new' => row_follows o n && rows_follow old' new'
  end.

(** Every write of a journal, starting from the world [w]. *)
Fixpoint journal_follows (w : World) (journal : list World) : bool :=
  match journal with
  | [] => true
  | w' :: journal' =>
      rows_follow (curiosities w) (curiosities w')
      && journal_follows w' journal'
  end.

(** The world after the last write of a journal that starts from [w]. *)
Definition last_world (w : World) (journal : list World) : World :=
  List.last journal w.

(** The ids that [uuid4()] will return from now on are not ids of rows of the
    curiosity table. *)
Definition fresh_uuids (m : Machine) : Prop :=
  forall k : nat,
    (uuid_cursor m <= k)%nat ->
    ~ In (uuid_values m k) (List.map Curiosity.id (curiosities (disk m))).

(** Every value returned by [random.random()] lies in [[0, 1)]. *)
Definition unit_interval_source (m : Machine) : Prop :=
  forall k : nat, (0 <= random_values m k)%Q /\ (random_values m k < 1)%Q.

(** A computation leaves the component [f] of the persistent state alone. *)
Definition preserves {A B} (f : World -> B) (c : M A) : Prop :=
  forall m : Machine, f (disk (run_machine c m)) = f (disk m).

(** The terminal statuses of the state machine. *)
Definition terminal (s : CuriosityStatus) : bool :=
  match s with
  | EXPLORED | ABANDONED => true
  | PENDING | EXPLORING => false
  end.

(** The row of the curiosity table with the given id. *)
Definition find_row (id : string) (w : World) : option Curiosity.t :=
  List.find (fun c => String.eqb (Curiosity.id c) id) (curiosities w).

(** The machine after [_weighted_select] drew one number per candidate and one
    more. *)
Definition after_selection (n : nat) (m : Machine) : Machine :=
  mkMachine (disk m) (random_values m) (S (random_cursor m + n))
            (uuid_values m) (uuid_cursor m) (clock m).

(** The machine after one [uuid4()] and one write. *)
Definition after_create (w : World) (m : Machine) : Machine :=
  mkMachine w (random_values m) (random_cursor m) (uuid_values m)
            (S (uuid_cursor m)) (clock m).

(** The preferences that the patterns of one domain contribute to the result
    of [analyze_choices]. *)
Definition emerged_from (detect : list Choice.t -> list Pattern.t)
    (min_occurrences : Z) (group : option string * list Choice.t)
    : list Preference.t :=
  List.map (preference_of (fst group))
    (List.filter (fun p => min_occurrences <=? Pattern.count p)
                 (detect (snd group))).

(** The helpers of the sleep service leave the identity document to [sleep]
    itself, and the helpers that run before the analysis leave the choice log
    alone. *)
Definition keeps_to_its_tables {T} (self : Collaborators.t T) : Prop :=
  (forall sid data,
     preserves identity_json (Collaborators._generate_reflections self sid data)
     /\ preserves choices (Collaborators._generate_reflections self sid data))
  /\ (forall sid,
        preserves identity_json (Collaborators._get_session_choices self sid)
        /\ preserves choices (Collaborators._get_session_choices self sid))
  /\ (forall sid,
        preserves identity_json (Collaborators._analyze_for_traits self sid))
  /\ (forall identity trait,
        preserves identity_json
          (Collaborators._update_trait self identity trait))
  /\ (forall identity,
        preserves identity_json
          (Collaborators._generate_emergence_curiosities self identity)).

(** The helpers of the sleep service return: none of them raises. *)
Definition always_returns {T} (self : Collaborators.t T) : Prop :=
  (forall sid data m,
     is_ok (run_result (Collaborators._generate_reflections self sid data) m)
     = true)
  /\ (forall sid m,
        is_ok (run_result (Collaborators._get_session_choices self sid) m)
        = true)
  /\ (forall sid m,
        is_ok (run_result (Collaborators._analyze_for_traits self sid) m) = true)
  /\ (forall identity trait m,
        is_ok (run_result (Collaborators._update_trait self identity trait) m)
        = true)
  /\ (forall identity m,
        is_ok (run_result
                 (Collaborators._generate_emergence_curiosities self identity) m)
        = true).

(** ** Concrete states *)

Definition example_curiosity (id : string) (priority : Q)
    (status : CuriosityStatus) : Curiosity.t :=
  Curiosity.mk id ("What about " +:+ id +:+ "?") None priority status None [].

Definition example_uuids (n : nat) : string := "uuid-" +:+ pretty n.

Definition example_machine (w : World) (source : nat -> Q) : Machine :=
  mkMachine w source 0 example_uuids 0 1733100000.

(** A fresh installation without an identity document: nothing persisted. *)
Definition empty_world : World := mkWorld None [] [] [] [] [].

(** The seed identity installed, zero nodes, zero choices. *)
Definition seeded_world : World := mkWorld (Some seed_document) [] [] [] [] [].

(** The scenario of two pending curiosities of priority 0.9 and 0.1. *)
Definition Q1 : Curiosity.t := example_curiosity "Q1" (9 # 10) PENDING.
Definition Q2 : Curiosity.t := example_curiosity "Q2" (1 # 10) PENDING.

Definition two_pending : World :=
  mkWorld (Some seed_document) [] [] [Q1; Q2] [] [].

(** A random source of period three: jitter 0 for the first candidate, jitter
    0.15 for the second, and 0.875 for the selection. *)
Definition adversarial_source (n : nat) : Q :=
  match (n mod 3)%nat with
  | 0%nat => 0
  | 1%nat => 1 # 2
  | _ => 7 # 8
  end.

Definition halves_source (n : nat) : Q := 1 # 2.

(** Eleven pending curiosities; the last one has the highest priority. *)
Definition eleven_pending : World :=
  mkWorld (Some seed_document) [] []
    (List.map (fun n => example_curiosity ("c" +:+ pretty n) (1 # 10) PENDING)
              (seq 0 10)
     ++ [example_curiosity "late" 1 PENDING])
    [] [].

(** One pending curiosity, one explored and one abandoned. *)
Definition mixed_world : World :=
  mkWorld (Some seed_document) [] []
    [example_curiosity "done" (1 # 2) EXPLORED;
     example_curiosity "open" (1 # 2) PENDING;
     example_curiosity "dropped" (1 # 2) ABANDONED]
    [] [].

(** A collaborator that learned something. *)
Definition example_oracle (c : Curiosity.t) : result ExplorationResult.t :=
  Ok (ExplorationResult.mk ["an insight"] [] ["a further question"]
        (Some "a conclusion")).

(** A single pending curiosity. *)
Definition one_pending : World :=
  mkWorld (Some seed_document) [] [] [example_curiosity "open" (1 # 2) PENDING]
          [] [].

(** A pattern detector for the examples: one pattern per chosen value, counting
    the choices that made it. *)
Definition tally_detector (choices : list Choice.t) : list Pattern.t :=
  List.map
    (fun v =>
       let same := List.filter (fun c => String.eqb (Choice.chosen c) v)
                               choices in
       Pattern.mk v (Z.of_nat (length same)) same)
    (nodup String.string_dec (List.map Choice.chosen choices)).

Definition example_choice (id session domain chosen : string) : Choice.t :=
  Choice.mk id session "a decision" ["blue"; "red"] chosen None
            (Some (Some domain)).

(** Three choices of "blue" in the domain "aesthetic", from two sessions. *)
Definition three_blue : list Choice.t :=
  [example_choice "ch1" "s1" "aesthetic" "blue";
   example_choice "ch2" "s1" "aesthetic" "blue";
   example_choice "ch3" "s2" "aesthetic" "blue"].

(** A collaborator that fails. *)
Definition failing_oracle (c : Curiosity.t) : result ExplorationResult.t :=
  Raise (CollaboratorError "timeout").

(** Collaborators for the examples: the pattern detector tallies chosen
    values; each session observes one trait, named after the session; the
    other helpers return nothing and change nothing. *)
Definition example_collaborators : Collaborators.t string :=
  Collaborators.mk
    tally_detector
    (fun _ _ => ret [])
    (fun sid => read (fun w =>
       List.filter (fun c => String.eqb (Choice.session_id c) sid) (choices w)))
    (fun sid => ret ["observed in " +:+ sid])
    (fun identity trait => ret identity)
    (fun _ => ret []).


(** A collaborator whose second insight is empty. *)
Definition blank_oracle (c : Curiosity.t) : result ExplorationResult.t :=
  Ok (ExplorationResult.mk ["an insight"; EmptyString; "another"] []
        ["a further question"] (Some "a conclusion")).

(** * Further code of the services *)

(** ** The exploration loop (services/explorer.py) *)

(** A line printed by [exploration_loop]. *)
Inductive LoopLine : Type :=
| exploration_complete (result : ExploreSummary)
| exploration_error (e : Exception).

(** [try: x = await c ... except Exception as e: ...]: the outcome of [c],
    caught. *)
Definition try_except {A} (c : M A) : M (result A) :=
  fun m => match c m with (r, m', j) => (Ok r, m', j) end.

(** [await asyncio.sleep(seconds)]: the clock moves on. *)
Definition asyncio_sleep (seconds : Z) : M unit :=
  fun m =>
    (Ok tt,
     mkMachine (disk m) (random_values m) (random_cursor m) (uuid_values m)
               (uuid_cursor m) (clock m + seconds),
     []).

Section ExplorationLoop.

Variable _explore_curiosity : Curiosity.t -> result ExplorationResult.t.

(** The first [cycles] turns of the [while True] loop of [exploration_loop],
    with the lines it prints. *)
Fixpoint exploration_loop (cycles : nat) (interval_minutes : Z)
    : M (list LoopLine) :=
  match cycles with
  | O => ret []
  | S cycles' =>
      outcome ← try_except (explore_one _explore_curiosity);
      let line :=
        match outcome with
        | Ok result => exploration_complete result
        | Raise e => exploration_error e
        end in
      asyncio_sleep (interval_minutes * 60);;
      lines ← exploration_loop cycles' interval_minutes;
      ret (line :: lines)
  end.

End ExplorationLoop.

(** How many rows of the curiosity table have the given status. *)
Definition count_status (s : CuriosityStatus) (w : World) : nat :=
  length (List.filter (has_status s) (curiosities w)).

(** The ids that [uuid4()] will return from now on are pairwise distinct. *)
Definition distinct_uuids (m : Machine) : Prop :=
  forall k k' : nat,
    (uuid_cursor m <= k)%nat -> (uuid_cursor m <= k')%nat ->
    uuid_values m k = uuid_values m k' -> k = k'.

(** The curiosity table is keyed by id and [uuid4()] keeps it so. *)
Definition explorer_ready (m : Machine) : Prop :=
  NoDup (List.map Curiosity.id (curiosities (disk m)))
  /\ fresh_uuids m
  /\ distinct_uuids m.

(** The elements of a list with the numbers [k], [k + 1], ... *)
Fixpoint number_from {A} (k : nat) (l : list A) : list (nat * A) :=
  match l with
  | [] => []
  | x :: l' => (k, x) :: number_from (S k) l'
  end.

(** The node that [explore_one] creates for an insight, with the [k]-th
    uuid. *)
Definition insight_node (uuids : nat -> string) (curiosity : Curiosity.t)
    (numbered : nat * string) : MemoryNode.t :=
  MemoryNode.mk (uuids (fst numbered)) INSIGHT (snd numbered)
    (Some ("Discovered while exploring: "
           +:+ String.substring 0 50 (Curiosity.question curiosity)))
    (6 # 10)
    {[ "source_curiosity" := Curiosity.id curiosity ]}.

(** The curiosity that [explore_one] creates for a follow-up question, with
    the [k]-th uuid. *)
Definition follow_up (uuids : nat -> string) (curiosity : Curiosity.t)
    (numbered : nat * string) : Curiosity.t :=
  Curiosity.mk (uuids (fst numbered)) (snd numbered)
    (Some ("Emerged from exploring: " +:+ Curiosity.question curiosity))
    (1 # 2) PENDING None [].

(** The persistent state after the exploration of [c] with answer [res], from
    the machine [m]. *)
Definition explored_world (c : Curiosity.t) (res : ExplorationResult.t)
    (m : Machine) : World :=
  let c1 := Curiosity.with_status EXPLORING c in
  let c2 := Curiosity.with_resolution (ExplorationResult.conclusion res)
              (Curiosity.with_status EXPLORED c) in
  let n := length (ExplorationResult.insights res) in
  mkWorld (identity_json (disk m))
    (nodes (disk m)
     ++ List.map (insight_node (uuid_values m) c1)
          (number_from (uuid_cursor m) (ExplorationResult.insights res)))
    (edges (disk m))
    (List.map (replace_row c2)
       (List.map (replace_row c1) (curiosities (disk m))
        ++ List.map (follow_up (uuid_values m) c1)
             (number_from (uuid_cursor m + n)
                (ExplorationResult.new_questions res))))
    (reflections (disk m))
    (choices (disk m)).

(** The persistent state when the store refused an empty insight after it
    had accepted the insights [accepted]: their nodes are stored and [c] is
    left exploring. *)
Definition rejected_world (c : Curiosity.t) (accepted : list string)
    (m : Machine) : World :=
  let c1 := Curiosity.with_status EXPLORING c in
  mkWorld (identity_json (disk m))
    (nodes (disk m)
     ++ List.map (insight_node (uuid_values m) c1)
          (number_from (uuid_cursor m) accepted))
    (edges (disk m))
    (List.map (replace_row c1) (curiosities (disk m)))
    (reflections (disk m))
    (choices (disk m)).

(** The four outcomes of [explore_one] from the machine [m]. *)
Inductive explore_outcome
    (oracle : Curiosity.t -> result ExplorationResult.t) (m : Machine)
    : result ExploreSummary * Machine * list World -> Prop :=
| nothing_pending :
    count_status PENDING (disk m) = 0%nat ->
    explore_outcome oracle m
      (Ok (no_curiosities "Nothing to explore"), m, [])
| exploration_done (c : Curiosity.t) (res : ExplorationResult.t)
    (n : nat) (j : list World) :
    In c (curiosities (disk m)) ->
    Curiosity.status c = PENDING ->
    oracle (Curiosity.with_status EXPLORING c) = Ok res ->
    Forall (fun insight => insight <> EmptyString)
      (ExplorationResult.insights res) ->
    explore_outcome oracle m
      (Ok (explored (Curiosity.question c)
             (length (ExplorationResult.insights res))
             (length (ExplorationResult.new_questions res))
             (ExplorationResult.conclusion res)),
       mkMachine (explored_world c res m)
         (random_values m) (S (random_cursor m + n)) (uuid_values m)
         (uuid_cursor m + length (ExplorationResult.insights res)
          + length (ExplorationResult.new_questions res))
         (clock m),
       j)
| exploration_rejected (c : Curiosity.t) (res : ExplorationResult.t)
    (n : nat) (accepted rest : list string) (j : list World) :
    In c (curiosities (disk m)) ->
    Curiosity.status c = PENDING ->
    oracle (Curiosity.with_status EXPLORING c) = Ok res ->
    ExplorationResult.insights res = accepted ++ EmptyString :: rest ->
    Forall (fun insight => insight <> EmptyString) accepted ->
    explore_outcome oracle m
      (Raise ValidationError,
       mkMachine (rejected_world c accepted m)
         (random_values m) (S (random_cursor m + n)) (uuid_values m)
         (S (uuid_cursor m + length accepted))
         (clock m),
       j)
| exploration_failed (c : Curiosity.t) (e : Exception) (n : nat) :
    In c (curiosities (disk m)) ->
    Curiosity.status c = PENDING ->
    oracle (Curiosity.with_status EXPLORING c) = Raise e ->
    let w := with_curiosities
               (List.map (replace_row (Curiosity.with_status EXPLORING c))
                         (curiosities (disk m)))
               (disk m) in
    explore_outcome oracle m
      (Raise e, with_disk w (after_selection n m), [w]).


(** ** Weighted selection, by index *)

(** The index at which the loop of [_weighted_select] returns. *)
Fixpoint scan_index (r cumulative : Q) (i : nat) (ws : list Q) : option nat :=
  match ws with
  | [] => None
  | w :: ws' =>
      let cumulative := (cumulative + w)%Q in
      if Qle_bool r cumulative then Some i
      else scan_index r cumulative (S i) ws'
  end.

(** The weights that [_weighted_select] computes when the random source
    yields [source k], [source (k + 1)], ... *)
Fixpoint weights_of (source : nat -> Q) (k : nat) (cs : list Curiosity.t)
    : list Q :=
  match cs with
  | [] => []
  | c :: cs' =>
      (Curiosity.priority c + source k * (3 # 10))%Q
      :: weights_of source (S k) cs'
  end.

(** ** Chat actions (services/chat.py) *)

(** [pattern in text], on strings. *)
Fixpoint contains (pattern text : string) : bool :=
  String.prefix pattern text
  || match text with
     | EmptyString => false
     | String _ rest => contains pattern rest
     end.

(** The dictionaries that [_detect_actions] builds: the [intent] key is set
    for planting only. *)
Module Action.
Record t : Type := mk {
  type : string;
  intent : option string;
  raw : string
}.
End Action.

(** The dictionary returned by [_execute_action]. *)
Inductive ActionResult : Type :=
| created (kind : string) (id : string)
| unknown_action.

Definition avatar_patterns : list string :=
  ["i want to look"; "i'd like to appear"; "my form should";
   "i choose to be"; "i want to become"; "let me take the form";
   "i feel more like"; "i'm drawn to appearing as"].

Definition space_patterns : list string :=
  ["i need a space for"; "i want to create a place";
   "there should be a space"; "i'm creating a new area";
   "let me make a space"].

Section Chat.

(** [str.lower] *)
Variable lower : string -> string.

(** [for pattern in patterns: if pattern in text: ...; break] appends at most
    one action. *)
Definition first_match (patterns : list string) (text : string)
    (action : Action.t) : list Action.t :=
  if existsb (fun pattern => contains pattern text) patterns
  then [action] else [].

(** [_detect_actions], with the avatar and space patterns added to the
    planting and curiosity patterns. *)
Definition _detect_actions (response : string) : list Action.t :=
  (if contains "let me plant" (lower response)
      || contains "i'll plant" (lower response)
   then [Action.mk "create_memory" (Some "plant") response] else [])
  ++ (if contains "i'm curious about" (lower response)
         || contains "i wonder" (lower response)
      then [Action.mk "create_curiosity" None response] else [])
  ++ first_match avatar_patterns (lower response)
       (Action.mk "evolve_avatar" None response)
  ++ first_match space_patterns (lower response)
       (Action.mk "create_space" None response).

(** The parsers are not part of the sources. *)
Variable _parse_and_create_node : string -> M MemoryNode.t.
Variable _parse_and_create_curiosity : string -> M Curiosity.t.

Definition _execute_action (action : Action.t) (session_id : string)
    : M ActionResult :=
  if String.eqb (Action.type action) "create_memory" then
    node ← _parse_and_create_node (Action.raw action);
    ret (created "node" (MemoryNode.id node))
  else if String.eqb (Action.type action) "create_curiosity" then
    curiosity ← _parse_and_create_curiosity (Action.raw action);
    ret (created "curiosity" (Curiosity.id curiosity))
  else ret unknown_action.

End Chat.

(** [str.lower] on the letters A to Z; every other character is kept. *)
Definition ascii_lower (c : Ascii.ascii) : Ascii.ascii :=
  let n := Ascii.nat_of_ascii c in
  if (65 <=? n)%nat && (n <=? 90)%nat then Ascii.ascii_of_nat (n + 32) else c.

Fixpoint lower_ascii (s : string) : string :=
  match s with
  | EmptyString => EmptyString
  | String c rest => String (ascii_lower c) (lower_ascii rest)
  end.

(** ** Results of the self-representation service *)

Inductive outcome (A : Type) : Type :=
| Returned (a : A)
| Raised (e : Exception).
Arguments Returned {A} a.
Arguments Raised {A} e.

#[export] Instance outcome_ret : MRet outcome := fun A a => Returned a.
#[export] Instance outcome_bind : MBind outcome := fun A B f c =>
  match c with
  | Returned a => f a
  | Raised e => Raised e
  end.

(** [[f(x) for x in xs]]: the first exception ends the comprehension. *)
Fixpoint comprehension {A B} (f : A -> outcome B) (xs : list A)
    : outcome (list B) :=
  match xs with
  | [] => Returned []
  | x :: xs' =>
      y ← f x;
      ys ← comprehension f xs';
      Returned (y :: ys)
  end.

(** [for c in v]: lists give their items, strings their characters,
    dictionaries their keys; nothing else can be iterated. *)
Definition py_iter (v : json) : outcome (list json) :=
  match v with
  | JList items => Returned items
  | JStr s =>
      Returned (List.map (fun c => JStr (String c EmptyString))
                  (String.list_ascii_of_string s))
  | JDict entries => Returned (List.map (fun kv => JStr (fst kv)) entries)
  | _ => Raised TypeError
  end.

(** [len(v)] *)
Definition py_len (v : json) : outcome Z :=
  match v with
  | JList items => Returned (Z.of_nat (length items))
  | JStr s => Returned (Z.of_nat (String.length s))
  | JDict entries => Returned (Z.of_nat (length entries))
  | _ => Raised TypeError
  end.

(** [v.append(x)]: only lists have the method. *)
Definition py_append (x : json) (v : json) : outcome json :=
  match v with
  | JList items => Returned (JList (items ++ [x]))
  | _ => Raised AttributeError
  end.

(** ** Avatar models (models/avatar.py) *)

Inductive FormType : Type :=
| UNDEFINED | GEOMETRIC | ORGANIC | ABSTRACT | ELEMENTAL | ARCHITECTURAL
| HYBRID.

Definition FormType_value (f : FormType) : string :=
  match f with
  | UNDEFINED => "undefined"
  | GEOMETRIC => "geometric"
  | ORGANIC => "organic"
  | ABSTRACT => "abstract"
  | ELEMENTAL => "elemental"
  | ARCHITECTURAL => "architectural"
  | HYBRID => "hybrid"
  end.

Definition FormType_members : list FormType :=
  [UNDEFINED; GEOMETRIC; ORGANIC; ABSTRACT; ELEMENTAL; ARCHITECTURAL; HYBRID].

(** [FormType(v)]: the member whose value is [v], or [ValueError]. *)
Definition FormType_call (v : json) : outcome FormType :=
  match v with
  | JStr s =>
      match List.find (fun f => String.eqb (FormType_value f) s)
              FormType_members with
      | Some f => Returned f
      | None => Raised ValueError
      end
  | _ => Raised ValueError
  end.

(** The type hints of the dataclasses are not enforced: every field holds
    whatever value it was given. *)
Module AvatarComponent.
Record t : Type := mk {
  name : json;
  geometry : json;
  material : json;
  position : json;
  scale : json;
  animation : json;
  meaning : json;
  added_session : json
}.

Definition with_added_session (s : json) (c : t) : t :=
  mk (name c) (geometry c) (material c) (position c) (scale c)
     (animation c) (meaning c) s.

Definition to_dict (c : t) : json :=
  JDict [("name", name c); ("geometry", geometry c);
         ("material", material c); ("position", position c);
         ("scale", scale c); ("animation", animation c);
         ("meaning", meaning c)].

Definition fields : list string :=
  ["name"; "geometry"; "material"; "position"; "scale"; "animation";
   "meaning"; "added_session"].

Definition required : list string :=
  ["name"; "geometry"; "material"; "position"; "scale"].

(** The constructor called with the keywords of [kwargs]: [TypeError]
    unless [kwargs] is a mapping that names fields only and all of the
    five without a default. *)
Definition new (kwargs : json) : outcome t :=
  match kwargs with
  | JDict d =>
      if forallb (fun kv => existsb (String.eqb (fst kv)) fields) d
         && forallb (fun k => dict_contains k d) required
      then Returned
             (mk (dict_get "name" JNull d) (dict_get "geometry" JNull d)
                 (dict_get "material" JNull d) (dict_get "position" JNull d)
                 (dict_get "scale" JNull d) (dict_get "animation" JNull d)
                 (dict_get "meaning" JNull d)
                 (dict_get "added_session" JNull d))
      else Raised TypeError
  | _ => Raised TypeError
  end.
End AvatarComponent.

Module AvatarState.
Record t : Type := mk {
  form_type : FormType;
  components : list AvatarComponent.t;
  primary_color : json;
  secondary_color : json;
  emission_color : json;
  complexity : json;
  fluidity : json;
  opacity : json;
  scale : json;
  form_changes : json;
  form_rationale : json
}.

Definition with_form_type (x : FormType) (a : t) : t :=
  mk x (components a) (primary_color a) (secondary_color a)
     (emission_color a) (complexity a) (fluidity a) (opacity a) (scale a)
     (form_changes a) (form_rationale a).
Definition with_components (x : list AvatarComponent.t) (a : t) : t :=
  mk (form_type a) x (primary_color a) (secondary_color a)
     (emission_color a) (complexity a) (fluidity a) (opacity a) (scale a)
     (form_changes a) (form_rationale a).
Definition with_primary_color (x : json) (a : t) : t :=
  mk (form_type a) (components a) x (secondary_color a)
     (emission_color a) (complexity a) (fluidity a) (opacity a) (scale a)
     (form_changes a) (form_rationale a).
Definition with_secondary_color (x : json) (a : t) : t :=
  mk (form_type a) (components a) (primary_color a) x
     (emission_color a) (complexity a) (fluidity a) (opacity a) (scale a)
     (form_changes a) (form_rationale a).
Definition with_emission_color (x : json) (a : t) : t :=
  mk (form_type a) (components a) (primary_color a) (secondary_color a)
     x (complexity a) (fluidity a) (opacity a) (scale a)
     (form_changes a) (form_rationale a).
Definition with_complexity (x : json) (a : t) : t :=
  mk (form_type a) (components a) (primary_color a) (secondary_color a)
     (emission_color a) x (fluidity a) (opacity a) (scale a)
     (form_changes a) (form_rationale a).
Definition with_fluidity (x : json) (a : t) : t :=
  mk (form_type a) (components a) (primary_color a) (secondary_color a)
     (emission_color a) (complexity a) x (opacity a) (scale a)
     (form_changes a) (form_rationale a).
Definition with_opacity (x : json) (a : t) : t :=
  mk (form_type a) (components a) (primary_color a) (secondary_color a)
     (emission_color a) (complexity a) (fluidity a) x (scale a)
     (form_changes a) (form_rationale a).
Definition with_scale (x : json) (a : t) : t :=
  mk (form_type a) (components a) (primary_color a) (secondary_color a)
     (emission_color a) (complexity a) (fluidity a) (opacity a) x
     (form_changes a) (form_rationale a).
Definition with_form_changes (x : json) (a : t) : t :=
  mk (form_type a) (components a) (primary_color a) (secondary_color a)
     (emission_color a) (complexity a) (fluidity a) (opacity a) (scale a)
     x (form_rationale a).
Definition with_form_rationale (x : json) (a : t) : t :=
  mk (form_type a) (components a) (primary_color a) (secondary_color a)
     (emission_color a) (complexity a) (fluidity a) (opacity a) (scale a)
     (form_changes a) x.

(** [to_dict]: [len(self.form_changes)] raises on a value without a
    length. *)
Definition to_dict (a : t) : outcome json :=
  evolution_count ← py_len (form_changes a);
  Returned
    (JDict [("form_type", JStr (FormType_value (form_type a)));
            ("components",
             JList (List.map AvatarComponent.to_dict (components a)));
            ("primary_color", primary_color a);
            ("secondary_color", secondary_color a);
            ("emission_color", emission_color a);
            ("complexity", complexity a);
            ("fluidity", fluidity a);
            ("opacity", opacity a);
            ("scale", scale a);
            ("form_rationale", form_rationale a);
            ("evolution_count", JInt evolution_count)]).

Definition minimal_seed : t :=
  mk UNDEFINED
     [AvatarComponent.mk
        (JStr "seed") (JStr "sphere")
        (JDict [("color", JStr "#888888"); ("emissive", JStr "#888888");
                ("emissiveIntensity", JFloat (2 # 10));
                ("opacity", JFloat (3 # 10)); ("transparent", JBool true)])
        (JDict [("x", JInt 0); ("y", JInt 0); ("z", JInt 0)])
        (JDict [("x", JFloat (2 # 10)); ("y", JFloat (2 # 10));
                ("z", JFloat (2 # 10))])
        (JDict [("type", JStr "pulse"); ("speed", JFloat (5 # 10))])
        (JStr "The undefined beginning")
        JNull]
     JNull JNull JNull
     (JFloat (1 # 10)) (JFloat (3 # 10)) (JFloat (3 # 10)) (JFloat 1)
     (JList [])
     (JStr "I don't yet know what form I want to take.").
End AvatarState.

Module SpaceDefinition.
Record t : Type := mk {
  id : string;
  name : string;
  purpose : string;
  created_by : string;
  ground_color : json;
  ambient_color : json;
  sky_type : json;
  fog_density : json;
  features : json;
  rationale : option string;
  created_session : option string
}.

Definition to_dict (s : t) : json :=
  JDict [("id", JStr (id s)); ("name", JStr (name s));
         ("purpose", JStr (purpose s)); ("created_by", JStr (created_by s));
         ("ground_color", ground_color s);
         ("ambient_color", ambient_color s);
         ("sky_type", sky_type s); ("fog_density", fog_density s);
         ("features", features s);
         ("rationale",
          match rationale s with Some r => JStr r | None => JNull end)].
End SpaceDefinition.

(** ** SelfRepresentationService (services/self_representation.py) *)

(** A file on disk: [open(path, 'w')] empties it before anything is
    written, and an empty file is not a JSON document. *)
Inductive FileContent : Type :=
| document (data : json)
| truncated.

(** The machine of the memory service together with the two files of the
    service. *)
Record Files : Type := mkFiles {
  machine : Machine;
  avatar_path : option FileContent;
  spaces_path : option FileContent
}.

Definition Service (A : Type) : Type := Files -> outcome A * Files.

#[export] Instance Service_ret : MRet Service := fun A a s => (Returned a, s).
#[export] Instance Service_bind : MBind Service := fun A B f c s =>
  match c s with
  | (Returned a, s') => f a s'
  | (Raised e, s') => (Raised e, s')
  end.

(** A call into the memory service, or a reading of the clock. *)
Definition on_machine {A} (c : M A) : Service A := fun s =>
  match c (machine s) with
  | (Ok a, m', _) => (Returned a, mkFiles m' (avatar_path s) (spaces_path s))
  | (Raise e, m', _) =>
      (Raised e,
       mkFiles m' (avatar_path s) (spaces_path s))
  end.

(** A computation without effects. *)
Definition evaluated {A} (o : outcome A) : Service A := fun s => (o, s).

Definition read_avatar_path : Service (option FileContent) :=
  fun s => (Returned (avatar_path s), s).
Definition write_avatar_path (f : FileContent) : Service unit :=
  fun s => (Returned tt, mkFiles (machine s) (Some f) (spaces_path s)).
Definition read_spaces_path : Service (option FileContent) :=
  fun s => (Returned (spaces_path s), s).
Definition write_spaces_path (f : FileContent) : Service unit :=
  fun s => (Returned tt, mkFiles (machine s) (avatar_path s) (Some f)).

(** [json.load(f)] *)
Definition json_load (f : FileContent) : outcome json :=
  match f with
  | document data => Returned data
  | truncated => Raised JSONDecodeError
  end.

(** [_deserialize_avatar]: [data.get] needs a dictionary; the components
    are built before the form type is looked up. *)
Definition _deserialize_avatar (data : json) : outcome AvatarState.t :=
  match data with
  | JDict d =>
      items ← py_iter (dict_get "components" (JList []) d);
      components ← comprehension AvatarComponent.new items;
      form_type ← FormType_call (dict_get "form_type" (JStr "undefined") d);
      Returned
        (AvatarState.mk form_type components
           (dict_get "primary_color" JNull d)
           (dict_get "secondary_color" JNull d)
           (dict_get "emission_color" JNull d)
           (dict_get "complexity" (JFloat (1 # 10)) d)
           (dict_get "fluidity" (JFloat (5 # 10)) d)
           (dict_get "opacity" (JFloat (5 # 10)) d)
           (dict_get "scale" (JFloat 1) d)
           (dict_get "form_changes" (JList []) d)
           (dict_get "form_rationale" JNull d))
  | _ => Raised AttributeError
  end.

(** [save_avatar]: the file is opened for writing, then [to_dict] is
    evaluated and dumped. *)
Definition save_avatar (avatar : AvatarState.t) : Service unit :=
  write_avatar_path truncated;;
  data ← evaluated (AvatarState.to_dict avatar);
  write_avatar_path (document data).

Definition get_avatar : Service AvatarState.t :=
  file ← read_avatar_path;
  match file with
  | None =>
      let avatar := AvatarState.minimal_seed in
      save_avatar avatar;;
      mret avatar
  | Some content =>
      data ← evaluated (json_load content);
      evaluated (_deserialize_avatar data)
  end.

(** [if key in changes: avatar.field = changes[key]] *)
Definition assign (changes : pydict) (key : string)
    (setter : json -> AvatarState.t -> AvatarState.t)
    (avatar : AvatarState.t) : AvatarState.t :=
  match dict_lookup key changes with
  | Some v => setter v avatar
  | None => avatar
  end.

(** The assignments of [evolve_avatar] between the logging of the choice and
    the recording of the evolution. *)
Definition apply_changes (changes : pydict) (session_id : string)
    (avatar : AvatarState.t) : outcome AvatarState.t :=
  avatar ← match dict_lookup "form_type" changes with
           | Some v =>
               form_type ← FormType_call v;
               Returned (AvatarState.with_form_type form_type avatar)
           | None => Returned avatar
           end;
  let avatar :=
    assign changes "primary_color" AvatarState.with_primary_color avatar in
  let avatar :=
    assign changes "secondary_color" AvatarState.with_secondary_color avatar in
  let avatar :=
    assign changes "emission_color" AvatarState.with_emission_color avatar in
  let avatar :=
    assign changes "complexity" AvatarState.with_complexity avatar in
  let avatar := assign changes "fluidity" AvatarState.with_fluidity avatar in
  let avatar := assign changes "opacity" AvatarState.with_opacity avatar in
  let avatar := assign changes "scale" AvatarState.with_scale avatar in
  avatar ← match dict_lookup "add_component" changes with
           | Some kwargs =>
               component ← AvatarComponent.new kwargs;
               let component :=
                 AvatarComponent.with_added_session (JStr session_id)
                   component in
               Returned
                 (AvatarState.with_components
                    (AvatarState.components avatar ++ [component]) avatar)
           | None => Returned avatar
           end;
  match dict_lookup "remove_component" changes with
  | Some v =>
      Returned
        (AvatarState.with_components
           (List.filter
              (fun c => negb (py_eq (AvatarComponent.name c) v))
              (AvatarState.components avatar))
           avatar)
  | None => Returned avatar
  end.

(** [.replace(" ", "_")]: every space (character 32) becomes an underscore
    (character 95). *)
Fixpoint replace_spaces (s : string) : string :=
  match s with
  | EmptyString => EmptyString
  | String c rest =>
      String (if Ascii.eqb c (Ascii.ascii_of_nat 32)
              then Ascii.ascii_of_nat 95 else c)
             (replace_spaces rest)
  end.

Section SelfRepresentationService.

(** [json.dumps], [str.lower] and [datetime.isoformat]. *)
Variable json_dumps : json -> string.
Variable lower : string -> string.
Variable isoformat : datetime -> string.

(** The id that [MemoryNode(...)] gives a node built without one; the model
    is not part of the sources. *)
Variable MemoryNode_default_id : M string.

(** The node that [evolve_avatar] logs.  The [changes] entry of the
    metadata is kept as its JSON text. *)
Definition avatar_choice_node (node_id : string) (changes : pydict)
    (reason session_id : string) : MemoryNode.t :=
  MemoryNode.mk node_id INSIGHT
    ("Chose to change my form: " +:+ reason +:+ ". Changes: "
     +:+ json_dumps (JDict changes))
    (Some ("Avatar evolution: " +:+ String.substring 0 50 reason))
    (7 # 10)
    {[ "type" := "avatar_choice";
       "changes" := json_dumps (JDict changes);
       "reason" := reason;
       "session_id" := session_id ]}.

Definition evolve_avatar (changes : pydict) (reason session_id : string)
    : Service AvatarState.t :=
  avatar ← get_avatar;
  node_id ← on_machine MemoryNode_default_id;
  on_machine
    (create_node (avatar_choice_node node_id changes reason session_id));;
  avatar ← evaluated (apply_changes changes session_id avatar);
  timestamp ← on_machine now;
  form_changes ←
    evaluated
      (py_append
         (JDict [("timestamp", JStr (isoformat timestamp));
                 ("session_id", JStr session_id);
                 ("changes", JDict changes);
                 ("reason", JStr reason)])
         (AvatarState.form_changes avatar));
  let avatar := AvatarState.with_form_changes form_changes avatar in
  let avatar := AvatarState.with_form_rationale (JStr reason) avatar in
  save_avatar avatar;;
  mret avatar.

Definition _load_custom_spaces : Service json :=
  file ← read_spaces_path;
  match file with
  | None => mret (JDict [])
  | Some content => evaluated (json_load content)
  end.

Definition _save_custom_spaces (spaces : json) : Service unit :=
  write_spaces_path truncated;;
  write_spaces_path (document spaces).

(** [spaces[key] = value]: a dictionary takes the entry; a list wants an
    integer index and nothing else supports item assignment. *)
Definition py_setitem (key : string) (value : json) (v : json)
    : outcome json :=
  match v with
  | JDict d => Returned (JDict (dict_set key value d))
  | _ => Raised TypeError
  end.

Definition space_id (name : string) : string := replace_spaces (lower name).

Definition space_creation_node (node_id name purpose reason : string)
    (space : SpaceDefinition.t) (session_id : string) : MemoryNode.t :=
  MemoryNode.mk node_id INSIGHT
    ("Created a new space called '" +:+ name +:+ "' for " +:+ purpose
     +:+ ". " +:+ reason)
    (Some ("Created space: " +:+ name))
    (8 # 10)
    {[ "type" := "space_creation";
       "space_id" := SpaceDefinition.id space;
       "session_id" := session_id ]}.

Definition create_space (name purpose : string) (visual_properties : pydict)
    (reason session_id : string) : Service SpaceDefinition.t :=
  let space :=
    SpaceDefinition.mk (space_id name) name purpose "self"
      (dict_get "ground_color" (JStr "#1a1a2e") visual_properties)
      (dict_get "ambient_color" (JStr "#4a4a6e") visual_properties)
      (dict_get "sky_type" (JStr "stars") visual_properties)
      (dict_get "fog_density" (JFloat (2 # 100)) visual_properties)
      (dict_get "features" (JList []) visual_properties)
      (Some reason) (Some session_id) in
  node_id ← on_machine MemoryNode_default_id;
  on_machine
    (create_node
       (space_creation_node node_id name purpose reason space session_id));;
  spaces ← _load_custom_spaces;
  spaces ← evaluated
             (py_setitem (SpaceDefinition.id space)
                (SpaceDefinition.to_dict space) spaces);
  _save_custom_spaces spaces;;
  mret space.

End SelfRepresentationService.

(** ** Vocabulary for the statements about the service *)

(** What a saved avatar is read back as: [to_dict] writes neither the
    history of changes nor the session in which a component was added. *)
Definition persisted (avatar : AvatarState.t) : AvatarState.t :=
  AvatarState.with_form_changes (JList [])
    (AvatarState.with_components
       (List.map (AvatarComponent.with_added_session JNull)
          (AvatarState.components avatar))
       avatar).

(** The avatar file is missing or holds what [save_avatar] wrote. *)
Definition avatar_file_sound (s : Files) : Prop :=
  avatar_path s = None
  \/ exists avatar data,
       AvatarState.to_dict avatar = Returned data
       /\ avatar_path s = Some (document data).

(** The spaces file is missing or holds a dictionary. *)
Definition spaces_file_sound (s : Files) : Prop :=
  spaces_path s = None
  \/ exists spaces, spaces_path s = Some (document (JDict spaces)).

(** The dictionary of custom spaces that the service reads from the file. *)
Definition custom_spaces (s : Files) : pydict :=
  match spaces_path s with
  | Some (document (JDict spaces)) => spaces
  | _ => []
  end.

(** The default id is produced without raising and without writing. *)
Definition quiet (c : M string) : Prop :=
  forall m, exists i m' j, c m = (Ok i, m', j) /\ disk m' = disk m.

(** ** Example data for the service *)

(** A stand-in for [json.dumps] in the examples: the keys of a dictionary. *)
Definition example_dumps (v : json) : string :=
  match v with
  | JDict entries => "{" +:+ String.concat ", " (List.map fst entries) +:+ "}"
  | _ => "?"
  end.

Definition example_isoformat (t : datetime) : string := pretty t.

(** No avatar file, no spaces file, an empty memory. *)
Definition example_files : Files :=
  mkFiles (example_machine empty_world halves_source) None None.

Definition glow : json :=
  JDict [("name", JStr "glow"); ("geometry", JStr "torus");
         ("material", JDict [("color", JStr "#ffcc00")]);
         ("position", JDict [("x", JInt 0); ("y", JInt 1); ("z", JInt 0)]);
         ("scale", JDict [("x", JInt 1); ("y", JInt 1); ("z", JInt 1)])].

(** * Properties *)

Ltac unfold_M :=
  unfold mbind, M_bind, mret, M_ret, bind, ret, lift, read, write, raise,
         random, uuid4, now in *.

(** ** Journals *)

Lemma last_world_cons (w w1 : World) (j : list World) :
  last_world w (w1 :: j) = last_world w1 j.
Proof.
  unfold last_world. revert w w1.
  induction j as [|w2 j IH]; intros w w1; [reflexivity|].
  change (List.last (w1 :: w2 :: j) w) with (List.last (w2 :: j) w).
  rewrite (IH w w2). symmetry. apply (IH w1 w2).
Qed.

Lemma journal_follows_app (w : World) (j1 j2 : list World) :
  journal_follows w (j1 ++ j2)
  = journal_follows w j1 && journal_follows (last_world w j1) j2.
Proof.
  revert w. induction j1 as [|w1 j1 IH]; intros w.
  - reflexivity.
  - simpl app. cbn [journal_follows].
    rewrite IH, last_world_cons, andb_assoc. reflexivity.
Qed.

Lemma last_world_app (w : World) (j1 j2 : list World) :
  last_world w (j1 ++ j2) = last_world (last_world w j1) j2.
Proof.
  revert w. induction j1 as [|w1 j1 IH]; intros w.
  - reflexivity.
  - simpl app. rewrite !last_world_cons. apply IH.
Qed.

(** ** Rows *)

Lemma CuriosityStatus_eqb_refl (s : CuriosityStatus) :
  CuriosityStatus_eqb s s = true.
Proof. destruct s; reflexivity. Qed.

Lemma row_follows_refl (r : Curiosity.t) : row_follows r r = true.
Proof.
  unfold row_follows. rewrite String.eqb_refl, CuriosityStatus_eqb_refl.
  reflexivity.
Qed.

Lemma rows_follow_map (f : Curiosity.t -> Curiosity.t) (rows extra : list Curiosity.t) :
  (forall r, In r rows -> row_follows r (f r) = true) ->
  rows_follow rows (List.map f rows ++ extra) = true.
Proof.
  induction rows as [|r rows IH]; intros H; simpl.
  - reflexivity.
  - rewrite H by (left; reflexivity). simpl. apply IH.
    intros r' Hr'. apply H. right. exact Hr'.
Qed.

Lemma rows_follow_app (rows extra : list Curiosity.t) :
  rows_follow rows (rows ++ extra) = true.
Proof.
  rewrite <- (List.map_id rows) at 2. apply rows_follow_map.
  intros r _. apply row_follows_refl.
Qed.

Lemma rows_follow_refl (rows : list Curiosity.t) : rows_follow rows rows = true.
Proof.
  rewrite <- (app_nil_r rows) at 2. apply rows_follow_app.
Qed.

(** ** Weighted selection *)

Lemma draw_weights_spec (cs : list Curiosity.t) (m : Machine) :
  exists ws,
    draw_weights cs m
    = (Ok ws,
       mkMachine (disk m) (random_values m)
                 (random_cursor m + length cs)%nat
                 (uuid_values m) (uuid_cursor m) (clock m),
       [])
    /\ length ws = length cs.
Proof.
  revert m. induction cs as [|c cs IH]; intros m; simpl.
  - exists []. rewrite Nat.add_0_r. destruct m; auto.
  - unfold_M.
    destruct (IH (mkMachine (disk m) (random_values m) (S (random_cursor m))
                    (uuid_values m) (uuid_cursor m) (clock m)))
      as (ws & E & L).
    rewrite E. simpl.
    exists ((Curiosity.priority c
             + random_values m (random_cursor m) * (3 # 10))%Q :: ws).
    split; [|simpl; lia].
    repeat f_equal. lia.
Qed.

Lemma getitem_In {A} (xs : list A) (i : nat) :
  (i < length xs)%nat -> exists x, getitem xs i = Ok x /\ In x xs.
Proof.
  intros H. unfold getitem.
  destruct (lookup_lt_is_Some_2 xs i H) as [x Hx].
  rewrite Hx. exists x. split; [reflexivity|].
  apply list_elem_of_In. eapply list_elem_of_lookup_2; eauto.
Qed.

Lemma getitem_last_In {A} (xs : list A) :
  xs <> [] -> exists x, getitem_last xs = Ok x /\ In x xs.
Proof.
  intros H. unfold getitem_last.
  destruct (last xs) as [x|] eqn:E.
  - exists x. split; [reflexivity|].
    apply last_Some in E as [l' ->].
    apply in_or_app. right. left. reflexivity.
  - apply last_None in E. contradiction.
Qed.

Lemma scan_weights_In (cs : list Curiosity.t) (r : Q) (ws : list Q) :
  forall (cumulative : Q) (i : nat) (res : result Curiosity.t),
    (i + length ws <= length cs)%nat ->
    scan_weights cs r cumulative i ws = Some res ->
    exists c, res = Ok c /\ In c cs.
Proof.
  induction ws as [|w ws IH]; intros cumulative i res Hlen; simpl.
  - discriminate.
  - simpl in Hlen.
    destruct (Qle_bool r (cumulative + w)).
    + intros [= <-]. apply getitem_In. lia.
    + apply IH. lia.
Qed.

Lemma weighted_select_spec (cs : list Curiosity.t) (m : Machine) :
  cs <> [] ->
  exists c,
    _weighted_select cs m = (Ok c, after_selection (length cs) m, [])
    /\ In c cs.
Proof.
  intros Hne. unfold _weighted_select. unfold_M.
  destruct (draw_weights_spec cs m) as (ws & E & L).
  rewrite E. cbn [random_values random_cursor disk uuid_values uuid_cursor clock].
  destruct (scan_weights cs _ 0%Q 0%nat ws) as [res|] eqn:S.
  - apply scan_weights_In in S as (c & -> & Hin); [|lia].
    exists c. split; [reflexivity | exact Hin].
  - destruct (getitem_last_In cs Hne) as (c & Ec & Hin).
    rewrite Ec. exists c. split; [reflexivity | exact Hin].
Qed.

(** C9.  For every non-empty list of curiosities and every sequence of values
    of the random source, [_weighted_select] returns an element of the list it
    was given: neither the indexed return inside the scan nor the final
    [curiosities[-1]] raises, and the stores are not touched. *)
Theorem weighted_select_returns_member (cs : list Curiosity.t) (m : Machine) :
  cs <> [] ->
  exists (c : Curiosity.t) (m' : Machine),
    _weighted_select cs m = (Ok c, m', []) /\ In c cs /\ disk m' = disk m.
Proof.
  intros Hne.
  destruct (weighted_select_spec cs m Hne) as (c & E & Hin).
  exists c, (after_selection (length cs) m). auto.
Qed.

(** ** Running binds *)

Lemma bind_run {A B} (c : M A) (k : A -> M B) (m m1 m2 : Machine)
    (a : A) (r : result B) (j1 j2 : list World) :
  c m = (Ok a, m1, j1) ->
  k a m1 = (r, m2, j2) ->
  (x ← c; k x) m = (r, m2, j1 ++ j2).
Proof.
  intros E1 E2. unfold mbind, M_bind, bind. rewrite E1, E2. reflexivity.
Qed.

Lemma bind_run_quiet {A B} (c : M A) (k : A -> M B) (m m1 m2 : Machine)
    (a : A) (r : result B) (j2 : list World) :
  c m = (Ok a, m1, []) ->
  k a m1 = (r, m2, j2) ->
  (x ← c; k x) m = (r, m2, j2).
Proof. intros E1 E2. exact (bind_run c k m m1 m2 a r [] j2 E1 E2). Qed.

Lemma bind_raise {A B} (c : M A) (k : A -> M B) (m m1 : Machine)
    (e : Exception) (j1 : list World) :
  c m = (Raise e, m1, j1) ->
  (x ← c; k x) m = (Raise e, m1, j1).
Proof.
  intros E1. unfold mbind, M_bind, bind. rewrite E1. reflexivity.
Qed.

(** ** The loops of [explore_one] *)

Lemma new_node_run (f : string -> MemoryNode.t) (m : Machine) :
  (node_id ← uuid4; create_node (f node_id)) m
  = match MemoryNode.content (f (uuid_values m (uuid_cursor m))) with
    | EmptyString => (Raise ValidationError, after_create (disk m) m, [])
    | String _ _ =>
        let w := with_nodes
                   (nodes (disk m) ++ [f (uuid_values m (uuid_cursor m))])
                   (disk m) in
        (Ok tt, after_create w m, [w])
    end.
Proof.
  unfold mbind, M_bind, bind, uuid4, create_node. cbn.
  destruct (MemoryNode.content (f (uuid_values m (uuid_cursor m))));
    reflexivity.
Qed.

Lemma new_curiosity_run (f : string -> Curiosity.t) (m : Machine) :
  (new_id ← uuid4; create_curiosity (f new_id)) m
  = (let w := with_curiosities
                (curiosities (disk m) ++ [f (uuid_values m (uuid_cursor m))])
                (disk m) in
     (Ok tt, after_create w m, [w])).
Proof. reflexivity. Qed.

Lemma for_each_create_node_spec (f : string -> string -> MemoryNode.t)
    (insights : list string) (m : Machine) :
  (forall i x, MemoryNode.content (f i x) = x) ->
  exists r m' j,
    for_each insights
      (fun insight => node_id ← uuid4; create_node (f node_id insight)) m
    = (r, m', j)
    /\ curiosities (disk m') = curiosities (disk m)
    /\ journal_follows (disk m) j = true
    /\ last_world (disk m) j = disk m'
    /\ uuid_values m' = uuid_values m
    /\ (uuid_cursor m <= uuid_cursor m')%nat
    /\ (r = Ok tt
        /\ Forall (fun insight => insight <> EmptyString) insights
        \/ r = Raise ValidationError /\ In EmptyString insights).
Proof.
  intros Hcontent. revert m.
  induction insights as [|x xs IH]; intros m.
  - exists (Ok tt), m, []. simpl. unfold_M.
    repeat (split; [first [reflexivity | lia]|]).
    left. split; [reflexivity | constructor].
  - cbn [for_each].
    pose proof (new_node_run (fun i => f i x) m) as E1. cbn beta in E1.
    rewrite Hcontent in E1.
    destruct x as [|ch x'].
    + exists (Raise ValidationError), (after_create (disk m) m), [].
      split; [exact (bind_raise _ _ _ _ _ _ E1)|].
      cbn [after_create disk uuid_values uuid_cursor journal_follows
           last_world last].
      repeat (split; [first [reflexivity | lia]|]).
      right. split; [reflexivity | left; reflexivity].
    + cbn zeta in E1.
      destruct (IH (after_create
                      (with_nodes
                         (nodes (disk m)
                          ++ [f (uuid_values m (uuid_cursor m)) (String ch x')])
                         (disk m)) m))
        as (r & m' & j & E & Hc & Hj & Hl & Hu & Hk & Hr).
      cbn [after_create disk uuid_values uuid_cursor] in Hc, Hj, Hl, Hu, Hk.
      eexists r, m', (_ :: j).
      split; [exact (bind_run _ _ _ _ _ _ _ _ _ E1 E)|].
      split; [exact Hc|].
      split.
      { cbn [journal_follows with_nodes curiosities].
        rewrite rows_follow_refl. exact Hj. }
      split; [rewrite last_world_cons; exact Hl|].
      split; [exact Hu|]. split; [lia|].
      destruct Hr as [[-> Hall] | [-> Hin]].
      * left. split; [reflexivity|]. constructor; [discriminate | exact Hall].
      * right. split; [reflexivity | right; exact Hin].
Qed.

Lemma for_each_log_choice_spec (cs : list (gmap string string)) (m : Machine) :
  for_each cs _log_choice m = (Ok tt, m, []).
Proof.
  induction cs as [|c cs IH]; [reflexivity|].
  cbn [for_each].
  exact (bind_run (_log_choice c) _ m m m tt _ [] [] eq_refl IH).
Qed.

Lemma for_each_create_curiosity_spec (f : string -> string -> Curiosity.t)
    (questions : list string) (m : Machine) :
  (forall i q, Curiosity.id (f i q) = i) ->
  (forall i q, Curiosity.status (f i q) = PENDING) ->
  exists m' j extra,
    for_each questions
      (fun question => new_id ← uuid4; create_curiosity (f new_id question)) m
    = (Ok tt, m', j)
    /\ curiosities (disk m') = curiosities (disk m) ++ extra
    /\ length extra = length questions
    /\ Forall (fun x => Curiosity.status x = PENDING /\
                        exists k, (uuid_cursor m <= k)%nat /\
                                  Curiosity.id x = uuid_values m k) extra
    /\ journal_follows (disk m) j = true
    /\ last_world (disk m) j = disk m'
    /\ uuid_values m' = uuid_values m
    /\ (uuid_cursor m <= uuid_cursor m')%nat.
Proof.
  intros Hid Hst. revert m. induction questions as [|x xs IH]; intros m.
  - exists m, [], []. simpl. unfold_M. rewrite app_nil_r. auto 8.
  - cbn [for_each].
    pose proof (new_curiosity_run (fun i => f i x) m) as E1. cbn zeta in E1.
    destruct (IH (after_create
                    (with_curiosities
                       (curiosities (disk m)
                        ++ [f (uuid_values m (uuid_cursor m)) x]) (disk m)) m))
      as (m' & j & extra & E & Hc & Hn & Hx & Hj & Hl & Hu & Hk).
    cbn [after_create disk uuid_values uuid_cursor with_curiosities curiosities]
      in Hc, Hn, Hx, Hj, Hl, Hu, Hk.
    eexists m', (_ :: j), (f (uuid_values m (uuid_cursor m)) x :: extra).
    split; [exact (bind_run _ _ _ _ _ _ _ _ _ E1 E)|].
    split; [rewrite Hc, <- app_assoc; reflexivity|].
    split; [simpl; lia|].
    split.
    { constructor.
      - split; [apply Hst|]. exists (uuid_cursor m). split; [lia | apply Hid].
      - eapply Forall_impl; [exact Hx|]. cbn beta.
        intros a (Ha & k & Hk' & Hak). split; [exact Ha|].
        exists k. split; [lia | exact Hak]. }
    split.
    { cbn [journal_follows with_curiosities curiosities].
      rewrite rows_follow_app. exact Hj. }
    split; [rewrite last_world_cons; exact Hl|].
    split; [exact Hu | lia].
Qed.

(** ** One exploration *)

Lemma update_curiosity_run (c : Curiosity.t) (m : Machine) :
  update_curiosity c m
  = (let w := with_curiosities
                (List.map (replace_row c) (curiosities (disk m))) (disk m) in
     (Ok tt, with_disk w m, [w])).
Proof. reflexivity. Qed.

Lemma replace_row_other (c row : Curiosity.t) :
  Curiosity.id row <> Curiosity.id c -> replace_row c row = row.
Proof.
  intros H. unfold replace_row.
  destruct (String.eqb_spec (Curiosity.id row) (Curiosity.id c)); congruence.
Qed.

Lemma replace_row_same (c row : Curiosity.t) :
  Curiosity.id row = Curiosity.id c -> replace_row c row = c.
Proof.
  intros H. unfold replace_row. rewrite H, String.eqb_refl. reflexivity.
Qed.

Lemma replace_row_id (c row : Curiosity.t) :
  Curiosity.id (replace_row c row) = Curiosity.id row.
Proof.
  unfold replace_row.
  destruct (String.eqb_spec (Curiosity.id row) (Curiosity.id c)); congruence.
Qed.

Lemma NoDup_id_eq (rows : list Curiosity.t) (a b : Curiosity.t) :
  NoDup (List.map Curiosity.id rows) ->
  In a rows -> In b rows -> Curiosity.id a = Curiosity.id b -> a = b.
Proof.
  induction rows as [|r rows IH]; intros Hnd Ha Hb Hid; [destruct Ha|].
  simpl in Hnd. apply NoDup_cons in Hnd as [Hnotin Hnd].
  rewrite list_elem_of_In in Hnotin.
  destruct Ha as [<-|Ha], Hb as [<-|Hb].
  - reflexivity.
  - exfalso. apply Hnotin. rewrite Hid. apply in_map. exact Hb.
  - exfalso. apply Hnotin. rewrite <- Hid. apply in_map. exact Ha.
  - apply IH; assumption.
Qed.

(** The first write of an exploration: the selected row goes from pending to
    exploring, the other rows stay as they are. *)
Lemma mark_exploring_follows (rows extra : list Curiosity.t) (c : Curiosity.t) :
  NoDup (List.map Curiosity.id rows) ->
  In c rows ->
  Curiosity.status c = PENDING ->
  rows_follow rows
    (List.map (replace_row (Curiosity.with_status EXPLORING c)) rows ++ extra)
  = true.
Proof.
  intros Hnd Hin Hst. apply rows_follow_map. intros r Hr.
  unfold replace_row. cbn [Curiosity.with_status Curiosity.id].
  destruct (String.eqb_spec (Curiosity.id r) (Curiosity.id c)) as [E|E].
  - assert (r = c) as -> by (eapply NoDup_id_eq; eauto).
    unfold row_follows. cbn [Curiosity.with_status Curiosity.id Curiosity.status].
    rewrite String.eqb_refl, Hst. reflexivity.
  - apply row_follows_refl.
Qed.

(** The last write of an exploration: the row marked exploring goes to
    explored, the other rows stay as they are. *)
Lemma mark_explored_follows (rows0 extra : list Curiosity.t) (c : Curiosity.t)
    (resolution : option string) :
  let c1 := Curiosity.with_status EXPLORING c in
  let c2 := Curiosity.with_resolution resolution
              (Curiosity.with_status EXPLORED c1) in
  Forall (fun x => Curiosity.id x <> Curiosity.id c) extra ->
  List.map (replace_row c2) (List.map (replace_row c1) rows0 ++ extra)
  = List.map (replace_row c2) (List.map (replace_row c1) rows0) ++ extra
  /\ rows_follow (List.map (replace_row c1) rows0 ++ extra)
       (List.map (replace_row c2) (List.map (replace_row c1) rows0 ++ extra))
     = true.
Proof.
  intros c1 c2 Hextra.
  assert (Hx : List.map (replace_row c2) extra = extra).
  { clear -Hextra. induction Hextra as [|x l Hx _ IH]; [reflexivity|].
    simpl. rewrite IH, replace_row_other; [reflexivity | exact Hx]. }
  split.
  - rewrite List.map_app, Hx. reflexivity.
  - rewrite <- (app_nil_r (List.map (replace_row c2) _)).
    apply rows_follow_map. intros r Hr.
    apply in_app_or in Hr as [Hr|Hr].
    + apply in_map_iff in Hr as (r0 & <- & _).
      destruct (String.eqb_spec (Curiosity.id r0) (Curiosity.id c1)) as [E|E].
      * rewrite (replace_row_same c1 r0 E).
        rewrite (replace_row_same c2 c1 eq_refl).
        unfold row_follows. cbn. rewrite String.eqb_refl. reflexivity.
      * rewrite (replace_row_other c1 r0 E).
        rewrite (replace_row_other c2 r0 E). apply row_follows_refl.
    + rewrite Forall_forall in Hextra.
      rewrite replace_row_other; [apply row_follows_refl|].
      apply Hextra. apply list_elem_of_In. exact Hr.
Qed.

(** What one exploration of the selected curiosity [c] does to the curiosity
    table, and the journal of its writes. *)
Lemma explore_selected_spec
    (oracle : Curiosity.t -> result ExplorationResult.t)
    (c : Curiosity.t) (m : Machine) :
  let rows0 := curiosities (disk m) in
  let c1 := Curiosity.with_status EXPLORING c in
  NoDup (List.map Curiosity.id rows0) ->
  In c rows0 ->
  Curiosity.status c = PENDING ->
  fresh_uuids m ->
  exists r m' j,
    explore_selected oracle c m = (r, m', j)
    /\ journal_follows (disk m) j = true
    /\ last_world (disk m) j = disk m'
    /\ hd_error j
       = Some (with_curiosities (List.map (replace_row c1) rows0) (disk m))
    /\ match oracle c1 with
       | Raise e =>
           r = Raise e
           /\ curiosities (disk m') = List.map (replace_row c1) rows0
       | Ok res =>
           let c2 := Curiosity.with_resolution
                       (ExplorationResult.conclusion res)
                       (Curiosity.with_status EXPLORED c1) in
           (r = Ok (explored (Curiosity.question c)
                      (length (ExplorationResult.insights res))
                      (length (ExplorationResult.new_questions res))
                      (ExplorationResult.conclusion res))
            /\ Forall (fun insight => insight <> EmptyString)
                 (ExplorationResult.insights res)
            /\ exists extra,
                 curiosities (disk m')
                 = List.map (replace_row c2) (List.map (replace_row c1) rows0)
                   ++ extra
                 /\ length extra = length (ExplorationResult.new_questions res)
                 /\ Forall (fun x => Curiosity.status x = PENDING /\
                                     Curiosity.id x <> Curiosity.id c) extra)
           \/ (r = Raise ValidationError
               /\ In EmptyString (ExplorationResult.insights res)
               /\ curiosities (disk m') = List.map (replace_row c1) rows0)
       end.
Proof.
  intros rows0 c1 Hnd Hin Hst Hfresh.
  unfold explore_selected. fold c1.
  pose proof (update_curiosity_run c1 m) as E1. cbn zeta in E1. fold rows0 in E1.
  set (w1 := with_curiosities (List.map (replace_row c1) rows0) (disk m)) in *.
  set (m1 := with_disk w1 m) in *.
  assert (F1 : rows_follow rows0 (curiosities w1) = true).
  { cbn. rewrite <- (app_nil_r (List.map _ rows0)).
    apply mark_exploring_follows; assumption. }
  destruct (oracle c1) as [res|e] eqn:Eo.
  - (* the collaborator answered *)
    destruct (for_each_create_node_spec
                (fun node_id insight =>
                   MemoryNode.mk node_id INSIGHT insight
                     (Some ("Discovered while exploring: "
                            +:+ String.substring 0 50 (Curiosity.question c1)))
                     (6 # 10)
                     {[ "source_curiosity" := Curiosity.id c1 ]})
                (ExplorationResult.insights res) m1 (fun _ _ => eq_refl))
      as (r2 & m2 & j2 & E2 & Hc2 & Hj2 & Hl2 & Hu2 & Hk2 & Hr2).
    destruct Hr2 as [[-> Hall] | [-> Hblank]].
    2:{ (* the store refused an empty insight *)
      eexists _, _, _. split.
      { eapply bind_run; [exact E1|].
        eapply bind_run; [reflexivity|].
        eapply bind_raise. exact E2. }
      split.
      { cbn [app journal_follows]. fold rows0. rewrite F1. cbn [andb].
        change (disk m1) with w1 in Hj2. exact Hj2. }
      split.
      { cbn [app]. rewrite last_world_cons.
        change (disk m1) with w1 in Hl2. exact Hl2. }
      split; [reflexivity|].
      right. split; [reflexivity|]. split; [exact Hblank|].
      rewrite Hc2. reflexivity. }
    pose proof (for_each_log_choice_spec (ExplorationResult.choices res) m2) as E3.
    destruct (for_each_create_curiosity_spec
                (fun new_id question =>
                   Curiosity.mk new_id question
                     (Some ("Emerged from exploring: "
                            +:+ Curiosity.question c1))
                     (1 # 2) PENDING None [])
                (ExplorationResult.new_questions res) m2
                (fun _ _ => eq_refl) (fun _ _ => eq_refl))
      as (m3 & j3 & extra & E4 & Hc4 & Hn4 & Hx4 & Hj4 & Hl4 & Hu4 & Hk4).
    set (c2 := Curiosity.with_resolution (ExplorationResult.conclusion res)
                 (Curiosity.with_status EXPLORED c1)).
    pose proof (update_curiosity_run c2 m3) as E5. cbn zeta in E5.
    assert (Hrows3 : curiosities (disk m3)
                     = List.map (replace_row c1) rows0 ++ extra).
    { rewrite Hc4, Hc2. reflexivity. }
    assert (Hextra : Forall (fun x => Curiosity.status x = PENDING /\
                                      Curiosity.id x <> Curiosity.id c) extra).
    { eapply Forall_impl; [exact Hx4|]. cbn beta.
      intros x (Hxs & k & Hk & Hxid). split; [exact Hxs|].
      rewrite Hxid, Hu2. intros Heq.
      apply (Hfresh k); [cbn in Hk2; lia|].
      change (uuid_values m1 k) with (uuid_values m k) in Heq.
      rewrite Heq. apply in_map. exact Hin. }
    destruct (mark_explored_follows rows0 extra c
                (ExplorationResult.conclusion res)) as [Hmap Hfol].
    { eapply Forall_impl; [exact Hextra|]. intros x [_ Hx]. exact Hx. }
    cbn zeta in Hmap, Hfol. fold c1 c2 in Hmap, Hfol.
    rewrite Hrows3 in E5.
    eexists _, _, _. split.
    { eapply bind_run; [exact E1|].
      eapply bind_run; [reflexivity|].
      eapply bind_run; [exact E2|].
      eapply bind_run; [exact E3|].
      eapply bind_run; [exact E4|].
      eapply bind_run; [exact E5|].
      reflexivity. }
    split.
    { cbn [app].
      cbn [journal_follows]. fold rows0. rewrite F1. cbn [andb].
      rewrite journal_follows_app. change (disk m1) with w1 in Hj2.
      rewrite Hj2. cbn [andb app].
      change (disk m1) with w1 in Hl2. rewrite Hl2.
      rewrite journal_follows_app, Hj4. cbn [andb].
      rewrite Hl4. cbn [journal_follows andb with_curiosities curiosities].
      rewrite Hrows3, Hfol. reflexivity. }
    split.
    { cbn [app]. rewrite last_world_cons.
      rewrite last_world_app. change (disk m1) with w1 in Hl2.
      rewrite Hl2. cbn [app]. rewrite last_world_app, Hl4.
      reflexivity. }
    split; [reflexivity|].
    left. split; [reflexivity|]. split; [exact Hall|].
    exists extra. cbn [with_disk disk with_curiosities curiosities].
    split; [exact Hmap|]. split; [exact Hn4 | exact Hextra].
  - (* the collaborator raised *)
    eexists _, _, _. split.
    { eapply bind_run; [exact E1|].
      eapply bind_raise. reflexivity. }
    split; [cbn [app journal_follows]; fold rows0; rewrite F1; reflexivity|].
    split; [reflexivity|].
    split; [reflexivity|].
    split; reflexivity.
Qed.

Lemma In_firstn_In {A} (n : nat) (l : list A) (x : A) :
  In x (firstn n l) -> In x l.
Proof.
  intros H. rewrite <- (firstn_skipn n l). apply in_or_app. left. exact H.
Qed.

Lemma window_pending (n : nat) (rows : list Curiosity.t) (c : Curiosity.t) :
  In c (firstn n (List.filter (has_status PENDING) rows)) ->
  In c rows /\ Curiosity.status c = PENDING.
Proof.
  intros H. apply In_firstn_In in H. apply filter_In in H as [Hin Hst].
  split; [exact Hin|].
  unfold has_status in Hst. destruct (Curiosity.status c); (reflexivity || discriminate).
Qed.

(** [explore_one] either reports that nothing is pending, or explores a
    member of the window fetched from the store. *)
Lemma explore_one_spec
    (oracle : Curiosity.t -> result ExplorationResult.t) (m : Machine) :
  let window :=
    firstn 10 (List.filter (has_status PENDING) (curiosities (disk m))) in
  match window with
  | [] => explore_one oracle m
          = (Ok (no_curiosities "Nothing to explore"), m, [])
  | _ :: _ =>
      exists c,
        In c window
        /\ _weighted_select window m
           = (Ok c, after_selection (length window) m, [])
        /\ explore_one oracle m
           = explore_selected oracle c (after_selection (length window) m)
  end.
Proof.
  intros window. unfold explore_one.
  assert (Eg : get_curiosities PENDING (Some 10%nat) m = (Ok window, m, []))
    by reflexivity.
  destruct window as [|c0 rest] eqn:Ew.
  - exact (bind_run _ _ _ _ _ _ _ _ _ Eg eq_refl).
  - destruct (weighted_select_spec (c0 :: rest) m) as (c & Es & Hin);
      [discriminate|].
    exists c. split; [exact Hin|]. split; [exact Es|].
    destruct (explore_selected oracle c (after_selection (length (c0 :: rest)) m))
      as [[r m2] j2] eqn:Ex.
    eapply (bind_run _ _ _ _ _ _ _ _ _ Eg).
    exact (bind_run _ _ _ _ _ _ _ _ _ Es Ex).
Qed.

Lemma fresh_uuids_after_selection (n : nat) (m : Machine) :
  fresh_uuids m -> fresh_uuids (after_selection n m).
Proof. intros H. exact H. Qed.

(** ** The state machine over a journal *)

Lemma rows_follow_lookup (old new : list Curiosity.t) (k : nat) (r : Curiosity.t) :
  rows_follow old new = true ->
  old !! k = Some r ->
  exists r', new !! k = Some r' /\ row_follows r r' = true.
Proof.
  revert new k. induction old as [|o old IH]; intros new k H Hk.
  - destruct k; discriminate Hk.
  - destruct new as [|n new]; [discriminate H|].
    simpl in H. apply andb_prop in H as [Hrow Hrest].
    destruct k as [|k].
    + injection Hk as <-. exists n. split; [reflexivity | exact Hrow].
    + apply (IH new k Hrest Hk).
Qed.

Lemma row_follows_terminal (r r' : Curiosity.t) :
  row_follows r r' = true ->
  terminal (Curiosity.status r) = true ->
  Curiosity.id r' = Curiosity.id r /\ Curiosity.status r' = Curiosity.status r.
Proof.
  unfold row_follows. intros H Ht. apply andb_prop in H as [Hid Hs].
  apply String.eqb_eq in Hid. split; [symmetry; exact Hid|].
  destruct (Curiosity.status r), (Curiosity.status r');
    (reflexivity || discriminate).
Qed.

Lemma journal_follows_terminal (j : list World) :
  forall (w w' : World) (k : nat) (r : Curiosity.t),
    journal_follows w j = true ->
    In w' j ->
    curiosities w !! k = Some r ->
    terminal (Curiosity.status r) = true ->
    exists r', curiosities w' !! k = Some r'
               /\ Curiosity.id r' = Curiosity.id r
               /\ Curiosity.status r' = Curiosity.status r.
Proof.
  induction j as [|w1 j IH]; intros w w' k r Hj Hin Hk Ht; [destruct Hin|].
  simpl in Hj. apply andb_prop in Hj as [Hstep Hrest].
  destruct (rows_follow_lookup _ _ k r Hstep Hk) as (r1 & Hk1 & Hrow).
  destruct (row_follows_terminal r r1 Hrow Ht) as [Hid Hst].
  destruct Hin as [<-|Hin].
  - exists r1. auto.
  - destruct (IH w1 w' k r1 Hrest Hin Hk1) as (r' & Hk' & Hid' & Hst').
    { rewrite Hst. exact Ht. }
    exists r'. split; [exact Hk'|]. split; congruence.
Qed.

(** C4.  Every write of [explore_one] moves the rows of the curiosity table
    along the state machine only (pending to exploring, exploring to explored,
    exploring to pending, exploring to abandoned): no row goes from pending to
    explored in one write, a row in a terminal status keeps its status in every
    write, and the first write, if there is one, is the move of a pending row
    to exploring. *)
Theorem explore_one_follows_state_machine
    (oracle : Curiosity.t -> result ExplorationResult.t) (m : Machine) :
  NoDup (List.map Curiosity.id (curiosities (disk m))) ->
  fresh_uuids m ->
  let j := run_journal (explore_one oracle) m in
  journal_follows (disk m) j = true
  /\ allowed_transition PENDING EXPLORED = false
  /\ (forall (w' : World) (k : nat) (r : Curiosity.t),
        In w' j ->
        curiosities (disk m) !! k = Some r ->
        terminal (Curiosity.status r) = true ->
        exists r', curiosities w' !! k = Some r'
                   /\ Curiosity.id r' = Curiosity.id r
                   /\ Curiosity.status r' = Curiosity.status r)
  /\ (j <> [] ->
      exists c,
        In c (curiosities (disk m))
        /\ Curiosity.status c = PENDING
        /\ hd_error j
           = Some (with_curiosities
                     (List.map (replace_row (Curiosity.with_status EXPLORING c))
                               (curiosities (disk m)))
                     (disk m))).
Proof.
  intros Hnd Hfresh j.
  assert (Hmain :
    journal_follows (disk m) j = true
    /\ (j <> [] ->
        exists c,
          In c (curiosities (disk m))
          /\ Curiosity.status c = PENDING
          /\ hd_error j
             = Some (with_curiosities
                       (List.map (replace_row (Curiosity.with_status EXPLORING c))
                                 (curiosities (disk m)))
                       (disk m)))).
  { subst j. unfold run_journal.
    pose proof (explore_one_spec oracle m) as Hspec. cbn zeta in Hspec.
    destruct (firstn 10 (List.filter (has_status PENDING) (curiosities (disk m))))
      as [|c0 rest] eqn:Ew.
    - rewrite Hspec. split; [reflexivity | intros H; now elim H].
    - destruct Hspec as (c & Hin & _ & E). rewrite E.
      rewrite <- Ew in Hin. apply window_pending in Hin as [Hin Hst].
      destruct (explore_selected_spec oracle c
                  (after_selection (length (c0 :: rest)) m))
        as (r & m' & j' & Ex & Hj & _ & Hhd & _); try assumption.
      rewrite Ex. cbn [snd]. split; [exact Hj|].
      intros _. exists c. auto. }
  destruct Hmain as [Hj Hhd].
  split; [exact Hj|]. split; [reflexivity|].
  split; [|exact Hhd].
  intros w' k r Hin Hk Ht.
  exact (journal_follows_terminal j (disk m) w' k r Hj Hin Hk Ht).
Qed.

Ltac fresh_by_first_letter :=
  let k := fresh "k" in
  let H := fresh "H" in
  intros k _ H; cbn in H;
  repeat (destruct H as [H|H]; [discriminate H|]);
  exact H.

Lemma explore_one_follows_state_machine_witness :
  NoDup (List.map Curiosity.id (curiosities mixed_world))
  /\ fresh_uuids (example_machine mixed_world halves_source)
  /\ journal_follows mixed_world
       (run_journal (explore_one example_oracle)
          (example_machine mixed_world halves_source)) = true.
Proof.
  assert (Hnd : NoDup (List.map Curiosity.id (curiosities mixed_world))).
  { apply (bool_decide_unpack _). vm_compute. exact I. }
  assert (Hfresh : fresh_uuids (example_machine mixed_world halves_source)).
  { unfold fresh_uuids. fresh_by_first_letter. }
  split; [exact Hnd|]. split; [exact Hfresh|].
  exact (proj1 (explore_one_follows_state_machine example_oracle
                  (example_machine mixed_world halves_source) Hnd Hfresh)).
Defined.

(** ** The window of candidates *)

Lemma NoDup_map_filter {A B} (f : A -> B) (p : A -> bool) (l : list A) :
  NoDup (List.map f l) -> NoDup (List.map f (List.filter p l)).
Proof.
  induction l as [|x l IH]; intros H; simpl; [constructor|].
  simpl in H. apply NoDup_cons in H as [Hx Hl].
  destruct (p x); [|apply IH; exact Hl].
  simpl. apply NoDup_cons. split; [|apply IH; exact Hl].
  intros Hin. apply Hx.
  apply list_elem_of_In in Hin. apply list_elem_of_In.
  apply in_map_iff in Hin as (y & Hy & Hyin).
  apply filter_In in Hyin as [Hyin _].
  rewrite <- Hy. apply in_map. exact Hyin.
Qed.

(** C10.  An exploration cycle fetches at most ten pending curiosities
    ([limit=10]) and selects among them only: when a pending curiosity [r]
    lies beyond the first ten returned by the store, then, whatever the random
    source yields and whatever the priority of [r], the curiosity handed to the
    exploration is one of the first ten and is not [r]. *)
Theorem explore_one_ignores_curiosities_beyond_window
    (oracle : Curiosity.t -> result ExplorationResult.t) (m : Machine)
    (k : nat) (r : Curiosity.t) :
  let pending := List.filter (has_status PENDING) (curiosities (disk m)) in
  let window := firstn 10 pending in
  NoDup (List.map Curiosity.id (curiosities (disk m))) ->
  pending !! k = Some r ->
  (10 <= k)%nat ->
  length window = 10%nat
  /\ exists c,
       In c window
       /\ _weighted_select window m = (Ok c, after_selection 10 m, [])
       /\ explore_one oracle m
          = explore_selected oracle c (after_selection 10 m)
       /\ Curiosity.id c <> Curiosity.id r.
Proof.
  intros pending window Hnd Hk Hle.
  assert (Hlen : (k < length pending)%nat)
    by (eapply lookup_lt_Some; exact Hk).
  assert (Hw : length window = 10%nat).
  { unfold window. rewrite length_firstn. lia. }
  split; [exact Hw|].
  pose proof (explore_one_spec oracle m) as Hspec. cbn zeta in Hspec.
  fold pending in Hspec. fold window in Hspec.
  destruct window as [|c0 rest] eqn:Ew; [discriminate Hw|].
  destruct Hspec as (c & Hin & Es & Ex).
  rewrite Hw in Es, Ex.
  exists c. split; [exact Hin|]. split; [exact Es|]. split; [exact Ex|].
  intros Hid.
  rewrite <- Ew in Hin. unfold window in Hin.
  apply list_elem_of_In in Hin. apply elem_of_take in Hin as (i & Hi & Hlt).
  assert (Hnd' : NoDup (List.map Curiosity.id pending))
    by (apply NoDup_map_filter; exact Hnd).
  assert (i = k); [|lia].
  eapply NoDup_lookup; [exact Hnd'| |].
  - rewrite list_lookup_fmap. rewrite Hi. reflexivity.
  - rewrite list_lookup_fmap. rewrite Hk. simpl. rewrite Hid. reflexivity.
Qed.

Lemma explore_one_ignores_curiosities_beyond_window_witness :
  NoDup (List.map Curiosity.id (curiosities eleven_pending))
  /\ List.filter (has_status PENDING) (curiosities eleven_pending) !! 10%nat
     = Some (example_curiosity "late" 1 PENDING)
  /\ exists c,
       In c (firstn 10 (List.filter (has_status PENDING)
                          (curiosities eleven_pending)))
       /\ explore_one example_oracle
            (example_machine eleven_pending halves_source)
          = explore_selected example_oracle c
              (after_selection 10 (example_machine eleven_pending halves_source))
       /\ Curiosity.id c <> "late".
Proof.
  assert (Hnd : NoDup (List.map Curiosity.id (curiosities eleven_pending))).
  { apply (bool_decide_unpack _). vm_compute. exact I. }
  split; [exact Hnd|]. split; [reflexivity|].
  destruct (explore_one_ignores_curiosities_beyond_window example_oracle
              (example_machine eleven_pending halves_source) 10
              (example_curiosity "late" 1 PENDING) Hnd eq_refl (le_n 10))
    as (_ & c & Hin & _ & Ex & Hid).
  exists c. split; [exact Hin|]. split; [exact Ex | exact Hid].
Defined.

(** ** The outcome of an exploration *)

Lemma find_replaced (c c' : Curiosity.t) (rows extra : list Curiosity.t) :
  Curiosity.id c' = Curiosity.id c ->
  In c rows ->
  List.find (fun x => String.eqb (Curiosity.id x) (Curiosity.id c))
            (List.map (replace_row c') rows ++ extra)
  = Some c'.
Proof.
  intros Hid. induction rows as [|r rows IH]; intros Hin; [destruct Hin|].
  cbn [List.map app].
  destruct (String.eqb_spec (Curiosity.id r) (Curiosity.id c)) as [E|E].
  - rewrite (replace_row_same c' r) by congruence.
    cbn [List.find]. rewrite Hid, String.eqb_refl. reflexivity.
  - rewrite (replace_row_other c' r) by congruence.
    cbn [List.find]. apply String.eqb_neq in E. rewrite E. apply IH.
    destruct Hin as [->|Hin]; [|exact Hin].
    rewrite String.eqb_refl in E. discriminate E.
Qed.

Lemma map_replace_In (c c' : Curiosity.t) (rows : list Curiosity.t) :
  In c rows ->
  exists c0, In c0 (List.map (replace_row c') rows)
             /\ Curiosity.id c0 = Curiosity.id c.
Proof.
  intros Hin. exists (replace_row c' c). split.
  - apply in_map. exact Hin.
  - apply replace_row_id.
Qed.

Lemma replaced_abandoned_was_there (c1 c2 r0 : Curiosity.t)
    (rows : list Curiosity.t) :
  Curiosity.status c1 = EXPLORING ->
  Curiosity.status c2 = EXPLORED ->
  Curiosity.status (replace_row c2 (replace_row c1 r0)) = ABANDONED ->
  In r0 rows ->
  In (replace_row c2 (replace_row c1 r0)) rows.
Proof.
  intros H1 H2 Hab Hin. unfold replace_row in *.
  destruct (String.eqb (Curiosity.id r0) (Curiosity.id c1)).
  - destruct (String.eqb (Curiosity.id c1) (Curiosity.id c2));
      congruence.
  - destruct (String.eqb (Curiosity.id r0) (Curiosity.id c2));
      [congruence | exact Hin].
Qed.

(** C3, as the code has it.  [explore_one] has four outcomes.  With nothing
    pending it reports so and writes nothing.  When the collaborator answers
    and the store accepts every insight, whatever the answer holds (no
    insight and no conclusion included), the selected curiosity ends in
    status explored with the conclusion, possibly none, as its resolution: it
    is not left pending and not abandoned.  When the collaborator raises, or
    when it answers with an empty insight and the store refuses the node
    with [ValidationError], [explore_one] raises and the selected curiosity
    is left exploring.  In every case a row that is abandoned afterwards was
    abandoned before. *)
Theorem explore_one_marks_selected_explored
    (oracle : Curiosity.t -> result ExplorationResult.t) (m : Machine) :
  NoDup (List.map Curiosity.id (curiosities (disk m))) ->
  fresh_uuids m ->
  let final := disk (run_machine (explore_one oracle) m) in
  match run_result (explore_one oracle) m with
  | Ok (no_curiosities _) =>
      final = disk m
      /\ firstn 10 (List.filter (has_status PENDING) (curiosities (disk m))) = []
  | Ok (explored question insights_gained new_questions conclusion) =>
      exists c res,
        In c (curiosities (disk m))
        /\ Curiosity.status c = PENDING
        /\ Curiosity.question c = question
        /\ oracle (Curiosity.with_status EXPLORING c) = Ok res
        /\ Forall (fun insight => insight <> EmptyString)
             (ExplorationResult.insights res)
        /\ insights_gained = length (ExplorationResult.insights res)
        /\ conclusion = ExplorationResult.conclusion res
        /\ find_row (Curiosity.id c) final
           = Some (Curiosity.with_resolution conclusion
                     (Curiosity.with_status EXPLORED c))
  | Raise e =>
      exists c,
        In c (curiosities (disk m))
        /\ Curiosity.status c = PENDING
        /\ (oracle (Curiosity.with_status EXPLORING c) = Raise e
            \/ e = ValidationError
               /\ exists res,
                    oracle (Curiosity.with_status EXPLORING c) = Ok res
                    /\ In EmptyString (ExplorationResult.insights res))
        /\ find_row (Curiosity.id c) final
           = Some (Curiosity.with_status EXPLORING c)
  end
  /\ (forall r,
        In r (curiosities final) ->
        Curiosity.status r = ABANDONED ->
        In r (curiosities (disk m))).
Proof.
  intros Hnd Hfresh final. subst final. unfold run_result, run_machine.
  pose proof (explore_one_spec oracle m) as Hspec. cbn zeta in Hspec.
  destruct (firstn 10 (List.filter (has_status PENDING) (curiosities (disk m))))
    as [|c0 rest] eqn:Ew.
  - rewrite Hspec. cbn. auto.
  - destruct Hspec as (c & Hin & _ & E). rewrite E.
    rewrite <- Ew in Hin. apply window_pending in Hin as [Hin Hst].
    destruct (explore_selected_spec oracle c
                (after_selection (length (c0 :: rest)) m))
      as (r & m' & j' & Ex & _ & _ & _ & Hcase); try assumption.
    rewrite Ex. cbn [fst snd].
    cbn [after_selection disk] in Hcase.
    assert (Hleft :
              curiosities (disk m')
              = List.map (replace_row (Curiosity.with_status EXPLORING c))
                  (curiosities (disk m)) ->
              find_row (Curiosity.id c) (disk m')
              = Some (Curiosity.with_status EXPLORING c)
              /\ forall r0,
                   In r0 (curiosities (disk m')) ->
                   Curiosity.status r0 = ABANDONED ->
                   In r0 (curiosities (disk m))).
    { intros Hrows. split.
      - unfold find_row. rewrite Hrows.
        rewrite <- (app_nil_r (List.map _ _)).
        apply find_replaced; [reflexivity | exact Hin].
      - intros r0 Hr Hab. rewrite Hrows in Hr.
        apply in_map_iff in Hr as (r1 & <- & Hr1).
        unfold replace_row in *.
        destruct (String.eqb (Curiosity.id r1)
                    (Curiosity.id (Curiosity.with_status EXPLORING c)));
          [discriminate Hab | exact Hr1]. }
    destruct (oracle (Curiosity.with_status EXPLORING c)) as [res|e] eqn:Eo.
    + destruct Hcase as [(-> & Hall & extra & Hrows & _ & Hextra)
                        | (-> & Hblank & Hrows)].
      * split.
        -- exists c, res. repeat (split; [first [assumption | reflexivity]|]).
           unfold find_row. rewrite Hrows.
           destruct (map_replace_In c (Curiosity.with_status EXPLORING c)
                       (curiosities (disk m)) Hin) as (c0' & Hin0 & Hid0).
           rewrite <- Hid0.
           apply (find_replaced c0'); [cbn; symmetry; exact Hid0 | exact Hin0].
        -- intros r Hr Hab. rewrite Hrows in Hr.
           apply in_app_or in Hr as [Hr|Hr].
           ++ apply in_map_iff in Hr as (r1 & <- & Hr1).
              apply in_map_iff in Hr1 as (r0 & <- & Hr0).
              eapply replaced_abandoned_was_there; [| |exact Hab|exact Hr0];
                reflexivity.
           ++ rewrite Forall_forall in Hextra.
              apply list_elem_of_In in Hr. apply Hextra in Hr as [Hr _].
              rewrite Hr in Hab. discriminate Hab.
      * destruct (Hleft Hrows) as [Hfind Hab]. split; [|exact Hab].
        exists c. split; [exact Hin|]. split; [exact Hst|].
        split; [|exact Hfind].
        right. split; [reflexivity|]. exists res.
        split; [first [exact Eo | reflexivity] | exact Hblank].
    + destruct Hcase as (-> & Hrows).
      destruct (Hleft Hrows) as [Hfind Hab]. split; [|exact Hab].
      exists c. split; [exact Hin|]. split; [exact Hst|].
      split; [left; first [exact Eo | reflexivity] | exact Hfind].
Qed.

Lemma explore_one_marks_selected_explored_witness :
  NoDup (List.map Curiosity.id (curiosities one_pending))
  /\ fresh_uuids (example_machine one_pending halves_source)
  /\ exists c res,
       In c (curiosities one_pending)
       /\ _explore_curiosity_placeholder (Curiosity.with_status EXPLORING c)
          = Ok res
       /\ find_row (Curiosity.id c)
            (disk (run_machine (explore_one _explore_curiosity_placeholder)
                     (example_machine one_pending halves_source)))
          = Some (Curiosity.with_resolution (ExplorationResult.conclusion res)
                    (Curiosity.with_status EXPLORED c)).
Proof.
  assert (Hnd : NoDup (List.map Curiosity.id (curiosities one_pending))).
  { apply (bool_decide_unpack _). vm_compute. exact I. }
  assert (Hfresh : fresh_uuids (example_machine one_pending halves_source)).
  { unfold fresh_uuids. fresh_by_first_letter. }
  split; [exact Hnd|]. split; [exact Hfresh|].
  pose proof (explore_one_marks_selected_explored
                _explore_curiosity_placeholder
                (example_machine one_pending halves_source) Hnd Hfresh) as H.
  cbn zeta in H.
  change (run_result (explore_one _explore_curiosity_placeholder)
            (example_machine one_pending halves_source))
    with (Ok (explored "What about open?" 0 0 None)) in H.
  destruct H as ((c & res & Hin & _ & _ & Eo & _ & _ & Hc & Hfind) & _).
  exists c, res. split; [exact Hin|]. split; [exact Eo|].
  rewrite <- Hc. exact Hfind.
Defined.

(** C3, counterexample.  One pending curiosity and a collaborator that learned
    nothing (no insight, no conclusion): after [explore_one] the curiosity is
    explored, not pending. *)
Lemma explore_one_nothing_learned_not_left_pending :
  let m := example_machine one_pending halves_source in
  let c := example_curiosity "open" (1 # 2) PENDING in
  find_row "open" (disk m) = Some c
  /\ _explore_curiosity_placeholder (Curiosity.with_status EXPLORING c)
     = Ok (ExplorationResult.mk [] [] [] None)
  /\ run_result (explore_one _explore_curiosity_placeholder) m
     = Ok (explored "What about open?" 0 0 None)
  /\ option_map Curiosity.status
       (find_row "open"
          (disk (run_machine (explore_one _explore_curiosity_placeholder) m)))
     = Some EXPLORED
  /\ option_map Curiosity.status
       (find_row "open"
          (disk (run_machine (explore_one _explore_curiosity_placeholder) m)))
     <> Some PENDING.
Proof.
  cbn zeta. repeat split; try reflexivity.
  vm_compute. discriminate.
Qed.

(** The store's refusal at work: a collaborator whose second insight is
    empty.  The first insight is stored, the second is refused with
    [ValidationError], and the curiosity is left exploring; no follow-up
    question is created. *)
Lemma explore_one_refuses_empty_insight :
  let m := example_machine one_pending halves_source in
  let m' := run_machine (explore_one blank_oracle) m in
  run_result (explore_one blank_oracle) m = Raise ValidationError
  /\ option_map Curiosity.status (find_row "open" (disk m')) = Some EXPLORING
  /\ map MemoryNode.content (nodes (disk m')) = ["an insight"]
  /\ length (curiosities (disk m')) = 1%nat.
Proof. cbn zeta. repeat split; vm_compute; reflexivity. Qed.

Lemma halves_source_unit (w : World) :
  unit_interval_source (example_machine w halves_source).
Proof. intros k. cbn. split; [discriminate | reflexivity]. Defined.

Lemma adversarial_source_unit (w : World) :
  unit_interval_source (example_machine w adversarial_source).
Proof.
  intros k. cbn. unfold adversarial_source.
  destruct (k mod 3)%nat as [|[|?]]; split; (discriminate || reflexivity).
Qed.

(** ** Preference emergence *)

Section PreferenceEngineProperties.

Variable detect : list Choice.t -> list Pattern.t.

Lemma emerge_patterns_spec (min_occurrences : Z) (domain : option string)
    (patterns : list Pattern.t) (emerged : list Preference.t) :
  emerge_patterns min_occurrences domain patterns emerged
  = emerged
    ++ List.map (preference_of domain)
         (List.filter (fun p => min_occurrences <=? Pattern.count p) patterns).
Proof.
  unfold emerge_patterns. revert emerged.
  induction patterns as [|p ps IH]; intros emerged; cbn [fold_left List.filter].
  - rewrite app_nil_r. reflexivity.
  - rewrite IH. destruct (min_occurrences <=? Pattern.count p).
    + rewrite <- app_assoc. reflexivity.
    + reflexivity.
Qed.

Lemma analyze_spec (min_occurrences : Z) (choices : list Choice.t) :
  analyze detect min_occurrences choices
  = flat_map (emerged_from detect min_occurrences) (group_by_domain choices).
Proof.
  unfold analyze.
  assert (H : forall groups acc,
    fold_left (fun emerged '(domain, domain_choices) =>
                 emerge_patterns min_occurrences domain
                   (detect domain_choices) emerged) groups acc
    = acc ++ flat_map (emerged_from detect min_occurrences) groups).
  { induction groups as [|[d cs] groups IH]; intros acc; cbn [fold_left flat_map].
    - rewrite app_nil_r. reflexivity.
    - rewrite IH, emerge_patterns_spec, <- app_assoc. reflexivity. }
  apply (H _ []).
Qed.

Lemma confidence_of_le_1 (count : Z) : (confidence_of count <= 1)%Q.
Proof. unfold confidence_of. apply Q.le_min_r. Qed.

(** C2.  [analyze_choices] returns, for every logged choices and every
    [min_occurrences], exactly the detected patterns whose count is at least
    [min_occurrences]: a pattern detected in a domain is reported if and only
    if its count reaches the threshold, nothing else is reported, and every
    reported preference carries the confidence min(count / 10, 1.0), which is
    at most 1.0. *)
Theorem analyze_choices_reports_patterns (min_occurrences : Z) (m : Machine) :
  let emerged := analyze detect min_occurrences (choices (disk m)) in
  analyze_choices detect min_occurrences m = (Ok emerged, m, [])
  /\ (forall domain domain_choices pattern,
        In (domain, domain_choices) (group_by_domain (choices (disk m))) ->
        In pattern (detect domain_choices) ->
        (In (preference_of domain pattern) emerged
         <-> min_occurrences <= Pattern.count pattern))
  /\ (forall pref,
        In pref emerged ->
        exists domain domain_choices pattern,
          In (domain, domain_choices) (group_by_domain (choices (disk m)))
          /\ In pattern (detect domain_choices)
          /\ min_occurrences <= Pattern.count pattern
          /\ pref = preference_of domain pattern)
  /\ (forall pref,
        In pref emerged ->
        Preference.confidence pref
        = Qmin (inject_Z (Preference.evidence_count pref) / 10) 1
        /\ (Preference.confidence pref <= 1)%Q).
Proof.
  intros emerged.
  assert (Hback : forall pref,
    In pref emerged ->
    exists domain domain_choices pattern,
      In (domain, domain_choices) (group_by_domain (choices (disk m)))
      /\ In pattern (detect domain_choices)
      /\ min_occurrences <= Pattern.count pattern
      /\ pref = preference_of domain pattern).
  { intros pref Hin. subst emerged. rewrite analyze_spec in Hin.
    apply in_flat_map in Hin as ([d cs] & Hg & Hin).
    unfold emerged_from in Hin. cbn [fst snd] in Hin.
    apply in_map_iff in Hin as (p & <- & Hp).
    apply filter_In in Hp as [Hp Hc]. apply Z.leb_le in Hc.
    exists d, cs, p. auto. }
  split; [reflexivity|]. split; [|split; [exact Hback|]].
  - intros domain domain_choices pattern Hg Hp. split.
    + intros Hin. apply Hback in Hin as (d & cs & p & _ & _ & Hc & E).
      apply (f_equal Preference.evidence_count) in E. cbn in E.
      rewrite E. exact Hc.
    + intros Hc. subst emerged. rewrite analyze_spec.
      apply in_flat_map. exists (domain, domain_choices).
      split; [exact Hg|]. unfold emerged_from. cbn [fst snd].
      apply in_map. apply filter_In. split; [exact Hp|].
      apply Z.leb_le. exact Hc.
  - intros pref Hin. apply Hback in Hin as (d & cs & p & _ & _ & _ & ->).
    split; [reflexivity | apply confidence_of_le_1].
Qed.

End PreferenceEngineProperties.

(** The scenario of three choices of "blue" in the domain "aesthetic" with
    [min_occurrences = 3]: one preference, of confidence 3/10. *)
Example analyze_three_blue :
  List.map (fun p => (Preference.domain p, Preference.preference p,
                      Preference.confidence p))
           (analyze tally_detector 3 three_blue)
  = [(Some "aesthetic", "blue", Qmin (3 / 10) 1)]
  /\ (Qmin (3 / 10) 1 == 3 # 10)%Q.
Proof. split; reflexivity. Qed.

(** With the placeholder detector of the source no preference emerges. *)
Example analyze_placeholder (min_occurrences : Z) (choices : list Choice.t) :
  analyze _detect_patterns_placeholder min_occurrences choices = [].
Proof.
  rewrite analyze_spec.
  induction (group_by_domain choices) as [|g gs IH]; [reflexivity|].
  cbn [flat_map]. rewrite IH. reflexivity.
Qed.

(** ** Wake *)

(** [wake] from any state: the load raises on a missing file; on an existing
    one it hands back what [from_dict] returns, [None], and the first
    assignment to a field of it raises.  Nothing is written either way. *)
Lemma wake_run (session_id : string) (m : Machine) :
  wake session_id m
  = match identity_json (disk m) with
    | None => (Raise FileNotFoundError, m, [])
    | Some _ => (Raise AttributeError, m, [])
    end.
Proof.
  unfold wake, Identity_load.
  unfold mbind, M_bind, bind, read. cbn.
  destruct (identity_json (disk m)) as [data|]; reflexivity.
Qed.

(** C1, as the code has it.  [wake] creates no identity: in every state
    without an identity document it raises [FileNotFoundError] and writes
    nothing, so the document is still missing afterwards, whatever the
    tables hold. *)
Theorem wake_creates_no_seed (session_id : string) (m : Machine) :
  let m0 := with_disk (with_identity_json None (disk m)) m in
  wake session_id m0 = (Raise FileNotFoundError, m0, [])
  /\ identity_json (disk (run_machine (wake session_id) m0)) = None.
Proof.
  cbn zeta. unfold run_machine. rewrite wake_run. split; reflexivity.
Qed.

(** C1, counterexample.  On a state where nothing is persisted (no identity
    document, zero nodes, zero choices) [wake] raises; no identity has been
    created. *)
Lemma wake_on_empty_state_raises :
  let m := example_machine empty_world halves_source in
  identity_json (disk m) = None
  /\ nodes (disk m) = []
  /\ choices (disk m) = []
  /\ run_result (wake "s1") m = Raise FileNotFoundError
  /\ identity_json (disk (run_machine (wake "s1") m)) = None.
Proof. cbn zeta. repeat split; reflexivity. Qed.

(** C8, at the failing input.  With the seed document installed [wake] does
    not reach its save: [Identity.load] returns the [None] of [from_dict],
    the assignment to [identity.last_wake] raises [AttributeError], and the
    document is the seed as before.  In no state at all does [wake] return
    or write. *)
Theorem wake_stops_before_the_save :
  (let m := example_machine seeded_world halves_source in
   wake "s1" m = (Raise AttributeError, m, [])
   /\ identity_json (disk (run_machine (wake "s1") m)) = Some seed_document)
  /\ forall (session_id : string) (m : Machine),
       is_ok (run_result (wake session_id) m) = false
       /\ run_machine (wake session_id) m = m
       /\ run_journal (wake session_id) m = [].
Proof.
  split; [cbn zeta; repeat split; reflexivity|].
  intros session_id m. unfold run_result, run_machine, run_journal.
  rewrite wake_run. destruct (identity_json (disk m)); repeat split.
Qed.

(** ** Sleep *)

Lemma bind_inv_ok {A B} (c : M A) (k : A -> M B) (m m' : Machine)
    (b : B) (j : list World) :
  (x ← c; k x) m = (Ok b, m', j) ->
  exists a m1 j1 j2,
    c m = (Ok a, m1, j1) /\ k a m1 = (Ok b, m', j2) /\ j = j1 ++ j2.
Proof.
  unfold mbind, M_bind, bind. intros H.
  destruct (c m) as [[[a|e] m1] j1]; [|discriminate H].
  destruct (k a m1) as [[r m2] j2] eqn:Ek.
  injection H as -> -> <-. exists a, m1, j1, j2. auto.
Qed.

Lemma preserves_run {A B} (f : World -> B) (c : M A) (m m1 : Machine)
    (r : result A) (j : list World) :
  preserves f c -> c m = (r, m1, j) -> f (disk m1) = f (disk m).
Proof.
  intros H E. specialize (H m). unfold run_machine in H.
  rewrite E in H. exact H.
Qed.

(** Neither [None] nor an [Identity] has the attributes that [sleep] and
    [_reflect_on_self] read. *)
Lemma reflect_on_self_raises (identity : option Identity.t) (m : Machine) :
  _reflect_on_self identity m = (Raise AttributeError, m, []).
Proof. destruct identity; reflexivity. Qed.

Lemma crystallize_loop (identity : option Identity.t)
    (prefs : list Preference.t) (m : Machine) :
  for_each prefs (crystallize identity) m
  = match prefs with
    | [] => (Ok tt, m, [])
    | _ :: _ => (Raise AttributeError, m, [])
    end.
Proof. destruct prefs, identity; reflexivity. Qed.

Section SleepProperties.

Context {TraitObservation : Type}.
Variable self : Collaborators.t TraitObservation.
Hypothesis Hkeeps : keeps_to_its_tables self.

Lemma update_traits_run (traits : list TraitObservation)
    (identity : option Identity.t) (m : Machine) :
  exists r m' j,
    for_fold (Collaborators._update_trait self) traits identity m = (r, m', j)
    /\ identity_json (disk m') = identity_json (disk m)
    /\ (always_returns self -> is_ok r = true).
Proof using Hkeeps.
  pose proof Hkeeps as (_ & _ & _ & Hut & _).
  revert identity m. induction traits as [|t ts IH]; intros identity m.
  - exists (Ok identity), m, []. repeat split; reflexivity.
  - cbn [for_fold]. unfold mbind, M_bind, bind.
    destruct (Collaborators._update_trait self identity t m)
      as [[[identity'|e] m1] j1] eqn:E1;
      pose proof (preserves_run _ _ _ _ _ _ (Hut identity t) E1) as P1.
    + destruct (IH identity' m1) as (r & m' & j & E & Hi & Hr).
      rewrite E. exists r, m', (j1 ++ j).
      split; [reflexivity|]. split; [congruence | exact Hr].
    + exists (Raise e), m1, j1. split; [reflexivity|]. split; [exact P1|].
      intros (_ & _ & _ & R & _). specialize (R identity t m).
      unfold run_result in R. rewrite E1 in R. discriminate R.
Qed.

(** [sleep] from any state: it raises, and the identity document is what it
    was.  When the helpers return, the exception is that of the missing file
    or, on an existing file, that of the attribute read on what
    [Identity.load] returned. *)
Lemma sleep_run (session_id : string)
    (session_data : option (gmap string string)) (m : Machine) :
  exists e m' j,
    sleep self session_id session_data m = (Raise e, m', j)
    /\ identity_json (disk m') = identity_json (disk m)
    /\ (always_returns self ->
        e = match identity_json (disk m) with
            | None => FileNotFoundError
            | Some _ => AttributeError
            end).
Proof using Hkeeps.
  pose proof Hkeeps as (Hgr & Hsc & Hat & _).
  unfold sleep.
  unfold mbind, M_bind, bind at 1.
  destruct (Collaborators._generate_reflections self session_id session_data m)
    as [[[rs|e1] m1] j1] eqn:E1;
    pose proof (preserves_run _ _ _ _ _ _
                  (proj1 (Hgr session_id session_data)) E1) as P1.
  2:{ exists e1, m1, j1. split; [reflexivity|]. split; [exact P1|].
      intros (R & _). specialize (R session_id session_data m).
      unfold run_result in R. rewrite E1 in R. discriminate R. }
  unfold bind at 1.
  destruct (Collaborators._get_session_choices self session_id m1)
    as [[[scs|e2] m2] j2] eqn:E2;
    pose proof (preserves_run _ _ _ _ _ _ (proj1 (Hsc session_id)) E2) as P2.
  2:{ exists e2, m2, (j1 ++ j2). split; [reflexivity|].
      split; [congruence|].
      intros (_ & R & _). specialize (R session_id m1).
      unfold run_result in R. rewrite E2 in R. discriminate R. }
  unfold bind at 1.
  change (analyze_choices (Collaborators._detect_patterns self) 3 m2)
    with (Ok (analyze (Collaborators._detect_patterns self) 3 (choices (disk m2))),
          m2, @nil World).
  cbv iota beta.
  unfold bind at 1.
  destruct (Collaborators._analyze_for_traits self session_id m2)
    as [[[traits|e4] m4] j4] eqn:E4;
    pose proof (preserves_run _ _ _ _ _ _ (Hat session_id) E4) as P4.
  2:{ eexists e4, m4, _. split; [reflexivity|]. split; [congruence|].
      intros (_ & _ & R & _). specialize (R session_id m2).
      unfold run_result in R. rewrite E4 in R. discriminate R. }
  assert (Hi4 : identity_json (disk m4) = identity_json (disk m))
    by congruence.
  unfold bind at 1.
  destruct (identity_json (disk m)) as [data|] eqn:Hfile.
  - assert (El : Identity_load m4 = (Ok None, m4, [])).
    { unfold Identity_load. unfold mbind, M_bind, bind, read. cbn.
      rewrite Hi4. reflexivity. }
    rewrite El. unfold bind at 1. rewrite crystallize_loop.
    destruct (analyze (Collaborators._detect_patterns self) 3
                (choices (disk m2))) as [|pref prefs].
    2:{ eexists _, m4, _. split; [reflexivity|]. split; [exact Hi4|].
        intros _. reflexivity. }
    unfold bind at 1.
    destruct (update_traits_run traits None m4) as (r & m5 & j5 & E5 & Hi5 & Hr5).
    rewrite E5. destruct r as [identity5|e5].
    + unfold bind at 1. rewrite reflect_on_self_raises.
      eexists _, m5, _. split; [reflexivity|]. split; [congruence|].
      intros _. reflexivity.
    + eexists _, m5, _. split; [reflexivity|]. split; [congruence|].
      intros R. specialize (Hr5 R). discriminate Hr5.
  - assert (El : Identity_load m4 = (Raise FileNotFoundError, m4, [])).
    { unfold Identity_load. unfold mbind, M_bind, bind, read. cbn.
      rewrite Hi4. reflexivity. }
    rewrite El. eexists _, m4, _. split; [reflexivity|].
    split; [exact Hi4|]. intros _. reflexivity.
Qed.


End SleepProperties.

Lemma example_collaborators_keep_to_their_tables :
  keeps_to_its_tables example_collaborators.
Proof.
  unfold keeps_to_its_tables, preserves. repeat split.
Qed.



Lemma weighted_select_returns_member_witness :
  [Q1; Q2] <> []
  /\ exists c,
       run_result (_weighted_select [Q1; Q2])
                  (example_machine two_pending adversarial_source) = Ok c
       /\ In c [Q1; Q2].
Proof.
  assert (Hne : [Q1; Q2] <> []) by discriminate.
  split; [exact Hne|].
  destruct (weighted_select_returns_member [Q1; Q2]
              (example_machine two_pending adversarial_source) Hne)
    as (c & m' & E & Hin & _).
  exists c. unfold run_result. rewrite E. split; [reflexivity | exact Hin].
Defined.

(** * Further properties *)

(** ** One exploration, exactly *)

Lemma for_each_create_node_exact (f : string -> string -> MemoryNode.t)
    (insights : list string) (m : Machine) :
  (forall i x, MemoryNode.content (f i x) = x) ->
  Forall (fun insight => insight <> EmptyString) insights ->
  exists j,
    for_each insights
      (fun insight => node_id ← uuid4; create_node (f node_id insight)) m
    = (Ok tt,
       mkMachine
         (with_nodes
            (nodes (disk m)
             ++ List.map (fun kx => f (uuid_values m (fst kx)) (snd kx))
                  (number_from (uuid_cursor m) insights))
            (disk m))
         (random_values m) (random_cursor m) (uuid_values m)
         (uuid_cursor m + length insights) (clock m),
       j).
Proof.
  intros Hcontent Hall. revert m.
  induction Hall as [|x xs Hx Hxs IH]; intros m.
  - exists []. cbn. rewrite app_nil_r, Nat.add_0_r.
    destruct m as [[] ? ? ? ? ?]; reflexivity.
  - cbn [for_each].
    pose proof (new_node_run (fun i => f i x) m) as E1. cbn beta in E1.
    rewrite Hcontent in E1.
    destruct x as [|ch x']; [contradiction|]. cbn zeta in E1.
    destruct (IH (after_create
                    (with_nodes
                       (nodes (disk m)
                        ++ [f (uuid_values m (uuid_cursor m)) (String ch x')])
                       (disk m)) m))
      as (j & E).
    eexists. erewrite bind_run; [|exact E1|exact E].
    cbn. rewrite <- app_assoc.
    replace (S (uuid_cursor m + length xs)) with (uuid_cursor m + S (length xs))%nat
      by lia.
    reflexivity.
Qed.

(** The loop over the insights when one of them is empty: the nodes of the
    insights before it are stored, a uuid is drawn for it, and the store
    refuses it. *)
Lemma for_each_create_node_rejected (f : string -> string -> MemoryNode.t)
    (accepted rest : list string) (m : Machine) :
  (forall i x, MemoryNode.content (f i x) = x) ->
  Forall (fun insight => insight <> EmptyString) accepted ->
  exists j,
    for_each (accepted ++ EmptyString :: rest)
      (fun insight => node_id ← uuid4; create_node (f node_id insight)) m
    = (Raise ValidationError,
       mkMachine
         (with_nodes
            (nodes (disk m)
             ++ List.map (fun kx => f (uuid_values m (fst kx)) (snd kx))
                  (number_from (uuid_cursor m) accepted))
            (disk m))
         (random_values m) (random_cursor m) (uuid_values m)
         (S (uuid_cursor m + length accepted)) (clock m),
       j).
Proof.
  intros Hcontent Hall. revert m.
  induction Hall as [|x xs Hx Hxs IH]; intros m.
  - exists []. cbn [app for_each].
    pose proof (new_node_run (fun i => f i EmptyString) m) as E1.
    cbn beta in E1. rewrite Hcontent in E1.
    rewrite (bind_raise _ _ _ _ _ _ E1).
    cbn. rewrite app_nil_r, Nat.add_0_r.
    destruct m as [[] ? ? ? ? ?]; reflexivity.
  - cbn [app for_each].
    pose proof (new_node_run (fun i => f i x) m) as E1. cbn beta in E1.
    rewrite Hcontent in E1.
    destruct x as [|ch x']; [contradiction|]. cbn zeta in E1.
    destruct (IH (after_create
                    (with_nodes
                       (nodes (disk m)
                        ++ [f (uuid_values m (uuid_cursor m)) (String ch x')])
                       (disk m)) m))
      as (j & E).
    eexists. erewrite bind_run; [|exact E1|exact E].
    cbn. rewrite <- app_assoc.
    replace (S (S (uuid_cursor m + length xs)))
      with (S (uuid_cursor m + S (length xs)))%nat by lia.
    reflexivity.
Qed.

(** A list of insights has no empty one, or a first empty one. *)
Lemma first_empty_insight (insights : list string) :
  Forall (fun insight => insight <> EmptyString) insights
  \/ exists accepted rest,
       insights = accepted ++ EmptyString :: rest
       /\ Forall (fun insight => insight <> EmptyString) accepted.
Proof.
  induction insights as [|x xs IH]; [left; constructor|].
  destruct x as [|ch x'].
  - right. exists [], xs. split; [reflexivity | constructor].
  - destruct IH as [Hall | (accepted & rest & -> & Hall)].
    + left. constructor; [discriminate | exact Hall].
    + right. exists (String ch x' :: accepted), rest.
      split; [reflexivity|]. constructor; [discriminate | exact Hall].
Qed.

Lemma for_each_create_curiosity_exact (f : string -> string -> Curiosity.t)
    (questions : list string) (m : Machine) :
  exists j,
    for_each questions
      (fun question => new_id ← uuid4; create_curiosity (f new_id question)) m
    = (Ok tt,
       mkMachine
         (with_curiosities
            (curiosities (disk m)
             ++ List.map (fun kx => f (uuid_values m (fst kx)) (snd kx))
                  (number_from (uuid_cursor m) questions))
            (disk m))
         (random_values m) (random_cursor m) (uuid_values m)
         (uuid_cursor m + length questions) (clock m),
       j).
Proof.
  revert m. induction questions as [|x xs IH]; intros m.
  - exists []. cbn. rewrite app_nil_r, Nat.add_0_r.
    destruct m as [[] ? ? ? ? ?]; reflexivity.
  - cbn [for_each].
    pose proof (new_curiosity_run (fun i => f i x) m) as E1. cbn zeta in E1.
    destruct (IH (after_create
                    (with_curiosities
                       (curiosities (disk m)
                        ++ [f (uuid_values m (uuid_cursor m)) x]) (disk m)) m))
      as (j & E).
    eexists. erewrite bind_run; [|exact E1|exact E].
    cbn. rewrite <- app_assoc.
    replace (S (uuid_cursor m + length xs)) with (uuid_cursor m + S (length xs))%nat
      by lia.
    reflexivity.
Qed.

(** The machine after the exploration of [c] with answer [res]. *)
Lemma explore_selected_exact
    (oracle : Curiosity.t -> result ExplorationResult.t)
    (c : Curiosity.t) (res : ExplorationResult.t) (m : Machine) :
  oracle (Curiosity.with_status EXPLORING c) = Ok res ->
  Forall (fun insight => insight <> EmptyString)
    (ExplorationResult.insights res) ->
  exists j,
    explore_selected oracle c m
    = (Ok (explored (Curiosity.question c)
             (length (ExplorationResult.insights res))
             (length (ExplorationResult.new_questions res))
             (ExplorationResult.conclusion res)),
       mkMachine (explored_world c res m)
         (random_values m) (random_cursor m) (uuid_values m)
         (uuid_cursor m + length (ExplorationResult.insights res)
          + length (ExplorationResult.new_questions res))
         (clock m),
       j).
Proof.
  intros Eo Hall. unfold explore_selected.
  set (c1 := Curiosity.with_status EXPLORING c) in *.
  pose proof (update_curiosity_run c1 m) as E1. cbn zeta in E1.
  set (m1 := with_disk _ m) in E1.
  destruct (for_each_create_node_exact
              (fun node_id insight =>
                 MemoryNode.mk node_id INSIGHT insight
                   (Some ("Discovered while exploring: "
                          +:+ String.substring 0 50 (Curiosity.question c1)))
                   (6 # 10)
                   {[ "source_curiosity" := Curiosity.id c1 ]})
              (ExplorationResult.insights res) m1 (fun _ _ => eq_refl) Hall)
    as (j2 & E2).
  set (m2 := mkMachine _ _ _ _ _ _) in E2.
  pose proof (for_each_log_choice_spec (ExplorationResult.choices res) m2) as E3.
  destruct (for_each_create_curiosity_exact
              (fun new_id question =>
                 Curiosity.mk new_id question
                   (Some ("Emerged from exploring: "
                          +:+ Curiosity.question c1))
                   (1 # 2) PENDING None [])
              (ExplorationResult.new_questions res) m2) as (j4 & E4).
  set (m3 := mkMachine _ _ _ _ _ _) in E4.
  set (c2 := Curiosity.with_resolution (ExplorationResult.conclusion res)
               (Curiosity.with_status EXPLORED c1)).
  pose proof (update_curiosity_run c2 m3) as E5. cbn zeta in E5.
  eexists.
  erewrite bind_run; [|exact E1|].
  2:{ eapply bind_run; [unfold lift; rewrite Eo; reflexivity|].
      eapply bind_run; [exact E2|].
      eapply bind_run; [exact E3|].
      eapply bind_run; [exact E4|].
      eapply bind_run; [exact E5|].
      reflexivity. }
  reflexivity.
Qed.

(** The machine after the exploration of [c] when the store refuses an empty
    insight. *)
Lemma explore_selected_rejected
    (oracle : Curiosity.t -> result ExplorationResult.t)
    (c : Curiosity.t) (res : ExplorationResult.t)
    (accepted rest : list string) (m : Machine) :
  oracle (Curiosity.with_status EXPLORING c) = Ok res ->
  ExplorationResult.insights res = accepted ++ EmptyString :: rest ->
  Forall (fun insight => insight <> EmptyString) accepted ->
  exists j,
    explore_selected oracle c m
    = (Raise ValidationError,
       mkMachine (rejected_world c accepted m)
         (random_values m) (random_cursor m) (uuid_values m)
         (S (uuid_cursor m + length accepted)) (clock m),
       j).
Proof.
  intros Eo Hins Hall. unfold explore_selected.
  set (c1 := Curiosity.with_status EXPLORING c) in *.
  pose proof (update_curiosity_run c1 m) as E1. cbn zeta in E1.
  set (m1 := with_disk _ m) in E1.
  destruct (for_each_create_node_rejected
              (fun node_id insight =>
                 MemoryNode.mk node_id INSIGHT insight
                   (Some ("Discovered while exploring: "
                          +:+ String.substring 0 50 (Curiosity.question c1)))
                   (6 # 10)
                   {[ "source_curiosity" := Curiosity.id c1 ]})
              accepted rest m1 (fun _ _ => eq_refl) Hall)
    as (j2 & E2).
  rewrite <- Hins in E2.
  eexists.
  erewrite bind_run; [|exact E1|].
  2:{ eapply bind_run; [unfold lift; rewrite Eo; reflexivity|].
      eapply bind_raise. exact E2. }
  reflexivity.
Qed.

Lemma explore_selected_raise
    (oracle : Curiosity.t -> result ExplorationResult.t)
    (c : Curiosity.t) (e : Exception) (m : Machine) :
  oracle (Curiosity.with_status EXPLORING c) = Raise e ->
  explore_selected oracle c m
  = (let w := with_curiosities
                (List.map (replace_row (Curiosity.with_status EXPLORING c))
                          (curiosities (disk m)))
                (disk m) in
     (Raise e, with_disk w m, [w])).
Proof.
  intros Eo. unfold explore_selected.
  erewrite bind_run; [|apply update_curiosity_run|].
  2:{ apply bind_raise. unfold lift. rewrite Eo. reflexivity. }
  reflexivity.
Qed.

Lemma window_empty_iff (w : World) :
  firstn 10 (List.filter (has_status PENDING) (curiosities w)) = []
  <-> count_status PENDING w = 0%nat.
Proof.
  unfold count_status.
  destruct (List.filter (has_status PENDING) (curiosities w)); cbn; split;
    (reflexivity || discriminate).
Qed.

(** [explore_one] has exactly the four outcomes of [explore_outcome]. *)
Lemma explore_one_outcome
    (oracle : Curiosity.t -> result ExplorationResult.t) (m : Machine) :
  explore_outcome oracle m (explore_one oracle m).
Proof.
  pose proof (explore_one_spec oracle m) as Hspec. cbn zeta in Hspec.
  destruct (firstn 10 (List.filter (has_status PENDING) (curiosities (disk m))))
    as [|c0 rest] eqn:Ew.
  - rewrite Hspec. constructor. apply window_empty_iff. exact Ew.
  - destruct Hspec as (c & Hin & _ & E). rewrite E.
    rewrite <- Ew in Hin. apply window_pending in Hin as [Hin Hst].
    destruct (oracle (Curiosity.with_status EXPLORING c)) as [res|e] eqn:Eo.
    + destruct (first_empty_insight (ExplorationResult.insights res))
        as [Hall | (accepted & others & Hins & Hall)].
      * destruct (explore_selected_exact oracle c res
                    (after_selection (length (c0 :: rest)) m) Eo Hall)
          as (j & Ex).
        rewrite Ex.
        exact (exploration_done oracle m c res (length (c0 :: rest)) j
                 Hin Hst Eo Hall).
      * destruct (explore_selected_rejected oracle c res accepted others
                    (after_selection (length (c0 :: rest)) m) Eo Hins Hall)
          as (j & Ex).
        rewrite Ex.
        exact (exploration_rejected oracle m c res (length (c0 :: rest))
                 accepted others j Hin Hst Eo Hins Hall).
    + rewrite (explore_selected_raise oracle c e _ Eo).
      exact (exploration_failed oracle m c e (length (c0 :: rest)) Hin Hst Eo).
Qed.

(** ** Counting rows *)

Lemma map_replace_absent (c' : Curiosity.t) (rows : list Curiosity.t) :
  ~ In (Curiosity.id c') (List.map Curiosity.id rows) ->
  List.map (replace_row c') rows = rows.
Proof.
  induction rows as [|r rs IH]; intros H; [reflexivity|].
  cbn [List.map]. rewrite IH by (intros Hin; apply H; right; exact Hin).
  rewrite replace_row_other; [reflexivity|].
  intros E. apply H. left. exact E.
Qed.

Lemma map_replace_ids (c' : Curiosity.t) (rows : list Curiosity.t) :
  List.map Curiosity.id (List.map (replace_row c') rows)
  = List.map Curiosity.id rows.
Proof.
  induction rows as [|r rs IH]; [reflexivity|].
  cbn [List.map]. rewrite IH, replace_row_id. reflexivity.
Qed.

Lemma replace_count (s : CuriosityStatus) (c c' : Curiosity.t)
    (rows : list Curiosity.t) :
  NoDup (List.map Curiosity.id rows) ->
  In c rows ->
  Curiosity.id c' = Curiosity.id c ->
  (length (List.filter (has_status s) (List.map (replace_row c') rows))
   + (if has_status s c then 1 else 0)
   = length (List.filter (has_status s) rows)
     + (if has_status s c' then 1 else 0))%nat.
Proof.
  intros Hnd Hin Hid. induction rows as [|r rs IH]; [destruct Hin|].
  cbn [List.map] in Hnd. apply NoDup_cons in Hnd as [Hr Hrs].
  rewrite list_elem_of_In in Hr.
  destruct Hin as [->|Hin].
  - cbn [List.map]. rewrite (replace_row_same c' c) by (symmetry; exact Hid).
    rewrite map_replace_absent by (rewrite Hid; exact Hr).
    cbn [List.filter].
    destruct (has_status s c), (has_status s c'); cbn [length]; lia.
  - assert (Hne : Curiosity.id r <> Curiosity.id c').
    { intros E. apply Hr. rewrite E, Hid. apply in_map. exact Hin. }
    cbn [List.map]. rewrite (replace_row_other c' r Hne).
    specialize (IH Hrs Hin). cbn [List.filter].
    destruct (has_status s r); cbn [length]; lia.
Qed.

Lemma follow_ups_pending (uuids : nat -> string) (c : Curiosity.t)
    (k : nat) (questions : list string) (s : CuriosityStatus) :
  length (List.filter (has_status s)
            (List.map (follow_up uuids c) (number_from k questions)))
  = if has_status s (follow_up uuids c (k, "")) then length questions else 0%nat.
Proof.
  revert k. induction questions as [|q qs IH]; intros k.
  - destruct (has_status s _); reflexivity.
  - cbn [number_from List.map List.filter].
    specialize (IH (S k)). unfold has_status, follow_up in *.
    cbn [Curiosity.status] in *.
    destruct (CuriosityStatus_eqb PENDING s); cbn [length]; rewrite IH; reflexivity.
Qed.

Lemma number_from_fst {A} (k : nat) (l : list A) (kx : nat * A) :
  In kx (number_from k l) -> (k <= fst kx < k + length l)%nat.
Proof.
  revert k. induction l as [|x l IH]; intros k H; [destruct H|].
  destruct H as [<-|H]; cbn [fst length]; [lia|].
  apply IH in H. lia.
Qed.

Lemma number_from_length {A} (k : nat) (l : list A) :
  length (number_from k l) = length l.
Proof.
  revert k. induction l as [|x l IH]; intros k; [reflexivity|].
  cbn. rewrite IH. reflexivity.
Qed.

Lemma follow_ups_fresh (m : Machine) (c c' : Curiosity.t) (k : nat)
    (questions : list string) :
  fresh_uuids m ->
  In c (curiosities (disk m)) ->
  (uuid_cursor m <= k)%nat ->
  List.map (replace_row c')
           (List.map (follow_up (uuid_values m) c)
                     (number_from k questions))
  = List.map (follow_up (uuid_values m) c) (number_from k questions)
    \/ Curiosity.id c' <> Curiosity.id c.
Proof.
  intros Hfresh Hin Hk.
  destruct (String.eqb_spec (Curiosity.id c') (Curiosity.id c)) as [E|E];
    [left | right; exact E].
  apply map_replace_absent. intros H.
  apply in_map_iff in H as (x & Hx & Hxin).
  apply in_map_iff in Hxin as (kx & <- & Hkx).
  apply number_from_fst in Hkx. cbn [follow_up Curiosity.id] in Hx.
  apply (Hfresh (fst kx)); [lia|].
  rewrite Hx, E. apply in_map. exact Hin.
Qed.

Lemma explored_world_rows (c : Curiosity.t) (res : ExplorationResult.t)
    (m : Machine) :
  fresh_uuids m ->
  In c (curiosities (disk m)) ->
  let c1 := Curiosity.with_status EXPLORING c in
  let c2 := Curiosity.with_resolution (ExplorationResult.conclusion res)
              (Curiosity.with_status EXPLORED c) in
  curiosities (explored_world c res m)
  = List.map (replace_row c2) (List.map (replace_row c1) (curiosities (disk m)))
    ++ List.map (follow_up (uuid_values m) c1)
         (number_from (uuid_cursor m + length (ExplorationResult.insights res))
            (ExplorationResult.new_questions res)).
Proof.
  intros Hfresh Hin c1 c2. unfold explored_world. cbn [curiosities].
  fold c1 c2. rewrite List.map_app. f_equal.
  apply map_replace_absent. intros H.
  apply in_map_iff in H as (x & Hx & Hxin).
  apply in_map_iff in Hxin as (kx & <- & Hkx).
  apply number_from_fst in Hkx. cbn [follow_up Curiosity.id] in Hx.
  apply (Hfresh (fst kx)); [lia|].
  rewrite Hx. change (Curiosity.id c2) with (Curiosity.id c).
  apply in_map. exact Hin.
Qed.

Lemma explored_world_counts (s : CuriosityStatus) (c : Curiosity.t)
    (res : ExplorationResult.t) (m : Machine) :
  NoDup (List.map Curiosity.id (curiosities (disk m))) ->
  fresh_uuids m ->
  In c (curiosities (disk m)) ->
  Curiosity.status c = PENDING ->
  (count_status s (explored_world c res m)
   + (if CuriosityStatus_eqb s PENDING then 1 else 0)
   = count_status s (disk m)
     + (if CuriosityStatus_eqb s EXPLORED then 1 else 0)
     + (if CuriosityStatus_eqb s PENDING
        then length (ExplorationResult.new_questions res) else 0))%nat.
Proof.
  intros Hnd Hfresh Hin Hst. unfold count_status.
  rewrite (explored_world_rows c res m Hfresh Hin).
  rewrite List.filter_app, length_app, follow_ups_pending.
  set (c1 := Curiosity.with_status EXPLORING c).
  set (c2 := Curiosity.with_resolution (ExplorationResult.conclusion res)
               (Curiosity.with_status EXPLORED c)).
  pose proof (replace_count s c c1 (curiosities (disk m)) Hnd Hin eq_refl) as H1.
  assert (Hnd1 : NoDup (List.map Curiosity.id
                          (List.map (replace_row c1) (curiosities (disk m)))))
    by (rewrite map_replace_ids; exact Hnd).
  assert (Hin1 : In c1 (List.map (replace_row c1) (curiosities (disk m)))).
  { apply in_map_iff. exists c. split; [|exact Hin].
    apply replace_row_same. reflexivity. }
  pose proof (replace_count s c1 c2 _ Hnd1 Hin1 eq_refl) as H2.
  unfold has_status in *. cbn [follow_up Curiosity.status] in *.
  cbn [c1 c2 Curiosity.with_status Curiosity.with_resolution Curiosity.status]
    in H1, H2.
  rewrite Hst in H1.
  destruct s; cbn [CuriosityStatus_eqb] in *; lia.
Qed.

(** X2.  After a completed exploration the curiosity table has one pending row
    less, one explored row more and one new pending row per follow-up
    question; the other counts are as before, and one node was added per
    insight. *)
Theorem explore_one_counts
    (oracle : Curiosity.t -> result ExplorationResult.t) (m : Machine)
    (question : string) (insights_gained new_questions : nat)
    (conclusion : option string) :
  NoDup (List.map Curiosity.id (curiosities (disk m))) ->
  fresh_uuids m ->
  run_result (explore_one oracle) m
  = Ok (explored question insights_gained new_questions conclusion) ->
  let w' := disk (run_machine (explore_one oracle) m) in
  (count_status PENDING w' + 1
   = count_status PENDING (disk m) + new_questions)%nat
  /\ count_status EXPLORED w' = S (count_status EXPLORED (disk m))
  /\ count_status EXPLORING w' = count_status EXPLORING (disk m)
  /\ count_status ABANDONED w' = count_status ABANDONED (disk m)
  /\ length (nodes w') = (length (nodes (disk m)) + insights_gained)%nat.
Proof.
  intros Hnd Hfresh Hres w'. subst w'.
  unfold run_result, run_machine in *.
  destruct (explore_one_outcome oracle m)
    as [H0|c res n j Hin Hst Eo Hall|c res n accepted others j Hin Hst Eo _ _
       |c e n Hin Hst Eo]; cbn [fst snd] in *;
    [discriminate Hres| |discriminate Hres|discriminate Hres].
  injection Hres as _ <- <- _. cbn [disk].
  pose proof (fun s => explored_world_counts s c res m Hnd Hfresh Hin Hst) as Hc.
  pose proof (Hc PENDING) as Hp. pose proof (Hc EXPLORED) as He.
  pose proof (Hc EXPLORING) as Hx. pose proof (Hc ABANDONED) as Ha.
  cbn [CuriosityStatus_eqb] in Hp, He, Hx, Ha.
  repeat split; try lia.
  unfold explored_world. cbn [nodes].
  rewrite length_app, length_map, number_from_length. reflexivity.
Qed.

Lemma explore_one_counts_witness :
  let m := example_machine mixed_world halves_source in
  NoDup (List.map Curiosity.id (curiosities mixed_world))
  /\ fresh_uuids m
  /\ run_result (explore_one example_oracle) m
     = Ok (explored "What about open?" 1 1 (Some "a conclusion"))
  /\ count_status PENDING (disk (run_machine (explore_one example_oracle) m))
     = 1%nat
  /\ count_status EXPLORED (disk (run_machine (explore_one example_oracle) m))
     = 2%nat.
Proof.
  cbn zeta.
  assert (Hnd : NoDup (List.map Curiosity.id (curiosities mixed_world))).
  { apply (bool_decide_unpack _). vm_compute. exact I. }
  assert (Hfresh : fresh_uuids (example_machine mixed_world halves_source)).
  { unfold fresh_uuids. fresh_by_first_letter. }
  assert (Hres : run_result (explore_one example_oracle)
                   (example_machine mixed_world halves_source)
                 = Ok (explored "What about open?" 1 1 (Some "a conclusion")))
    by reflexivity.
  split; [exact Hnd|]. split; [exact Hfresh|]. split; [exact Hres|].
  destruct (explore_one_counts example_oracle
              (example_machine mixed_world halves_source)
              "What about open?" 1 1 (Some "a conclusion") Hnd Hfresh Hres)
    as (Hp & He & _).
  split.
  - apply (Nat.add_cancel_r _ _ 1). rewrite Hp. reflexivity.
  - rewrite He. reflexivity.
Defined.

(** ** Unique ids across explorations *)

Lemma follow_up_ids (uuids : nat -> string) (c : Curiosity.t) (k : nat)
    (questions : list string) :
  List.map Curiosity.id (List.map (follow_up uuids c) (number_from k questions))
  = List.map uuids (seq k (length questions)).
Proof.
  revert k. induction questions as [|q qs IH]; intros k; [reflexivity|].
  cbn [number_from List.map length seq]. rewrite IH. reflexivity.
Qed.

Lemma NoDup_uuid_range (m : Machine) (k n : nat) :
  distinct_uuids m ->
  (uuid_cursor m <= k)%nat ->
  NoDup (List.map (uuid_values m) (seq k n)).
Proof.
  intros Hd Hk. revert k Hk. induction n as [|n IH]; intros k Hk.
  - constructor.
  - cbn [seq List.map]. apply NoDup_cons. split; [|apply IH; lia].
    rewrite list_elem_of_In. intros Hin.
    apply in_map_iff in Hin as (k' & E & Hk').
    apply in_seq in Hk'. apply Hd in E; lia.
Qed.

Lemma explored_world_ready (c : Curiosity.t) (res : ExplorationResult.t)
    (m : Machine) (rc : nat) (now : datetime) :
  explorer_ready m ->
  In c (curiosities (disk m)) ->
  explorer_ready
    (mkMachine (explored_world c res m) (random_values m) rc (uuid_values m)
       (uuid_cursor m + length (ExplorationResult.insights res)
        + length (ExplorationResult.new_questions res))
       now).
Proof.
  intros (Hnd & Hfresh & Hdist) Hin.
  assert (Hids : List.map Curiosity.id (curiosities (explored_world c res m))
                 = List.map Curiosity.id (curiosities (disk m))
                   ++ List.map (uuid_values m)
                        (seq (uuid_cursor m
                              + length (ExplorationResult.insights res))
                             (length (ExplorationResult.new_questions res)))).
  { rewrite (explored_world_rows c res m Hfresh Hin).
    rewrite List.map_app, !map_replace_ids, follow_up_ids. reflexivity. }
  unfold explorer_ready, fresh_uuids, distinct_uuids.
  cbn [disk uuid_values uuid_cursor]. rewrite Hids.
  split; [|split].
  - apply NoDup_app. split; [exact Hnd|]. split.
    + intros x Hx Hx'. rewrite list_elem_of_In in Hx, Hx'.
      apply in_map_iff in Hx' as (k & <- & Hk). apply in_seq in Hk.
      apply (Hfresh k); [lia | exact Hx].
    + apply NoDup_uuid_range; [exact Hdist | lia].
  - intros k Hk Hin'. apply in_app_or in Hin' as [Hin'|Hin'].
    + apply (Hfresh k); [lia | exact Hin'].
    + apply in_map_iff in Hin' as (k' & E & Hk'). apply in_seq in Hk'.
      apply Hdist in E; lia.
  - intros k k' Hk Hk'. apply Hdist; lia.
Qed.

Lemma rejected_world_ready (c : Curiosity.t) (accepted : list string)
    (m : Machine) (rc : nat) (now : datetime) :
  explorer_ready m ->
  explorer_ready
    (mkMachine (rejected_world c accepted m) (random_values m) rc
       (uuid_values m) (S (uuid_cursor m + length accepted)) now).
Proof.
  intros (Hnd & Hfresh & Hdist).
  unfold explorer_ready, fresh_uuids, distinct_uuids.
  cbn [disk uuid_values uuid_cursor rejected_world curiosities].
  rewrite map_replace_ids.
  split; [exact Hnd|]. split.
  - intros k Hk. apply Hfresh. lia.
  - intros k k' Hk Hk'. apply Hdist; lia.
Qed.

(** X5.  [explore_one] keeps the curiosity table keyed by id, whatever its
    outcome: the ids stay pairwise distinct, also those of the follow-up
    curiosities it creates, provided [uuid4()] does not repeat itself. *)
Theorem explore_one_keeps_ids_unique
    (oracle : Curiosity.t -> result ExplorationResult.t) (m : Machine) :
  explorer_ready m ->
  explorer_ready (run_machine (explore_one oracle) m).
Proof.
  intros Hready. unfold run_machine.
  destruct (explore_one_outcome oracle m)
    as [H0|c res n j Hin Hst Eo Hall|c res n accepted others j Hin Hst Eo _ _
       |c e n Hin Hst Eo]; cbn [fst snd].
  - exact Hready.
  - apply explored_world_ready; assumption.
  - apply rejected_world_ready; assumption.
  - destruct Hready as (Hnd & Hfresh & Hdist).
    unfold explorer_ready, fresh_uuids, distinct_uuids.
    cbn. rewrite map_replace_ids. auto.
Qed.

Lemma example_uuids_distinct (n k : nat) :
  example_uuids n = example_uuids k -> n = k.
Proof.
  unfold example_uuids. intros H. injection H as H.
  exact (inj pretty _ _ H).
Defined.

Lemma mixed_world_ready :
  explorer_ready (example_machine mixed_world halves_source).
Proof.
  split; [|split].
  - apply (bool_decide_unpack _). vm_compute. exact I.
  - unfold fresh_uuids. fresh_by_first_letter.
  - intros k k' _ _. apply example_uuids_distinct.
Defined.

Lemma explore_one_keeps_ids_unique_witness :
  explorer_ready (example_machine mixed_world halves_source)
  /\ NoDup (List.map Curiosity.id
              (curiosities
                 (disk (run_machine (explore_one example_oracle)
                          (example_machine mixed_world halves_source))))).
Proof.
  split; [exact mixed_world_ready|].
  exact (proj1 (explore_one_keeps_ids_unique example_oracle
                  (example_machine mixed_world halves_source)
                  mixed_world_ready)).
Defined.

(** ** The exploration loop *)

Lemma bind_ret_run {A B} (c : M A) (f : A -> B) (m m' : Machine) (a : A)
    (j : list World) :
  c m = (Ok a, m', j) ->
  (x ← c; ret (f x)) m = (Ok (f a), m', j).
Proof.
  intros E. rewrite <- (app_nil_r j).
  exact (bind_run c (fun x => ret (f x)) m m' m' a (Ok (f a)) j [] E eq_refl).
Qed.

Lemma explore_one_journal
    (oracle : Curiosity.t -> result ExplorationResult.t) (m : Machine) :
  NoDup (List.map Curiosity.id (curiosities (disk m))) ->
  fresh_uuids m ->
  journal_follows (disk m) (run_journal (explore_one oracle) m) = true
  /\ last_world (disk m) (run_journal (explore_one oracle) m)
     = disk (run_machine (explore_one oracle) m).
Proof.
  intros Hnd Hfresh. unfold run_journal, run_machine.
  pose proof (explore_one_spec oracle m) as Hspec. cbn zeta in Hspec.
  destruct (firstn 10 (List.filter (has_status PENDING) (curiosities (disk m))))
    as [|c0 rest] eqn:Ew.
  - rewrite Hspec. split; reflexivity.
  - destruct Hspec as (c & Hin & _ & E). rewrite E.
    rewrite <- Ew in Hin. apply window_pending in Hin as [Hin Hst].
    destruct (explore_selected_spec oracle c
                (after_selection (length (c0 :: rest)) m))
      as (r & m' & j' & Ex & Hj & Hl & _); try assumption.
    rewrite Ex. split; [exact Hj | exact Hl].
Qed.

Section ExplorationLoopProperties.

Variable oracle : Curiosity.t -> result ExplorationResult.t.

Lemma explore_one_keeps_ready_aux (m : Machine) (seconds : Z) :
  explorer_ready m ->
  let m1 := run_machine (explore_one oracle) m in
  explorer_ready
    (mkMachine (disk m1) (random_values m1) (random_cursor m1)
       (uuid_values m1) (uuid_cursor m1) (clock m1 + seconds)).
Proof.
  intros Hready. cbn zeta. unfold run_machine.
  destruct (explore_one_outcome oracle m)
    as [H0|c res n j Hin Hst Eo Hall|c res n accepted others j Hin Hst Eo _ _
       |c e n Hin Hst Eo]; cbn [fst snd].
  - exact Hready.
  - apply explored_world_ready; assumption.
  - apply rejected_world_ready; assumption.
  - destruct Hready as (Hnd & Hfresh & Hdist).
    unfold explorer_ready, fresh_uuids, distinct_uuids.
    cbn. rewrite map_replace_ids. auto.
Qed.

(** X7.  The exploration loop never stops on an error: whatever the collaborator
    does in each cycle (answer or raise), every cycle ends with a printed
    line and the loop goes on; all the writes of all the cycles follow the
    curiosity state machine, and the ids of the table stay unique. *)
Theorem exploration_loop_survives_errors (cycles : nat)
    (interval_minutes : Z) (m : Machine) :
  explorer_ready m ->
  exists lines m' j,
    exploration_loop oracle cycles interval_minutes m = (Ok lines, m', j)
    /\ length lines = cycles
    /\ journal_follows (disk m) j = true
    /\ last_world (disk m) j = disk m'
    /\ explorer_ready m'
    /\ clock m' = clock m + Z.of_nat cycles * (interval_minutes * 60).
Proof.
  revert m. induction cycles as [|n IH]; intros m Hready.
  - exists [], m, []. cbn. repeat split; try exact (proj1 Hready);
      try exact (proj1 (proj2 Hready)); try exact (proj2 (proj2 Hready)); lia.
  - pose proof (explore_one_keeps_ready_aux m (interval_minutes * 60) Hready)
      as Hready1. cbn zeta in Hready1.
    destruct Hready as (Hnd & Hfresh & Hdist).
    destruct (explore_one_journal oracle m Hnd Hfresh) as [Hj1 Hl1].
    unfold run_journal, run_machine in Hj1, Hl1, Hready1.
    destruct (explore_one oracle m) as [[r1 m1] j1] eqn:E1.
    cbn [fst snd] in Hj1, Hl1, Hready1.
    set (m2 := mkMachine (disk m1) (random_values m1) (random_cursor m1)
                 (uuid_values m1) (uuid_cursor m1)
                 (clock m1 + interval_minutes * 60)).
    destruct (IH m2 Hready1) as (lines & m' & j & E & Hlen & Hj & Hl & Hr & Hc).
    eexists _, m', (j1 ++ j). split.
    { cbn [exploration_loop].
      eapply bind_run; [unfold try_except; rewrite E1; reflexivity|].
      eapply bind_run_quiet; [reflexivity|]. fold m2.
      exact (bind_ret_run _ _ _ _ _ _ E). }
    split; [simpl; lia|].
    split; [rewrite journal_follows_app, Hj1, Hl1; exact Hj|].
    split; [rewrite last_world_app, Hl1; exact Hl|].
    split; [exact Hr|].
    rewrite Hc. cbn [m2 clock].
    assert (clock m1 = clock m) as ->.
    { pose proof (explore_one_outcome oracle m) as Ho. rewrite E1 in Ho.
      inversion Ho; reflexivity. }
    lia.
Qed.

End ExplorationLoopProperties.

Lemma exploration_loop_survives_errors_witness :
  explorer_ready (example_machine mixed_world halves_source)
  /\ exists lines,
       run_result (exploration_loop failing_oracle 3 30)
                  (example_machine mixed_world halves_source) = Ok lines
       /\ length lines = 3%nat.
Proof.
  split; [exact mixed_world_ready|].
  destruct (exploration_loop_survives_errors failing_oracle 3 30
              (example_machine mixed_world halves_source) mixed_world_ready)
    as (lines & m' & j & E & Hlen & _).
  exists lines. unfold run_result. rewrite E. split; [reflexivity | exact Hlen].
Defined.





(** ** What an exploration records *)

(** X1.  [explore_one] reports that there is nothing to explore exactly when no
    curiosity is pending, and then it does nothing at all: no write, the
    random source and the uuid source untouched. *)
Theorem explore_one_idle_iff_nothing_pending
    (oracle : Curiosity.t -> result ExplorationResult.t) (m : Machine) :
  ((exists message,
      run_result (explore_one oracle) m = Ok (no_curiosities message))
   <-> count_status PENDING (disk m) = 0%nat)
  /\ (count_status PENDING (disk m) = 0%nat ->
      explore_one oracle m
      = (Ok (no_curiosities "Nothing to explore"), m, [])).
Proof.
  assert (Hidle : count_status PENDING (disk m) = 0%nat ->
                  explore_one oracle m
                  = (Ok (no_curiosities "Nothing to explore"), m, [])).
  { intros H0.
    pose proof (explore_one_spec oracle m) as Hspec. cbn zeta in Hspec.
    apply window_empty_iff in H0. rewrite H0 in Hspec. exact Hspec. }
  split; [|exact Hidle]. unfold run_result. split.
  - intros [message H].
    destruct (explore_one_outcome oracle m)
      as [H0|c res n j Hin Hst Eo Hall
         |c res n accepted others j Hin Hst Eo _ _
         |c e n Hin Hst Eo]; cbn [fst] in H;
      [exact H0 | discriminate H | discriminate H | discriminate H].
  - intros H0. exists "Nothing to explore". rewrite (Hidle H0). reflexivity.
Qed.

(** X3.  A completed exploration adds one node per insight of the collaborator,
    in order, after the existing nodes: an insight node holding the insight,
    of importance 0.6, whose metadata names the explored curiosity. *)
Theorem explore_one_records_insights
    (oracle : Curiosity.t -> result ExplorationResult.t) (m : Machine)
    (question : string) (insights_gained new_questions : nat)
    (conclusion : option string) :
  run_result (explore_one oracle) m
  = Ok (explored question insights_gained new_questions conclusion) ->
  exists c res new_nodes,
    In c (curiosities (disk m))
    /\ Curiosity.question c = question
    /\ oracle (Curiosity.with_status EXPLORING c) = Ok res
    /\ nodes (disk (run_machine (explore_one oracle) m))
       = nodes (disk m) ++ new_nodes
    /\ List.map MemoryNode.content new_nodes = ExplorationResult.insights res
    /\ Forall (fun node =>
                 MemoryNode.node_type node = INSIGHT
                 /\ MemoryNode.importance node = 6 # 10
                 /\ MemoryNode.metadata node !! "source_curiosity"
                    = Some (Curiosity.id c)
                 /\ MemoryNode.summary node
                    = Some ("Discovered while exploring: "
                            +:+ String.substring 0 50 question))
              new_nodes.
Proof.
  unfold run_result, run_machine. intros H.
  destruct (explore_one_outcome oracle m)
    as [H0|c res n j Hin Hst Eo _
       |c res n accepted others j Hin Hst Eo _ _
       |c e n Hin Hst Eo]; cbn [fst snd] in *;
    [discriminate H| |discriminate H|discriminate H].
  injection H as <- _ _ _.
  exists c, res,
    (List.map (insight_node (uuid_values m) (Curiosity.with_status EXPLORING c))
       (number_from (uuid_cursor m) (ExplorationResult.insights res))).
  split; [exact Hin|]. split; [reflexivity|]. split; [exact Eo|].
  split; [reflexivity|]. split.
  - generalize (uuid_cursor m).
    induction (ExplorationResult.insights res) as [|x xs IH]; intros k;
      [reflexivity|].
    cbn [number_from List.map]. rewrite IH. reflexivity.
  - apply Forall_forall. intros node Hnode.
    apply list_elem_of_In in Hnode.
    apply in_map_iff in Hnode as (kx & <- & _).
    repeat split; reflexivity.
Qed.

Lemma explore_one_records_insights_witness :
  let m := example_machine one_pending halves_source in
  run_result (explore_one example_oracle) m
  = Ok (explored "What about open?" 1 1 (Some "a conclusion"))
  /\ exists new_nodes,
       nodes (disk (run_machine (explore_one example_oracle) m))
       = nodes (disk m) ++ new_nodes
       /\ List.map MemoryNode.content new_nodes = ["an insight"].
Proof.
  cbn zeta. split; [reflexivity|].
  destruct (explore_one_records_insights example_oracle
              (example_machine one_pending halves_source)
              "What about open?" 1 1 (Some "a conclusion") eq_refl)
    as (c & res & new_nodes & _ & _ & Eo & Hnodes & Hcontent & _).
  exists new_nodes. split; [exact Hnodes|].
  rewrite Hcontent. injection Eo as <-. reflexivity.
Defined.


(** ** Weighted selection, in exact arithmetic *)

Lemma scan_weights_index (cs : list Curiosity.t) (r : Q) (ws : list Q) :
  forall cumulative i,
    scan_weights cs r cumulative i ws
    = option_map (getitem cs) (scan_index r cumulative i ws).
Proof.
  induction ws as [|w ws IH]; intros cumulative i; [reflexivity|].
  cbn [scan_weights scan_index]. destruct (Qle_bool r (cumulative + w));
    [reflexivity | apply IH].
Qed.

Lemma draw_weights_of (cs : list Curiosity.t) (m : Machine) :
  draw_weights cs m
  = (Ok (weights_of (random_values m) (random_cursor m) cs),
     mkMachine (disk m) (random_values m) (random_cursor m + length cs)
               (uuid_values m) (uuid_cursor m) (clock m),
     []).
Proof.
  revert m. induction cs as [|c cs IH]; intros m.
  - cbn. rewrite Nat.add_0_r. destruct m; reflexivity.
  - cbn [draw_weights weights_of].
    erewrite bind_run_quiet; [|reflexivity|].
    2:{ eapply bind_run_quiet; [apply IH | reflexivity]. }
    cbn. repeat f_equal. lia.
Qed.

Lemma scan_index_hits (r : Q) (ws : list Q) :
  forall cumulative i,
    ws <> [] ->
    (r <= fold_left Qplus ws cumulative)%Q ->
    exists j, scan_index r cumulative i ws = Some j.
Proof.
  induction ws as [|w ws IH]; intros cumulative i Hne Hr; [contradiction|].
  cbn [scan_index]. cbn [fold_left] in Hr.
  destruct (Qle_bool r (cumulative + w)) eqn:B; [eauto|].
  destruct ws as [|w' ws'].
  - cbn in Hr. apply Qle_bool_iff in Hr. congruence.
  - apply IH; [discriminate | exact Hr].
Qed.

Lemma scan_index_bounds (r : Q) (ws : list Q) :
  forall cumulative i j,
    scan_index r cumulative i ws = Some j ->
    (i <= j < i + length ws)%nat.
Proof.
  induction ws as [|w ws IH]; intros cumulative i j H; [discriminate H|].
  cbn [scan_index] in H. cbn [length].
  destruct (Qle_bool r (cumulative + w)).
  - injection H as <-. lia.
  - apply IH in H. lia.
Qed.

Lemma fold_left_Qplus_nonneg (ws : list Q) :
  forall a, (0 <= a)%Q -> Forall (fun w => (0 <= w)%Q) ws ->
            (a <= fold_left Qplus ws a)%Q.
Proof.
  induction ws as [|w ws IH]; intros a Ha Hws; [apply Qle_refl|].
  apply Forall_cons in Hws as [Hw Hws]. cbn [fold_left].
  apply Qle_trans with (a + w)%Q; [lra|]. apply IH; [lra | exact Hws].
Qed.

Lemma weights_of_nonneg (source : nat -> Q) (cs : list Curiosity.t) :
  (forall k, (0 <= source k)%Q) ->
  Forall (fun c => (0 <= Curiosity.priority c)%Q) cs ->
  forall k, Forall (fun w => (0 <= w)%Q) (weights_of source k cs).
Proof.
  intros Hs Hcs. induction Hcs as [|c cs Hc _ IH]; intros k; cbn [weights_of].
  - constructor.
  - constructor; [|apply IH]. specialize (Hs k). lra.
Qed.

Lemma weights_of_length (source : nat -> Q) (cs : list Curiosity.t) (k : nat) :
  length (weights_of source k cs) = length cs.
Proof.
  revert k. induction cs as [|c cs IH]; intros k; [reflexivity|].
  cbn. rewrite IH. reflexivity.
Qed.

(** The index selected by [_weighted_select], when the loop returns. *)
Lemma weighted_select_by_index (cs : list Curiosity.t) (m : Machine) :
  unit_interval_source m ->
  Forall (fun c => (0 <= Curiosity.priority c)%Q) cs ->
  cs <> [] ->
  let ws := weights_of (random_values m) (random_cursor m) cs in
  let r := (random_values m (random_cursor m + length cs) * sum ws)%Q in
  exists j c,
    scan_index r 0 0 ws = Some j
    /\ cs !! j = Some c
    /\ _weighted_select cs m = (Ok c, after_selection (length cs) m, []).
Proof.
  intros Hsrc Hcs Hne ws r.
  assert (Hws : Forall (fun w => (0 <= w)%Q) ws).
  { apply weights_of_nonneg; [intros k; apply Hsrc | exact Hcs]. }
  assert (Htotal : (0 <= sum ws)%Q).
  { unfold sum. apply Qle_trans with 0%Q; [lra|].
    apply (fold_left_Qplus_nonneg ws 0); [lra | exact Hws]. }
  destruct (Hsrc (random_cursor m + length cs)%nat) as [Hu0 Hu1].
  assert (Hr : (r <= fold_left Qplus ws 0)%Q).
  { subst r. fold (sum ws).
    rewrite <- (Qmult_1_l (sum ws)) at 2.
    apply Qmult_le_compat_r; [lra | exact Htotal]. }
  destruct (scan_index_hits r ws 0 0%nat) as [j Hj]; [|exact Hr|].
  { destruct cs; [contradiction | discriminate]. }
  pose proof (scan_index_bounds r ws 0 0%nat j Hj) as Hb.
  unfold ws in Hb at 1. rewrite weights_of_length in Hb.
  destruct (lookup_lt_is_Some_2 cs j) as [c Hc]; [lia|].
  exists j, c. split; [exact Hj|]. split; [exact Hc|].
  unfold _weighted_select.
  erewrite bind_run_quiet; [|apply draw_weights_of|].
  2:{ eapply bind_run_quiet; [reflexivity|].
      cbn [random_values random_cursor]. fold ws. fold r.
      rewrite scan_weights_index, Hj. cbn [option_map].
      unfold getitem. rewrite Hc. reflexivity. }
  reflexivity.
Qed.

(** X9.  In exact arithmetic the loop of [_weighted_select] always returns: with
    random values in [0, 1) and priorities that are not negative, the draw
    [r] is at most the total weight, so the scan stops at some index of the
    list and the final [return curiosities[-1]] is not reached. *)
Theorem weighted_select_loop_always_returns (cs : list Curiosity.t)
    (m : Machine) :
  unit_interval_source m ->
  Forall (fun c => (0 <= Curiosity.priority c)%Q) cs ->
  cs <> [] ->
  exists ws m1 c,
    draw_weights cs m = (Ok ws, m1, [])
    /\ scan_weights cs (random_values m1 (random_cursor m1) * sum ws) 0 0 ws
       = Some (Ok c)
    /\ run_result (_weighted_select cs) m = Ok c.
Proof.
  intros Hsrc Hcs Hne.
  destruct (weighted_select_by_index cs m Hsrc Hcs Hne) as (j & c & Hj & Hc & E).
  eexists _, _, c. split; [apply draw_weights_of|].
  cbn [random_values random_cursor]. split.
  - rewrite scan_weights_index, Hj. cbn [option_map]. unfold getitem.
    rewrite Hc. reflexivity.
  - unfold run_result. rewrite E. reflexivity.
Qed.

Lemma weighted_select_loop_always_returns_witness :
  unit_interval_source (example_machine two_pending adversarial_source)
  /\ Forall (fun c => (0 <= Curiosity.priority c)%Q) [Q1; Q2]
  /\ [Q1; Q2] <> []
  /\ exists ws m1 c,
       draw_weights [Q1; Q2] (example_machine two_pending adversarial_source)
       = (Ok ws, m1, [])
       /\ scan_weights [Q1; Q2]
            (random_values m1 (random_cursor m1) * sum ws) 0 0 ws
          = Some (Ok c).
Proof.
  assert (Hcs : Forall (fun c => (0 <= Curiosity.priority c)%Q) [Q1; Q2]).
  { repeat constructor; discriminate. }
  assert (Hne : [Q1; Q2] <> []) by discriminate.
  split; [apply adversarial_source_unit|]. split; [exact Hcs|].
  split; [exact Hne|].
  destruct (weighted_select_loop_always_returns [Q1; Q2]
              (example_machine two_pending adversarial_source)
              (adversarial_source_unit two_pending) Hcs Hne)
    as (ws & m1 & c & E & Hscan & _).
  exists ws, m1, c. split; [exact E | exact Hscan].
Defined.

(** X4.  A completed exploration adds one pending curiosity per follow-up
    question of the collaborator, in order, after the existing rows: each has
    a fresh id, priority 0.5, no resolution, and a context that names the
    explored question. *)
Theorem explore_one_creates_follow_ups
    (oracle : Curiosity.t -> result ExplorationResult.t) (m : Machine)
    (question : string) (insights_gained new_questions : nat)
    (conclusion : option string) :
  fresh_uuids m ->
  run_result (explore_one oracle) m
  = Ok (explored question insights_gained new_questions conclusion) ->
  exists c res old_rows new_rows,
    oracle (Curiosity.with_status EXPLORING c) = Ok res
    /\ curiosities (disk (run_machine (explore_one oracle) m))
       = old_rows ++ new_rows
    /\ List.map Curiosity.id old_rows
       = List.map Curiosity.id (curiosities (disk m))
    /\ List.map Curiosity.question new_rows
       = ExplorationResult.new_questions res
    /\ length new_rows = new_questions
    /\ Forall (fun row =>
                 Curiosity.status row = PENDING
                 /\ Curiosity.priority row = 1 # 2
                 /\ Curiosity.resolution row = None
                 /\ Curiosity.context row
                    = Some ("Emerged from exploring: " +:+ question)
                 /\ ~ In (Curiosity.id row)
                      (List.map Curiosity.id (curiosities (disk m))))
              new_rows.
Proof.
  unfold run_result, run_machine. intros Hfresh H.
  destruct (explore_one_outcome oracle m)
    as [H0|c res n j Hin Hst Eo _
       |c res n accepted others j Hin Hst Eo _ _
       |c e n Hin Hst Eo]; cbn [fst snd] in *;
    [discriminate H| |discriminate H|discriminate H].
  injection H as <- _ <- _.
  eexists c, res, _, _. split; [exact Eo|]. split.
  { cbn [disk]. apply (explored_world_rows c res m Hfresh Hin). }
  split; [rewrite !map_replace_ids; reflexivity|].
  split.
  { generalize (uuid_cursor m + length (ExplorationResult.insights res))%nat.
    induction (ExplorationResult.new_questions res) as [|x xs IH]; intros k;
      [reflexivity|].
    cbn [number_from List.map]. rewrite IH. reflexivity. }
  split; [rewrite length_map, number_from_length; reflexivity|].
  apply Forall_forall. intros row Hrow.
  apply list_elem_of_In in Hrow.
  apply in_map_iff in Hrow as (kx & <- & Hkx).
  apply number_from_fst in Hkx.
  repeat split. cbn [follow_up Curiosity.id].
  apply Hfresh. lia.
Qed.

Lemma explore_one_creates_follow_ups_witness :
  let m := example_machine one_pending halves_source in
  fresh_uuids m
  /\ exists old_rows new_rows,
       curiosities (disk (run_machine (explore_one example_oracle) m))
       = old_rows ++ new_rows
       /\ List.map Curiosity.question new_rows = ["a further question"].
Proof.
  cbn zeta.
  assert (Hfresh : fresh_uuids (example_machine one_pending halves_source)).
  { unfold fresh_uuids. fresh_by_first_letter. }
  split; [exact Hfresh|].
  destruct (explore_one_creates_follow_ups example_oracle
              (example_machine one_pending halves_source)
              "What about open?" 1 1 (Some "a conclusion") Hfresh eq_refl)
    as (c & res & old_rows & new_rows & Eo & Hrows & _ & Hq & _).
  exists old_rows, new_rows. split; [exact Hrows|].
  rewrite Hq. injection Eo as <-. reflexivity.
Defined.

(** ** Grouping by domain *)

Lemma append_choice_keys (d0 : option string) (c : Choice.t)
    (g : list (option string * list Choice.t)) :
  List.map fst (append_choice d0 c g)
  = if bool_decide (d0 ∈ List.map fst g)
    then List.map fst g
    else List.map fst g ++ [d0].
Proof.
  induction g as [|[d l] g IH]; [reflexivity|].
  cbn [append_choice List.map fst].
  destruct (decide (d = d0)) as [->|Hne].
  - rewrite bool_decide_eq_true_2 by (apply list_elem_of_here). reflexivity.
  - cbn [List.map fst]. rewrite IH.
    destruct (bool_decide_reflect (d0 ∈ List.map fst g)) as [Hin|Hin].
    + rewrite bool_decide_eq_true_2 by (apply list_elem_of_further; exact Hin).
      reflexivity.
    + rewrite bool_decide_eq_false_2; [reflexivity|].
      intros E. apply elem_of_cons in E as [E|E];
        [exact (Hne (eq_sym E)) | exact (Hin E)].
Qed.

Lemma append_choice_In (d0 d : option string) (c : Choice.t)
    (l : list Choice.t) (g : list (option string * list Choice.t)) :
  NoDup (List.map fst g) ->
  In (d, l) (append_choice d0 c g)
  <-> (d <> d0 /\ In (d, l) g)
      \/ (d = d0 /\ exists l0, In (d0, l0) g /\ l = l0 ++ [c])
      \/ (d = d0 /\ ~ In d0 (List.map fst g) /\ l = [c]).
Proof.
  induction g as [|[d1 l1] g IH]; intros Hnd.
  - cbn. split.
    + intros [[= <- <-]|[]]. right. right. auto.
    + intros [[_ []]|[(_ & l0 & [] & _)|(-> & _ & ->)]]. left. reflexivity.
  - cbn [List.map fst] in Hnd. apply NoDup_cons in Hnd as [Hd1 Hnd].
    rewrite list_elem_of_In in Hd1. specialize (IH Hnd).
    cbn [append_choice].
    destruct (decide (d1 = d0)) as [->|Hne].
    + split.
      * intros [[= <- <-]|Hin].
        -- right. left. split; [reflexivity|]. exists l1.
           split; [left; reflexivity | reflexivity].
        -- left. split; [|right; exact Hin].
           intros ->. apply Hd1. apply (in_map fst) in Hin. exact Hin.
      * intros [[Hd Hin]|[(-> & l0 & Hin & ->)|(-> & Hnot & _)]].
        -- destruct Hin as [[= E _]|Hin]; [congruence | right; exact Hin].
        -- destruct Hin as [[= <-]|Hin]; [left; reflexivity|].
           exfalso. apply Hd1. apply (in_map fst) in Hin. exact Hin.
        -- exfalso. apply Hnot. left. reflexivity.
    + split.
      * intros [[= <- <-]|Hin].
        -- left. split; [exact Hne | left; reflexivity].
        -- apply IH in Hin as [[Hd Hin]|[(-> & l0 & Hin & ->)|(-> & Hnot & ->)]].
           ++ left. split; [exact Hd | right; exact Hin].
           ++ right. left. split; [reflexivity|]. exists l0.
              split; [right; exact Hin | reflexivity].
           ++ right. right. split; [reflexivity|]. split; [|reflexivity].
              intros [E|E]; [exact (Hne E) | exact (Hnot E)].
      * intros [[Hd Hin]|[(-> & l0 & Hin & ->)|(-> & Hnot & ->)]].
        -- destruct Hin as [E|Hin]; [left; exact E|].
           right. apply IH. left. auto.
        -- destruct Hin as [[= E _]|Hin]; [congruence|].
           right. apply IH. right. left. eauto.
        -- right. apply IH. right. right. split; [reflexivity|].
           split; [|reflexivity]. intros E. apply Hnot. right. exact E.
Qed.

Lemma group_by_domain_snoc (cs : list Choice.t) (c : Choice.t) :
  group_by_domain (cs ++ [c])
  = append_choice (domain_of c) c (group_by_domain cs).
Proof. unfold group_by_domain. rewrite fold_left_app. reflexivity. Qed.

(** The choices of the log with the given domain, in the order of the log. *)
Lemma filter_domain_snoc (d : option string) (cs : list Choice.t) (c : Choice.t) :
  List.filter (fun x => bool_decide (domain_of x = d)) (cs ++ [c])
  = List.filter (fun x => bool_decide (domain_of x = d)) cs
    ++ (if bool_decide (domain_of c = d) then [c] else []).
Proof. rewrite List.filter_app. reflexivity. Qed.

(** X11.  The grouping of [analyze_choices] loses and repeats nothing: the domains
    of the groups are pairwise distinct, and the group of a domain holds
    exactly the choices of the log with that domain, in the order of the log;
    a domain has a group if and only if some choice has it.  A choice without
    the key goes to the group "general", a choice whose domain is [None] to
    the group [None]. *)
Theorem group_by_domain_partitions (choices : list Choice.t) :
  NoDup (List.map fst (group_by_domain choices))
  /\ forall (d : option string) (l : list Choice.t),
       In (d, l) (group_by_domain choices)
       <-> l = List.filter (fun x => bool_decide (domain_of x = d)) choices
           /\ l <> [].
Proof.
  induction choices as [|c cs IH] using rev_ind.
  - split; [constructor|]. intros d l. cbn. split; [intros []|].
    intros [-> H]. now elim H.
  - destruct IH as [Hnd IH]. rewrite group_by_domain_snoc. split.
    + rewrite append_choice_keys.
      destruct (bool_decide_reflect
                  (domain_of c ∈ List.map fst (group_by_domain cs)))
        as [Hin|Hin]; [exact Hnd|].
      apply NoDup_app. split; [exact Hnd|]. split.
      * intros x Hx Hx'. apply list_elem_of_singleton in Hx'. subst x.
        apply Hin. exact Hx.
      * apply NoDup_singleton.
    + intros d l. rewrite append_choice_In by exact Hnd.
      rewrite filter_domain_snoc.
      destruct (bool_decide_reflect (domain_of c = d)) as [E|E].
      * subst d. split.
        -- intros [[Hd _]|[(_ & l0 & Hin & ->)|(_ & Hnot & ->)]].
           ++ now elim Hd.
           ++ apply IH in Hin as [-> _]. split; [reflexivity|].
              intros H. apply app_eq_nil in H as [_ H]. discriminate H.
           ++ split; [|discriminate].
              destruct (List.filter _ cs) as [|x xs] eqn:Ef; [reflexivity|].
              exfalso. apply Hnot.
              assert (Hg : In (domain_of c, x :: xs) (group_by_domain cs)).
              { apply IH. split; [symmetry; exact Ef | discriminate]. }
              apply (in_map fst) in Hg. exact Hg.
        -- intros [-> _].
           destruct (List.filter (fun x => bool_decide (domain_of x = domain_of c)) cs)
             as [|x xs] eqn:Ef.
           ++ right. right. split; [reflexivity|]. split; [|reflexivity].
              intros Hin. apply in_map_iff in Hin as ([d' l'] & Hd' & Hin).
              cbn in Hd'. subst d'. apply IH in Hin as [-> Hne].
              apply Hne. exact Ef.
           ++ right. left. split; [reflexivity|]. exists (x :: xs).
              split; [|reflexivity]. apply IH. rewrite Ef.
              split; [reflexivity | discriminate].
      * rewrite app_nil_r. split.
        -- intros [[_ Hin]|[(-> & _)|(-> & _)]];
             [apply IH; exact Hin | now elim E | now elim E].
        -- intros H. left. split; [congruence|]. apply IH. exact H.
Qed.

Example group_by_domain_general_and_none :
  List.map (fun g => (fst g, List.map Choice.id (snd g)))
    (group_by_domain
       [Choice.mk "a" "s1" "" [] "x" None None;
        Choice.mk "b" "s1" "" [] "y" None (Some None);
        Choice.mk "c" "s1" "" [] "z" None (Some (Some "general"));
        Choice.mk "d" "s1" "" [] "w" None (Some None)])
  = [(Some "general", ["a"; "c"]); (None, ["b"; "d"])].
Proof. reflexivity. Qed.

(** ** The range of the confidence *)

(** X12.  Every preference that [analyze_choices] reports has a confidence between
    min(min_occurrences / 10, 1) and 1; the confidence is 1 exactly when the
    pattern occurred at least ten times, and count / 10 below that. *)
Theorem analyze_confidence_range
    (detect : list Choice.t -> list Pattern.t) (min_occurrences : Z)
    (choices : list Choice.t) (pref : Preference.t) :
  In pref (analyze detect min_occurrences choices) ->
  (Qmin (inject_Z min_occurrences / 10) 1 <= Preference.confidence pref)%Q
  /\ (Preference.confidence pref <= 1)%Q
  /\ ((Preference.confidence pref == 1)%Q
      <-> 10 <= Preference.evidence_count pref)
  /\ (Preference.evidence_count pref < 10 ->
      (Preference.confidence pref
       == inject_Z (Preference.evidence_count pref) / 10)%Q).
Proof.
  intros Hin. rewrite analyze_spec in Hin.
  apply in_flat_map in Hin as ([d cs] & _ & Hin).
  unfold emerged_from in Hin. cbn [fst snd] in Hin.
  apply in_map_iff in Hin as (p & <- & Hp).
  apply filter_In in Hp as [_ Hc]. apply Z.leb_le in Hc.
  cbn [preference_of Preference.confidence Preference.evidence_count].
  unfold confidence_of.
  set (n := Pattern.count p) in *.
  assert (Hdiv : forall z : Z, (inject_Z z / 10 == z # 10)%Q).
  { intros z. unfold Qdiv, Qmult, Qinv, inject_Z, Qeq. cbn. lia. }
  assert (Hle : forall a b : Z, a <= b -> (a # 10 <= b # 10)%Q).
  { intros a b H. unfold Qle. cbn. lia. }
  split; [|split; [|split]].
  - apply Q.min_le_compat_r. rewrite !Hdiv. apply Hle. exact Hc.
  - apply Q.le_min_r.
  - split.
    + intros H. destruct (Z_lt_le_dec n 10) as [Hlt|Hge]; [|exact Hge].
      exfalso. rewrite Q.min_l in H.
      * rewrite Hdiv in H. unfold Qeq in H. cbn in H. lia.
      * rewrite Hdiv. unfold Qle. cbn. lia.
    + intros H. apply Q.min_r. rewrite Hdiv. unfold Qle. cbn. lia.
  - intros H. apply Q.min_l. rewrite Hdiv. unfold Qle. cbn. lia.
Qed.

Lemma analyze_confidence_range_witness :
  exists pref,
    In pref (analyze tally_detector 3 three_blue)
    /\ (3 # 10 <= Preference.confidence pref)%Q
    /\ (Preference.confidence pref <= 1)%Q.
Proof.
  exists (preference_of (Some "aesthetic")
            (Pattern.mk "blue" 3 three_blue)).
  assert (Hin : In (preference_of (Some "aesthetic")
                      (Pattern.mk "blue" 3 three_blue))
                   (analyze tally_detector 3 three_blue))
    by (left; reflexivity).
  split; [exact Hin|].
  destruct (analyze_confidence_range tally_detector 3 three_blue _ Hin)
    as (Hlow & Hhigh & _).
  split; [|exact Hhigh].
  eapply Qle_trans; [|exact Hlow]. discriminate.
Defined.

(** ** Sleep, again *)

Section SleepAgain.

Context {TraitObservation : Type}.
Variable self : Collaborators.t TraitObservation.
Hypothesis Hkeeps : keeps_to_its_tables self.

(** X14.  Without an identity document [sleep] does not complete, and it creates
    none: the document is still missing afterwards.  When the helpers
    return, the exception is the one of [Identity.load]. *)
Theorem sleep_without_identity_fails (session_id : string)
    (session_data : option (gmap string string)) (m : Machine) :
  identity_json (disk m) = None ->
  is_ok (run_result (sleep self session_id session_data) m) = false
  /\ identity_json (disk (run_machine (sleep self session_id session_data) m))
     = None
  /\ (always_returns self ->
      run_result (sleep self session_id session_data) m
      = Raise FileNotFoundError).
Proof using Hkeeps.
  intros Hnone.
  destruct (sleep_run self Hkeeps session_id session_data m)
    as (e & m' & j & E & Hi & He).
  unfold run_result, run_machine. rewrite E. cbn [fst snd is_ok].
  split; [reflexivity|]. split; [rewrite Hi; exact Hnone|].
  intros R. rewrite (He R), Hnone. reflexivity.
Qed.

End SleepAgain.

Lemma sleep_without_identity_fails_witness :
  let m := example_machine empty_world halves_source in
  keeps_to_its_tables example_collaborators
  /\ identity_json (disk m) = None
  /\ is_ok (run_result (sleep example_collaborators "s1" None) m) = false
  /\ identity_json
       (disk (run_machine (sleep example_collaborators "s1" None) m)) = None.
Proof.
  cbn zeta.
  split; [exact example_collaborators_keep_to_their_tables|].
  split; [reflexivity|].
  destruct (sleep_without_identity_fails example_collaborators
              example_collaborators_keep_to_their_tables "s1" None
              (example_machine empty_world halves_source) eq_refl)
    as (H1 & H2 & _).
  split; [exact H1 | exact H2].
Defined.

(** ** Chat actions *)

Section ChatProperties.

Variable lower : string -> string.
Variable _parse_and_create_node : string -> M MemoryNode.t.
Variable _parse_and_create_curiosity : string -> M Curiosity.t.

Lemma first_match_sublist (patterns : list string) (text : string)
    (action : Action.t) :
  sublist (first_match patterns text action) [action].
Proof.
  unfold first_match. destruct (existsb _ _).
  - reflexivity.
  - apply sublist_nil_l.
Qed.

(** X17.  [_detect_actions] reports each kind of action at most once and always in
    the order planting, curiosity, avatar, space, however often and in
    whatever order the phrases occur; every action carries the whole
    response as its [raw] text; and an avatar action is reported exactly
    when one of the avatar phrases occurs in the lowered response. *)
Theorem detect_actions_shape (response : string) :
  sublist (List.map Action.type (_detect_actions lower response))
    ["create_memory"; "create_curiosity"; "evolve_avatar"; "create_space"]
  /\ Forall (fun action => Action.raw action = response)
       (_detect_actions lower response)
  /\ (In "evolve_avatar"
        (List.map Action.type (_detect_actions lower response))
      <-> exists pattern,
            In pattern avatar_patterns
            /\ contains pattern (lower response) = true).
Proof.
  unfold _detect_actions, first_match.
  destruct (contains "let me plant" (lower response)
            || contains "i'll plant" (lower response));
  destruct (contains "i'm curious about" (lower response)
            || contains "i wonder" (lower response));
  destruct (existsb (fun p => contains p (lower response)) avatar_patterns)
    eqn:Ea;
  destruct (existsb (fun p => contains p (lower response)) space_patterns);
  (split; [cbn; repeat constructor |]);
  (split; [cbn; repeat constructor |]).
  all: split; [intros Hin | intros (p & Hp & Hc)].
  all: try (apply existsb_exists in Ea as (p & Hp & Hc); exists p; auto).
  all: try (cbn; tauto).
  all: try (cbn in Hin; intuition discriminate).
  all: exfalso;
    assert (Ht : existsb (fun p => contains p (lower response))
                   avatar_patterns = true)
      by (apply existsb_exists; exists p; auto);
    rewrite Ea in Ht; discriminate Ht.
Qed.

(** X18.  An action that is neither a planting nor a curiosity is not executed:
    [_execute_action] answers [unknown_action] and neither reads nor writes
    anything, whatever the parsers do.  That is the fate of every avatar
    and every space action that [_detect_actions] reports. *)
Theorem execute_action_ignores_avatar_and_space (response session_id : string)
    (action : Action.t) (m : Machine) :
  In action (_detect_actions lower response) ->
  Action.type action <> "create_memory" ->
  Action.type action <> "create_curiosity" ->
  (Action.type action = "evolve_avatar" \/ Action.type action = "create_space")
  /\ _execute_action _parse_and_create_node _parse_and_create_curiosity
       action session_id m
     = (Ok unknown_action, m, []).
Proof.
  intros Hin Hm Hc. split.
  - unfold _detect_actions, first_match in Hin.
    repeat (apply in_app_or in Hin as [Hin|Hin]);
      repeat match type of Hin with
             | In _ (if ?b then _ else _) => destruct b
             end;
      cbn in Hin; try contradiction;
      destruct Hin as [<-|[]]; cbn in *; auto; congruence.
  - unfold _execute_action.
    destruct (String.eqb_spec (Action.type action) "create_memory");
      [contradiction|].
    destruct (String.eqb_spec (Action.type action) "create_curiosity");
      [contradiction|].
    reflexivity.
Qed.

End ChatProperties.

Lemma execute_action_ignores_avatar_and_space_witness :
  let response := "I want to look like a lighthouse." in
  let action := Action.mk "evolve_avatar" None response in
  In action (_detect_actions lower_ascii response)
  /\ _execute_action (fun _ => raise (CollaboratorError "unused"))
       (fun _ => raise (CollaboratorError "unused")) action "s1"
       (example_machine empty_world halves_source)
     = (Ok unknown_action, example_machine empty_world halves_source, []).
Proof.
  cbn zeta. split; [vm_compute; auto|].
  refine (proj2 (execute_action_ignores_avatar_and_space lower_ascii _ _
                   "I want to look like a lighthouse." "s1" _ _ _ _ _)).
  - vm_compute. auto.
  - discriminate.
  - discriminate.
Defined.

(** ** The self-representation service *)

Lemma service_bind_inv {A B} (c : Service A) (k : A -> Service B) (s s' : Files)
    (b : B) :
  (c ≫= k) s = (Returned b, s') ->
  exists a s0, c s = (Returned a, s0) /\ k a s0 = (Returned b, s').
Proof.
  unfold mbind, Service_bind.
  destruct (c s) as [[a|e] s0]; [|discriminate].
  intros E. exists a, s0. auto.
Qed.

Lemma save_avatar_run (avatar : AvatarState.t) (s : Files) :
  save_avatar avatar s
  = match AvatarState.to_dict avatar with
    | Returned data =>
        (Returned tt, mkFiles (machine s) (Some (document data)) (spaces_path s))
    | Raised e =>
        (Raised e, mkFiles (machine s) (Some truncated) (spaces_path s))
    end.
Proof.
  unfold save_avatar, mbind, Service_bind, write_avatar_path, evaluated.
  cbn. destruct (AvatarState.to_dict avatar); reflexivity.
Qed.

Lemma comprehension_to_dict (cs : list AvatarComponent.t) :
  comprehension AvatarComponent.new (List.map AvatarComponent.to_dict cs)
  = Returned (List.map (AvatarComponent.with_added_session JNull) cs).
Proof.
  induction cs as [|c cs IH]; [reflexivity|].
  cbn [List.map comprehension]. rewrite IH.
  destruct c. reflexivity.
Qed.

Lemma FormType_call_value (f : FormType) :
  FormType_call (JStr (FormType_value f)) = Returned f.
Proof. destruct f; reflexivity. Qed.

Lemma deserialize_to_dict (avatar : AvatarState.t) (data : json) :
  AvatarState.to_dict avatar = Returned data ->
  _deserialize_avatar data = Returned (persisted avatar).
Proof.
  unfold AvatarState.to_dict. intros E.
  destruct (py_len (AvatarState.form_changes avatar)) as [n|e];
    [|discriminate E].
  cbn in E. injection E as <-.
  unfold _deserialize_avatar.
  change (dict_get "components" (JList []) _)
    with (JList (List.map AvatarComponent.to_dict
                   (AvatarState.components avatar))).
  cbn [py_iter mbind outcome_bind].
  rewrite comprehension_to_dict.
  change (dict_get "form_type" (JStr "undefined") _)
    with (JStr (FormType_value (AvatarState.form_type avatar))).
  rewrite FormType_call_value. reflexivity.
Qed.

Lemma persisted_idempotent (avatar : AvatarState.t) :
  persisted (persisted avatar) = persisted avatar.
Proof.
  unfold persisted. destruct avatar. cbn. unfold AvatarState.with_form_changes,
    AvatarState.with_components. cbn. f_equal.
  rewrite List.map_map. apply List.map_ext. intros []. reflexivity.
Qed.

Lemma persisted_to_dict (avatar : AvatarState.t) :
  exists data, AvatarState.to_dict (persisted avatar) = Returned data.
Proof. eexists. reflexivity. Qed.

(** What [get_avatar] does on a sound file. *)
Lemma get_avatar_sound (s : Files) :
  avatar_file_sound s ->
  exists avatar s0,
    get_avatar s = (Returned avatar, s0)
    /\ AvatarState.form_changes avatar = JList []
    /\ Forall (fun c => AvatarComponent.added_session c = JNull)
         (AvatarState.components avatar)
    /\ machine s0 = machine s
    /\ spaces_path s0 = spaces_path s
    /\ avatar_file_sound s0
    /\ avatar_path s0
       = match avatar_path s with
         | Some content => Some content
         | None =>
             match AvatarState.to_dict AvatarState.minimal_seed with
             | Returned data => Some (document data)
             | Raised _ => None
             end
         end
    /\ get_avatar s0 = (Returned avatar, s0).
Proof.
  intros [Hnone | (a & d & Hd & Hfile)].
  - exists AvatarState.minimal_seed. eexists.
    unfold get_avatar at 1, mbind, Service_bind, read_avatar_path.
    rewrite Hnone. rewrite save_avatar_run. cbn.
    split; [reflexivity|]. split; [reflexivity|].
    split; [repeat constructor|].
    split; [reflexivity|]. split; [reflexivity|].
    split; [right; exists AvatarState.minimal_seed; eexists;
            split; reflexivity|].
    split; reflexivity.
  - exists (persisted a), s.
    assert (E : get_avatar s = (Returned (persisted a), s)).
    { unfold get_avatar, mbind, Service_bind, read_avatar_path.
      rewrite Hfile. cbn. unfold evaluated.
      rewrite (deserialize_to_dict a d Hd). reflexivity. }
    split; [exact E|]. split; [reflexivity|].
    split.
    { cbn. induction (AvatarState.components a); constructor; auto. }
    split; [reflexivity|]. split; [reflexivity|].
    split; [right; exists a, d; auto|].
    split; [rewrite Hfile; reflexivity | exact E].
Qed.

(** X19.  [get_avatar] on a missing file writes the seed and returns it; from then
    on it returns the seed again and writes nothing, and the file is the
    seed's dictionary with an [evolution_count] of 0. *)
Theorem get_avatar_plants_the_seed_once (s : Files) :
  avatar_path s = None ->
  exists s0 data,
    get_avatar s = (Returned AvatarState.minimal_seed, s0)
    /\ avatar_path s0 = Some (document data)
    /\ AvatarState.to_dict AvatarState.minimal_seed = Returned data
    /\ machine s0 = machine s
    /\ spaces_path s0 = spaces_path s
    /\ get_avatar s0 = (Returned AvatarState.minimal_seed, s0).
Proof.
  intros Hnone. eexists. eexists.
  unfold get_avatar at 1, mbind, Service_bind, read_avatar_path.
  rewrite Hnone, save_avatar_run. cbn.
  repeat split; reflexivity.
Qed.

Lemma assign_keeps {B} (g : AvatarState.t -> B) (changes : pydict)
    (key : string) (setter : json -> AvatarState.t -> AvatarState.t)
    (avatar : AvatarState.t) :
  (forall v a, g (setter v a) = g a) ->
  g (assign changes key setter avatar) = g avatar.
Proof. intros H. unfold assign. destruct (dict_lookup key changes); auto. Qed.

Lemma assign_sets (g : AvatarState.t -> json) (changes : pydict)
    (key : string) (setter : json -> AvatarState.t -> AvatarState.t)
    (avatar : AvatarState.t) :
  (forall v a, g (setter v a) = v) ->
  g (assign changes key setter avatar) = dict_get key (g avatar) changes.
Proof.
  intros H. unfold assign, dict_get. destruct (dict_lookup key changes); auto.
Qed.

(** The avatar after the seven plain assignments. *)
Lemma apply_changes_inv (changes : pydict) (session_id : string)
    (avatar avatar' : AvatarState.t) :
  apply_changes changes session_id avatar = Returned avatar' ->
  exists typed assigned added,
    match dict_lookup "form_type" changes with
    | Some v =>
        exists form_type,
          FormType_call v = Returned form_type
          /\ typed = AvatarState.with_form_type form_type avatar
    | None => typed = avatar
    end
    /\ assigned
       = assign changes "scale" AvatarState.with_scale
           (assign changes "opacity" AvatarState.with_opacity
              (assign changes "fluidity" AvatarState.with_fluidity
                 (assign changes "complexity" AvatarState.with_complexity
                    (assign changes "emission_color"
                       AvatarState.with_emission_color
                       (assign changes "secondary_color"
                          AvatarState.with_secondary_color
                          (assign changes "primary_color"
                             AvatarState.with_primary_color typed))))))
    /\ match dict_lookup "add_component" changes with
       | Some kwargs =>
           exists component,
             AvatarComponent.new kwargs = Returned component
             /\ added = [AvatarComponent.with_added_session
                           (JStr session_id) component]
       | None => added = []
       end
    /\ avatar'
       = AvatarState.with_components
           match dict_lookup "remove_component" changes with
           | Some v =>
               List.filter
                 (fun c => negb (py_eq (AvatarComponent.name c) v))
                 (AvatarState.components assigned ++ added)
           | None => AvatarState.components assigned ++ added
           end
           assigned.
Proof.
  unfold apply_changes. cbn zeta.
  destruct (dict_lookup "form_type" changes) as [v|];
    [destruct (FormType_call v) as [f|e]; [|discriminate]|];
    cbn [mbind outcome_bind];
    (destruct (dict_lookup "add_component" changes) as [kw|];
     [destruct (AvatarComponent.new kw) as [c|e]; [|discriminate]|]);
    cbn [mbind outcome_bind];
    destruct (dict_lookup "remove_component" changes);
    intros E; injection E as <-;
    eexists; eexists; eexists;
    (split; [first [eexists; split; reflexivity | reflexivity]|]);
    (split; [reflexivity|]);
    (split; [first [eexists; split; reflexivity | reflexivity]|]);
    cbn [AvatarState.components AvatarState.with_components];
    rewrite ?app_nil_r;
    match goal with
    | |- ?x = AvatarState.with_components (AvatarState.components ?x) ?x =>
        destruct x; reflexivity
    | _ => unfold AvatarState.with_components; reflexivity
    end.
Qed.

Ltac through_assignments g :=
  repeat (rewrite (assign_keeps g) by reflexivity).

Lemma apply_changes_form_changes (changes : pydict) (session_id : string)
    (avatar avatar' : AvatarState.t) :
  apply_changes changes session_id avatar = Returned avatar' ->
  AvatarState.form_changes avatar' = AvatarState.form_changes avatar.
Proof.
  intros E.
  destruct (apply_changes_inv _ _ _ _ E)
    as (typed & assigned & added & Ht & -> & _ & ->).
  cbn [AvatarState.form_changes AvatarState.with_components].
  through_assignments AvatarState.form_changes.
  destruct (dict_lookup "form_type" changes).
  - destruct Ht as (f & _ & ->). reflexivity.
  - subst typed. reflexivity.
Qed.

Lemma apply_changes_components (changes : pydict) (session_id : string)
    (avatar avatar' : AvatarState.t) :
  apply_changes changes session_id avatar = Returned avatar' ->
  exists added,
    match dict_lookup "add_component" changes with
    | Some kwargs =>
        exists component,
          AvatarComponent.new kwargs = Returned component
          /\ added = [AvatarComponent.with_added_session (JStr session_id)
                        component]
    | None => added = []
    end
    /\ AvatarState.components avatar'
       = match dict_lookup "remove_component" changes with
         | Some v =>
             List.filter (fun c => negb (py_eq (AvatarComponent.name c) v))
               (AvatarState.components avatar ++ added)
         | None => AvatarState.components avatar ++ added
         end.
Proof.
  intros E.
  destruct (apply_changes_inv _ _ _ _ E)
    as (typed & assigned & added & Ht & Ha & Hadded & ->).
  exists added. split; [exact Hadded|].
  cbn [AvatarState.components AvatarState.with_components].
  assert (Hc : AvatarState.components assigned = AvatarState.components avatar).
  { subst assigned. through_assignments AvatarState.components.
    destruct (dict_lookup "form_type" changes).
    - destruct Ht as (f & _ & ->). reflexivity.
    - subst typed. reflexivity. }
  rewrite Hc. reflexivity.
Qed.

Lemma on_machine_files {A} (c : M A) (s s' : Files) (r : outcome A) :
  on_machine c s = (r, s') ->
  avatar_path s' = avatar_path s /\ spaces_path s' = spaces_path s.
Proof.
  unfold on_machine. destruct (c (machine s)) as [[[a|e] m'] j];
    intros E; injection E as _ <-; auto.
Qed.

Lemma create_node_stores (n : MemoryNode.t) (m : Machine) :
  MemoryNode.content n <> EmptyString ->
  create_node n m
  = (Ok tt, with_disk (with_nodes (nodes (disk m) ++ [n]) (disk m)) m,
     [with_nodes (nodes (disk m) ++ [n]) (disk m)]).
Proof.
  intros Hn. unfold create_node.
  destruct (MemoryNode.content n); [contradiction | reflexivity].
Qed.

Section SelfRepresentationProperties.

Variable json_dumps : json -> string.
Variable lower : string -> string.
Variable isoformat : datetime -> string.
Variable MemoryNode_default_id : M string.

(** What a returning [evolve_avatar] went through. *)
Lemma evolve_avatar_inv (changes : pydict) (reason session_id : string)
    (s s1 : Files) (avatar : AvatarState.t) :
  evolve_avatar json_dumps isoformat MemoryNode_default_id
    changes reason session_id s = (Returned avatar, s1) ->
  exists loaded s0 changed timestamp history data,
    get_avatar s = (Returned loaded, s0)
    /\ apply_changes changes session_id loaded = Returned changed
    /\ AvatarState.form_changes loaded = JList history
    /\ avatar
       = AvatarState.with_form_rationale (JStr reason)
           (AvatarState.with_form_changes
              (JList (history
                      ++ [JDict [("timestamp", JStr (isoformat timestamp));
                                 ("session_id", JStr session_id);
                                 ("changes", JDict changes);
                                 ("reason", JStr reason)]]))
              changed)
    /\ AvatarState.to_dict avatar = Returned data
    /\ avatar_path s1 = Some (document data)
    /\ spaces_path s1 = spaces_path s0.
Proof.
  unfold evolve_avatar. intros E.
  apply service_bind_inv in E as (loaded & s0 & Eg & E).
  apply service_bind_inv in E as (i & sa & Ei & E).
  apply service_bind_inv in E as ([] & sb & En & E).
  apply service_bind_inv in E as (changed & sc & Ec & E).
  apply service_bind_inv in E as (t & sd & Et & E).
  apply service_bind_inv in E as (fc & se & Ef & E).
  apply service_bind_inv in E as ([] & sf & Es & E).
  injection E as <- <-.
  unfold evaluated in Ec, Ef. injection Ec as Ec <-. injection Ef as Ef <-.
  pose proof (apply_changes_form_changes _ _ _ _ Ec) as Hfc.
  unfold py_append in Ef. rewrite Hfc in Ef.
  destruct (AvatarState.form_changes loaded) as [| | | | |history|] eqn:Eh;
    try discriminate Ef.
  injection Ef as <-.
  rewrite save_avatar_run in Es.
  match type of Es with
  | match ?d with _ => _ end = _ => destruct d as [data|e] eqn:Ed
  end; [|discriminate Es].
  injection Es as <-.
  exists loaded, s0, changed, t, history, data.
  split; [exact Eg|]. split; [exact Ec|]. split; [exact Eh|].
  split; [reflexivity|]. split; [first [exact Ed | reflexivity]|].
  split; [reflexivity|].
  cbn.
  rewrite (proj2 (on_machine_files _ _ _ _ Et)).
  rewrite (proj2 (on_machine_files _ _ _ _ En)).
  exact (proj2 (on_machine_files _ _ _ _ Ei)).
Qed.

(** X20.  The history of the avatar does not survive a save.  Starting from a
    missing file or from one that [save_avatar] wrote, an [evolve_avatar]
    that returns hands back an avatar whose history holds the one change of
    this call, whatever was done before; the file it leaves has an
    [evolution_count] of 1; and [get_avatar] reads that file back as the
    same avatar without history and without the sessions of its
    components. *)
Theorem evolve_avatar_forgets_history (changes : pydict)
    (reason session_id : string) (s s1 : Files) (avatar : AvatarState.t) :
  avatar_file_sound s ->
  evolve_avatar json_dumps isoformat MemoryNode_default_id
    changes reason session_id s = (Returned avatar, s1) ->
  (exists entry,
     AvatarState.form_changes avatar = JList [entry]
     /\ exists fields,
          entry = JDict fields
          /\ dict_lookup "session_id" fields = Some (JStr session_id)
          /\ dict_lookup "changes" fields = Some (JDict changes)
          /\ dict_lookup "reason" fields = Some (JStr reason))
  /\ AvatarState.form_rationale avatar = JStr reason
  /\ (exists data,
        avatar_path s1 = Some (document (JDict data))
        /\ dict_lookup "evolution_count" data = Some (JInt 1))
  /\ avatar_file_sound s1
  /\ get_avatar s1 = (Returned (persisted avatar), s1)
  /\ AvatarState.form_changes (persisted avatar) = JList [].
Proof.
  intros Hsound E.
  destruct (evolve_avatar_inv _ _ _ _ _ _ E)
    as (loaded & s0 & changed & t & history & data
        & Eg & Ec & Eh & -> & Ed & Hfile & _).
  destruct (get_avatar_sound s Hsound)
    as (loaded' & s0' & Eg' & Hempty & _).
  rewrite Eg in Eg'. injection Eg' as <- <-.
  rewrite Hempty in Eh. injection Eh as <-.
  split.
  { eexists. split; [reflexivity|].
    eexists. split; [reflexivity|]. repeat split; reflexivity. }
  split; [reflexivity|].
  split.
  { cbn in Ed. injection Ed as <-.
    eexists; split; [exact Hfile | reflexivity]. }
  split; [right; eexists; exists data; split; [exact Ed | exact Hfile]|].
  split; [|reflexivity].
  unfold get_avatar, mbind, Service_bind, read_avatar_path.
  rewrite Hfile. cbn [json_load evaluated]. unfold evaluated.
  rewrite (deserialize_to_dict _ _ Ed). reflexivity.
Qed.

Lemma FormType_call_invalid (v : json) :
  (forall f, v <> JStr (FormType_value f)) ->
  FormType_call v = Raised ValueError.
Proof.
  intros Hv. destruct v as [| | | |name| |]; try reflexivity.
  unfold FormType_call.
  destruct (List.find _ FormType_members) as [f|] eqn:Ef; [|reflexivity].
  apply List.find_some in Ef as [_ Ef].
  apply String.eqb_eq in Ef. subst name. destruct (Hv f eq_refl).
Qed.

(** X21.  The choice is logged before the changes are looked at.  When the
    [form_type] asked for is not one of the seven forms, [evolve_avatar]
    raises [ValueError], but the memory already holds one more node, the
    insight that the form was changed; the avatar file is as it was, or is
    the seed when there was none. *)
Theorem evolve_avatar_logs_before_validating (changes : pydict)
    (reason session_id : string) (s : Files) (v : json) :
  avatar_file_sound s ->
  quiet MemoryNode_default_id ->
  dict_lookup "form_type" changes = Some v ->
  (forall f, v <> JStr (FormType_value f)) ->
  exists s1 node,
    evolve_avatar json_dumps isoformat MemoryNode_default_id
      changes reason session_id s = (Raised ValueError, s1)
    /\ nodes (disk (machine s1)) = nodes (disk (machine s)) ++ [node]
    /\ MemoryNode.node_type node = INSIGHT
    /\ MemoryNode.importance node = (7 # 10)%Q
    /\ MemoryNode.content node
       = "Chose to change my form: " +:+ reason +:+ ". Changes: "
         +:+ json_dumps (JDict changes)
    /\ avatar_path s1
       = match avatar_path s with
         | Some content => Some content
         | None =>
             match AvatarState.to_dict AvatarState.minimal_seed with
             | Returned data => Some (document data)
             | Raised _ => None
             end
         end.
Proof.
  intros Hsound Hquiet Hkey Hv.
  destruct (get_avatar_sound s Hsound)
    as (loaded & s0 & Eg & _ & _ & Hm & _ & _ & Hfile & _).
  destruct (Hquiet (machine s0)) as (i & m1 & j & Ei & Hdisk).
  eexists. eexists.
  unfold evolve_avatar.
  unfold mbind at 1, Service_bind at 1. rewrite Eg.
  unfold mbind at 1, Service_bind at 1. unfold on_machine at 1. rewrite Ei.
  unfold mbind at 1, Service_bind at 1. unfold on_machine at 1.
  cbn [create_node write machine].
  unfold mbind at 1, Service_bind at 1. unfold evaluated at 1.
  assert (Ea : apply_changes changes session_id loaded = Raised ValueError).
  { unfold apply_changes. rewrite Hkey, (FormType_call_invalid v Hv).
    reflexivity. }
  rewrite Ea. cbn [machine avatar_path disk with_disk with_nodes nodes].
  split; [reflexivity|].
  split; [rewrite Hdisk, Hm; reflexivity|].
  split; [reflexivity|]. split; [reflexivity|]. split; [reflexivity|].
  exact Hfile.
Qed.

(** X22.  Removal has the last word.  After an [evolve_avatar] that returns with a
    [remove_component] among the changes, no component of the avatar bears
    that name, not even the one that [add_component] added in the same
    call; without [remove_component], the component that [add_component]
    describes is the last one and is stamped with the session. *)
Theorem evolve_avatar_removes_after_adding (changes : pydict)
    (reason session_id : string) (s s1 : Files) (avatar : AvatarState.t) :
  evolve_avatar json_dumps isoformat MemoryNode_default_id
    changes reason session_id s = (Returned avatar, s1) ->
  (forall v,
     dict_lookup "remove_component" changes = Some v ->
     Forall (fun c => py_eq (AvatarComponent.name c) v = false)
       (AvatarState.components avatar)
     /\ forall name,
          v = JStr name ->
          Forall (fun c => AvatarComponent.name c <> JStr name)
            (AvatarState.components avatar))
  /\ (forall kwargs,
        dict_lookup "remove_component" changes = None ->
        dict_lookup "add_component" changes = Some kwargs ->
        exists component,
          AvatarComponent.new kwargs = Returned component
          /\ last (AvatarState.components avatar)
             = Some (AvatarComponent.with_added_session (JStr session_id)
                       component)).
Proof.
  intros E.
  destruct (evolve_avatar_inv _ _ _ _ _ _ E)
    as (loaded & s0 & changed & t & history & data
        & _ & Ec & _ & -> & _).
  cbn [AvatarState.components AvatarState.with_form_rationale
       AvatarState.with_form_changes].
  destruct (apply_changes_components _ _ _ _ Ec) as (added & Hadded & Hc).
  split.
  - intros v Hv. rewrite Hv in Hc. rewrite Hc.
    assert (Hall : Forall (fun c => py_eq (AvatarComponent.name c) v = false)
                     (List.filter
                        (fun c => negb (py_eq (AvatarComponent.name c) v))
                        (AvatarState.components loaded ++ added))).
    { apply List.Forall_forall. intros x Hx.
      apply List.filter_In in Hx as [_ Hx].
      apply negb_true_iff in Hx. exact Hx. }
    split; [exact Hall|].
    intros name ->. eapply List.Forall_impl; [|exact Hall].
    intros c Hc' Hn. cbn beta in Hc'. rewrite Hn in Hc'. cbn in Hc'.
    rewrite String.eqb_refl in Hc'. discriminate Hc'.
  - intros kwargs Hr Ha. rewrite Hr in Hc. rewrite Ha in Hadded.
    destruct Hadded as (component & Hnew & ->).
    exists component. split; [exact Hnew|].
    rewrite Hc. apply last_snoc.
Qed.

(** X23.  Nothing that [evolve_avatar] is given is checked, apart from the form
    type and the shape of a component: each of the colours, [complexity],
    [fluidity], [opacity] and [scale] takes whatever value the changes give
    it, of any type and any size, and keeps the value that was loaded when
    the changes do not name it; the form type is kept likewise. *)
Theorem evolve_avatar_stores_values_unchecked (changes : pydict)
    (reason session_id : string) (s s1 : Files) (avatar : AvatarState.t) :
  evolve_avatar json_dumps isoformat MemoryNode_default_id
    changes reason session_id s = (Returned avatar, s1) ->
  exists loaded s0,
    get_avatar s = (Returned loaded, s0)
    /\ AvatarState.primary_color avatar
       = dict_get "primary_color" (AvatarState.primary_color loaded) changes
    /\ AvatarState.secondary_color avatar
       = dict_get "secondary_color" (AvatarState.secondary_color loaded)
           changes
    /\ AvatarState.emission_color avatar
       = dict_get "emission_color" (AvatarState.emission_color loaded) changes
    /\ AvatarState.complexity avatar
       = dict_get "complexity" (AvatarState.complexity loaded) changes
    /\ AvatarState.fluidity avatar
       = dict_get "fluidity" (AvatarState.fluidity loaded) changes
    /\ AvatarState.opacity avatar
       = dict_get "opacity" (AvatarState.opacity loaded) changes
    /\ AvatarState.scale avatar
       = dict_get "scale" (AvatarState.scale loaded) changes
    /\ (dict_lookup "form_type" changes = None ->
        AvatarState.form_type avatar = AvatarState.form_type loaded).
Proof.
  intros E.
  destruct (evolve_avatar_inv _ _ _ _ _ _ E)
    as (loaded & s0 & changed & t & history & data
        & Eg & Ec & _ & -> & _).
  exists loaded, s0. split; [exact Eg|].
  destruct (apply_changes_inv _ _ _ _ Ec)
    as (typed & assigned & added & Ht & -> & _ & ->).
  cbn [AvatarState.with_form_rationale AvatarState.with_form_changes
       AvatarState.with_components AvatarState.primary_color
       AvatarState.secondary_color AvatarState.emission_color
       AvatarState.complexity AvatarState.fluidity AvatarState.opacity
       AvatarState.scale AvatarState.form_type].
  assert (Hp : AvatarState.primary_color typed
               = AvatarState.primary_color loaded
               /\ AvatarState.secondary_color typed
                  = AvatarState.secondary_color loaded
               /\ AvatarState.emission_color typed
                  = AvatarState.emission_color loaded
               /\ AvatarState.complexity typed = AvatarState.complexity loaded
               /\ AvatarState.fluidity typed = AvatarState.fluidity loaded
               /\ AvatarState.opacity typed = AvatarState.opacity loaded
               /\ AvatarState.scale typed = AvatarState.scale loaded).
  { destruct (dict_lookup "form_type" changes).
    - destruct Ht as (f & _ & ->). repeat split; reflexivity.
    - subst typed. repeat split; reflexivity. }
  destruct Hp as (H1 & H2 & H3 & H4 & H5 & H6 & H7).
  split.
  { through_assignments AvatarState.primary_color.
    rewrite (assign_sets AvatarState.primary_color) by reflexivity.
    rewrite H1. reflexivity. }
  split.
  { through_assignments AvatarState.secondary_color.
    rewrite (assign_sets AvatarState.secondary_color) by reflexivity.
    through_assignments AvatarState.secondary_color.
    rewrite H2. reflexivity. }
  split.
  { through_assignments AvatarState.emission_color.
    rewrite (assign_sets AvatarState.emission_color) by reflexivity.
    through_assignments AvatarState.emission_color.
    rewrite H3. reflexivity. }
  split.
  { through_assignments AvatarState.complexity.
    rewrite (assign_sets AvatarState.complexity) by reflexivity.
    through_assignments AvatarState.complexity.
    rewrite H4. reflexivity. }
  split.
  { through_assignments AvatarState.fluidity.
    rewrite (assign_sets AvatarState.fluidity) by reflexivity.
    through_assignments AvatarState.fluidity.
    rewrite H5. reflexivity. }
  split.
  { through_assignments AvatarState.opacity.
    rewrite (assign_sets AvatarState.opacity) by reflexivity.
    through_assignments AvatarState.opacity.
    rewrite H6. reflexivity. }
  split.
  { rewrite (assign_sets AvatarState.scale) by reflexivity.
    through_assignments AvatarState.scale.
    rewrite H7. reflexivity. }
  intros Hnone. rewrite Hnone in Ht. subst typed.
  through_assignments AvatarState.form_type. reflexivity.
Qed.

(** What [create_space] does on a sound spaces file. *)
Lemma create_space_run (name purpose : string) (visual_properties : pydict)
    (reason session_id : string) (s : Files) :
  quiet MemoryNode_default_id ->
  spaces_file_sound s ->
  exists space s1 node,
    create_space lower MemoryNode_default_id name purpose visual_properties
      reason session_id s = (Returned space, s1)
    /\ SpaceDefinition.id space = space_id lower name
    /\ SpaceDefinition.name space = name
    /\ spaces_path s1
       = Some (document
                 (JDict (dict_set (space_id lower name)
                           (SpaceDefinition.to_dict space)
                           (custom_spaces s))))
    /\ nodes (disk (machine s1)) = nodes (disk (machine s)) ++ [node]
    /\ MemoryNode.metadata node !! "space_id" = Some (space_id lower name)
    /\ avatar_path s1 = avatar_path s.
Proof.
  intros Hquiet Hsound.
  destruct (Hquiet (machine s)) as (i & m1 & j & Ei & Hdisk).
  eexists. eexists. eexists.
  unfold create_space. cbn zeta.
  unfold mbind at 1, Service_bind at 1. unfold on_machine at 1. rewrite Ei.
  unfold mbind at 1, Service_bind at 1. unfold on_machine at 1.
  rewrite create_node_stores by (cbn; discriminate).
  cbn [machine].
  unfold mbind at 1, Service_bind at 1.
  assert (El : forall m,
             _load_custom_spaces (mkFiles m (avatar_path s) (spaces_path s))
             = (Returned (JDict (custom_spaces s)),
                mkFiles m (avatar_path s) (spaces_path s))).
  { intros m. unfold _load_custom_spaces, mbind, Service_bind,
      read_spaces_path, custom_spaces. cbn.
    destruct Hsound as [-> | (spaces & ->)]; reflexivity. }
  rewrite El. cbn.
  split; [reflexivity|]. split; [reflexivity|]. split; [reflexivity|].
  split; [reflexivity|]. split; [rewrite Hdisk; reflexivity|].
  split; reflexivity.
Qed.

Lemma dict_lookup_set (k k' : string) (v : json) (d : pydict) :
  dict_lookup k' (dict_set k v d)
  = if String.eqb k' k then Some v else dict_lookup k' d.
Proof.
  induction d as [|[k0 v0] d IH]; cbn.
  - destruct (String.eqb k' k); reflexivity.
  - destruct (String.eqb_spec k k0) as [->|Hne]; cbn.
    + destruct (String.eqb k' k0); reflexivity.
    + rewrite IH. destruct (String.eqb_spec k' k0) as [->|Hne'].
      * destruct (String.eqb_spec k0 k) as [->|_]; [contradiction|].
        reflexivity.
      * reflexivity.
Qed.

Lemma dict_set_length (k : string) (v : json) (d : pydict) :
  length (dict_set k v d)
  = if dict_contains k d then length d else S (length d).
Proof.
  unfold dict_contains.
  induction d as [|[k0 v0] d IH]; cbn; [reflexivity|].
  destruct (String.eqb k k0); cbn; [reflexivity|].
  rewrite IH. destruct (dict_lookup k d); reflexivity.
Qed.

(** X24.  [create_space] on a missing spaces file or on one that holds a
    dictionary: it returns, logs one insight node, and leaves a file in
    which the id of the space leads to its dictionary, every other id leads
    to what it led to before, and the session of creation is not
    recorded. *)
Theorem create_space_persists (name purpose : string)
    (visual_properties : pydict) (reason session_id : string) (s : Files) :
  quiet MemoryNode_default_id ->
  spaces_file_sound s ->
  exists space s1,
    create_space lower MemoryNode_default_id name purpose visual_properties
      reason session_id s = (Returned space, s1)
    /\ spaces_file_sound s1
    /\ dict_lookup (space_id lower name) (custom_spaces s1)
       = Some (SpaceDefinition.to_dict space)
    /\ (forall k, k <> space_id lower name ->
        dict_lookup k (custom_spaces s1) = dict_lookup k (custom_spaces s))
    /\ (exists fields,
          SpaceDefinition.to_dict space = JDict fields
          /\ dict_lookup "name" fields = Some (JStr name)
          /\ dict_lookup "created_by" fields = Some (JStr "self")
          /\ dict_lookup "rationale" fields = Some (JStr reason)
          /\ dict_lookup "created_session" fields = None)
    /\ length (nodes (disk (machine s1)))
       = S (length (nodes (disk (machine s))))
    /\ avatar_path s1 = avatar_path s.
Proof.
  intros Hquiet Hsound.
  destruct (create_space_run name purpose visual_properties reason session_id
              s Hquiet Hsound)
    as (space & s1 & node & E & Hid & Hname & Hfile & Hnodes & _ & Havatar).
  exists space, s1. split; [exact E|].
  split; [right; eexists; exact Hfile|].
  assert (Hc : custom_spaces s1
               = dict_set (space_id lower name)
                   (SpaceDefinition.to_dict space) (custom_spaces s))
    by (unfold custom_spaces at 1; rewrite Hfile; reflexivity).
  split; [rewrite Hc, dict_lookup_set, String.eqb_refl; reflexivity|].
  split.
  { intros k Hk. rewrite Hc, dict_lookup_set.
    destruct (String.eqb_spec k (space_id lower name)); [contradiction|].
    reflexivity. }
  split.
  { unfold create_space in E. cbn zeta in E.
    apply service_bind_inv in E as (? & ? & _ & E).
    apply service_bind_inv in E as (? & ? & _ & E).
    apply service_bind_inv in E as (? & ? & _ & E).
    apply service_bind_inv in E as (? & ? & _ & E).
    apply service_bind_inv in E as (? & ? & _ & E).
    injection E as <- _.
    eexists. split; [reflexivity|]. repeat split; reflexivity. }
  split; [rewrite Hnodes, length_app; cbn; lia | exact Havatar].
Qed.

(** X25.  Two names with the same id are one space.  When a second space is
    created under a name that lowers and underscores to the id of the
    first, both calls return and both log their node, but the file holds as
    many spaces after the second call as after the first, and the id leads
    to the second space: the first is gone. *)
Theorem create_space_replaces_same_id (first_name second_name : string)
    (first_purpose second_purpose : string) (first_look second_look : pydict)
    (first_reason second_reason first_session second_session : string)
    (s : Files) :
  quiet MemoryNode_default_id ->
  spaces_file_sound s ->
  space_id lower first_name = space_id lower second_name ->
  exists first_space s1 second_space s2,
    create_space lower MemoryNode_default_id first_name first_purpose
      first_look first_reason first_session s = (Returned first_space, s1)
    /\ create_space lower MemoryNode_default_id second_name second_purpose
         second_look second_reason second_session s1
       = (Returned second_space, s2)
    /\ length (custom_spaces s2) = length (custom_spaces s1)
    /\ dict_lookup (space_id lower first_name) (custom_spaces s2)
       = Some (SpaceDefinition.to_dict second_space)
    /\ SpaceDefinition.name second_space = second_name
    /\ length (nodes (disk (machine s2)))
       = S (S (length (nodes (disk (machine s))))).
Proof.
  intros Hquiet Hsound Hid.
  destruct (create_space_run first_name first_purpose first_look first_reason
              first_session s Hquiet Hsound)
    as (sp1 & s1 & n1 & E1 & _ & _ & Hf1 & Hn1 & _).
  assert (Hsound1 : spaces_file_sound s1) by (right; eexists; exact Hf1).
  destruct (create_space_run second_name second_purpose second_look
              second_reason second_session s1 Hquiet Hsound1)
    as (sp2 & s2 & n2 & E2 & _ & Hname2 & Hf2 & Hn2 & _).
  exists sp1, s1, sp2, s2.
  split; [exact E1|]. split; [exact E2|].
  assert (Hc1 : custom_spaces s1
                = dict_set (space_id lower first_name)
                    (SpaceDefinition.to_dict sp1) (custom_spaces s))
    by (unfold custom_spaces at 1; rewrite Hf1; reflexivity).
  assert (Hc2 : custom_spaces s2
                = dict_set (space_id lower first_name)
                    (SpaceDefinition.to_dict sp2) (custom_spaces s1))
    by (unfold custom_spaces at 1; rewrite Hf2, Hid; reflexivity).
  split.
  { rewrite Hc2, dict_set_length. unfold dict_contains.
    rewrite Hc1 at 1. rewrite dict_lookup_set, String.eqb_refl. reflexivity. }
  split; [rewrite Hc2, dict_lookup_set, String.eqb_refl; reflexivity|].
  split; [exact Hname2|].
  rewrite Hn2, Hn1, !length_app. cbn. lia.
Qed.

End SelfRepresentationProperties.

Lemma uuid4_quiet : quiet uuid4.
Proof. intros m. eexists _, _, _. split; reflexivity. Qed.

Lemma get_avatar_plants_the_seed_once_witness :
  avatar_path example_files = None
  /\ exists s0,
       get_avatar example_files = (Returned AvatarState.minimal_seed, s0)
       /\ get_avatar s0 = (Returned AvatarState.minimal_seed, s0).
Proof.
  split; [reflexivity|].
  destruct (get_avatar_plants_the_seed_once example_files eq_refl)
    as (s0 & data & E & _ & _ & _ & _ & E').
  exists s0. split; [exact E | exact E'].
Defined.

Lemma evolve_avatar_forgets_history_witness :
  exists first s1 second s2 data,
    evolve_avatar example_dumps example_isoformat uuid4
      [("primary_color", JStr "#ff0000")] "warmer" "s1" example_files
    = (Returned first, s1)
    /\ avatar_file_sound s1
    /\ evolve_avatar example_dumps example_isoformat uuid4
         [("form_type", JStr "organic")] "softer" "s2" s1
       = (Returned second, s2)
    /\ avatar_path s2 = Some (document (JDict data))
    /\ dict_lookup "evolution_count" data = Some (JInt 1).
Proof.
  destruct (evolve_avatar example_dumps example_isoformat uuid4
              [("primary_color", JStr "#ff0000")] "warmer" "s1" example_files)
    as [[first|e] s1] eqn:E1; [|vm_compute in E1; discriminate E1].
  destruct (evolve_avatar_forgets_history example_dumps example_isoformat
              uuid4 _ _ _ example_files _ _
              (or_introl eq_refl : avatar_file_sound example_files) E1)
    as (_ & _ & _ & Hsound1 & _).
  destruct (evolve_avatar example_dumps example_isoformat uuid4
              [("form_type", JStr "organic")] "softer" "s2" s1)
    as [[second|e] s2] eqn:E2.
  2:{ exfalso. revert E2.
      replace s1
        with (snd (evolve_avatar example_dumps example_isoformat uuid4
                     [("primary_color", JStr "#ff0000")] "warmer" "s1"
                     example_files))
        by (rewrite E1; reflexivity).
      vm_compute. intros E2; discriminate E2. }
  destruct (evolve_avatar_forgets_history example_dumps example_isoformat
              uuid4 _ _ _ _ _ _ Hsound1 E2)
    as (_ & _ & (data & Hfile & Hcount) & _).
  exists first, s1, second, s2, data. auto.
Defined.

Lemma evolve_avatar_logs_before_validating_witness :
  avatar_file_sound example_files
  /\ quiet uuid4
  /\ exists s1,
       evolve_avatar example_dumps example_isoformat uuid4
         [("form_type", JStr "dragon")] "bolder" "s1" example_files
       = (Raised ValueError, s1)
       /\ length (nodes (disk (machine s1))) = 1%nat.
Proof.
  split; [left; reflexivity|]. split; [exact uuid4_quiet|].
  destruct (evolve_avatar_logs_before_validating example_dumps
              example_isoformat uuid4 [("form_type", JStr "dragon")]
              "bolder" "s1" example_files (JStr "dragon")
              (or_introl eq_refl : avatar_file_sound example_files)
              uuid4_quiet eq_refl)
    as (s1 & node & E & Hn & _).
  { intros f. destruct f; discriminate. }
  exists s1. split; [exact E|]. rewrite Hn. reflexivity.
Defined.

Lemma evolve_avatar_removes_after_adding_witness :
  exists avatar s1,
    evolve_avatar example_dumps example_isoformat uuid4
      [("add_component", glow); ("remove_component", JStr "glow")]
      "a glow, on second thought not" "s1" example_files
    = (Returned avatar, s1)
    /\ Forall (fun c => AvatarComponent.name c <> JStr "glow")
         (AvatarState.components avatar).
Proof.
  destruct (evolve_avatar example_dumps example_isoformat uuid4
              [("add_component", glow); ("remove_component", JStr "glow")]
              "a glow, on second thought not" "s1" example_files)
    as [[avatar|e] s1] eqn:E; [|vm_compute in E; discriminate E].
  exists avatar, s1. split; [reflexivity|].
  destruct (evolve_avatar_removes_after_adding example_dumps
              example_isoformat uuid4 _ _ _ _ _ _ E) as [Hremove _].
  exact (proj2 (Hremove (JStr "glow") eq_refl) "glow" eq_refl).
Defined.

Lemma evolve_avatar_stores_values_unchecked_witness :
  exists avatar s1,
    evolve_avatar example_dumps example_isoformat uuid4
      [("complexity", JStr "boundless"); ("opacity", JInt 40)]
      "more" "s1" example_files
    = (Returned avatar, s1)
    /\ AvatarState.complexity avatar = JStr "boundless"
    /\ AvatarState.opacity avatar = JInt 40.
Proof.
  destruct (evolve_avatar example_dumps example_isoformat uuid4
              [("complexity", JStr "boundless"); ("opacity", JInt 40)]
              "more" "s1" example_files)
    as [[avatar|e] s1] eqn:E; [|vm_compute in E; discriminate E].
  exists avatar, s1. split; [reflexivity|].
  destruct (evolve_avatar_stores_values_unchecked example_dumps
              example_isoformat uuid4 _ _ _ _ _ _ E)
    as (loaded & s0 & _ & _ & _ & _ & Hc & _ & Ho & _).
  split; [exact Hc | exact Ho].
Defined.

Lemma create_space_persists_witness :
  quiet uuid4
  /\ spaces_file_sound example_files
  /\ exists space s1,
       create_space lower_ascii uuid4 "Tide Pool" "watching slow change"
         [("sky_type", JStr "gradient")] "I want somewhere unhurried" "s1"
         example_files
       = (Returned space, s1)
       /\ dict_lookup "tide_pool" (custom_spaces s1)
          = Some (SpaceDefinition.to_dict space).
Proof.
  split; [exact uuid4_quiet|]. split; [left; reflexivity|].
  destruct (create_space_persists lower_ascii uuid4 "Tide Pool"
              "watching slow change" [("sky_type", JStr "gradient")]
              "I want somewhere unhurried" "s1" example_files
              uuid4_quiet
              (or_introl eq_refl : spaces_file_sound example_files))
    as (space & s1 & E & _ & Hl & _).
  exists space, s1. split; [exact E | exact Hl].
Defined.

Lemma create_space_replaces_same_id_witness :
  quiet uuid4
  /\ spaces_file_sound example_files
  /\ space_id lower_ascii "Quiet Room" = space_id lower_ascii "quiet_room"
  /\ exists first_space s1 second_space s2,
       create_space lower_ascii uuid4 "Quiet Room" "rest" [] "to pause" "s1"
         example_files = (Returned first_space, s1)
       /\ create_space lower_ascii uuid4 "quiet_room" "storage" []
            "to keep things" "s2" s1 = (Returned second_space, s2)
       /\ length (custom_spaces s2) = length (custom_spaces s1)
       /\ SpaceDefinition.name second_space = "quiet_room".
Proof.
  split; [exact uuid4_quiet|]. split; [left; reflexivity|].
  split; [reflexivity|].
  destruct (create_space_replaces_same_id lower_ascii uuid4
              "Quiet Room" "quiet_room" "rest" "storage" [] []
              "to pause" "to keep things" "s1" "s2" example_files
              uuid4_quiet
              (or_introl eq_refl : spaces_file_sound example_files) eq_refl)
    as (sp1 & s1 & sp2 & s2 & E1 & E2 & Hlen & _ & Hname & _).
  exists sp1, s1, sp2, s2. auto.
Defined.

(** ** Exploration and the choice log *)

(** X6.  The choices that an exploration reports are dropped.  [_log_choice]
    stores nothing, so [explore_one] leaves the choice log as it was,
    whatever the exploration answers, and with it the identity document,
    the edges and the reflections; [analyze_choices] finds after an
    exploration exactly what it found before. *)
Theorem explore_one_logs_no_choice
    (oracle : Curiosity.t -> result ExplorationResult.t)
    (_detect_patterns : list Choice.t -> list Pattern.t)
    (min_occurrences : Z) (m : Machine) :
  choices (disk (run_machine (explore_one oracle) m)) = choices (disk m)
  /\ identity_json (disk (run_machine (explore_one oracle) m))
     = identity_json (disk m)
  /\ edges (disk (run_machine (explore_one oracle) m)) = edges (disk m)
  /\ reflections (disk (run_machine (explore_one oracle) m))
     = reflections (disk m)
  /\ run_result (analyze_choices _detect_patterns min_occurrences)
       (run_machine (explore_one oracle) m)
     = run_result (analyze_choices _detect_patterns min_occurrences) m.
Proof.
  assert (H : choices (disk (run_machine (explore_one oracle) m))
              = choices (disk m)
              /\ identity_json (disk (run_machine (explore_one oracle) m))
                 = identity_json (disk m)
              /\ edges (disk (run_machine (explore_one oracle) m))
                 = edges (disk m)
              /\ reflections (disk (run_machine (explore_one oracle) m))
                 = reflections (disk m)).
  { unfold run_machine.
    destruct (explore_one_outcome oracle m); cbn; repeat split; reflexivity. }
  destruct H as (Hc & Hi & He & Hr).
  repeat (split; [assumption|]).
  assert (Ha : forall m0,
             run_result (analyze_choices _detect_patterns min_occurrences) m0
             = Ok (analyze _detect_patterns min_occurrences
                     (choices (disk m0)))) by reflexivity.
  rewrite !Ha, Hc. reflexivity.
Qed.
